(** * Mol* plugin core: a shallow embedding of the sources and their specification

  The development follows the TypeScript sources module by module:

  - [Properties]  : mol-model/structure/query/properties.ts
  - [Model]       : the [Model.getCenter] cache (mol-model/structure/model)
  - [Ccp4]        : mol-model/volume/formats/ccp4.ts
  - [Tasks]       : the sequential reading of an [async] task body
  - [Behavior]    : the [RCSBAssemblySymmetry] behavior handler
  - [Symmetry3D]  : the [InitAssemblySymmetry3D] action and the
  [AssemblySymmetry3D] transformer
  - [DirectVolume] : the volume textures of mol-repr/volume/direct-volume.ts
  - [Trajectory], [ModelSource] : the rest of the [Model] namespace
  - [MoreProperties] : the coarse, entity and unit properties
  - [Superposition] : mol-plugin-ui/structure/superposition.tsx
  - [Viewer]      : the constructor of apps/viewer/index.ts

  JavaScript exceptions are results ([Thrown]), mutable objects are threaded
  explicitly, and [async] bodies are read sequentially (the state tree admits
  one mutation at a time, so there is no interleaving inside one body). *)

From Stdlib Require Import ZArith QArith Reals Lra Lia List String Ascii.
From stdpp Require Import base gmap strings list fin_maps.

Local Open Scope string_scope.
Local Open Scope Z_scope.

(** ** Results of a JavaScript call: a value or a thrown exception *)

Inductive Outcome (E A : Type) : Type :=
| Returned (a : A)
| Thrown (e : E).
Arguments Returned {E A} a.
Arguments Thrown {E A} e.

(** ** mol-model/structure/query/properties.ts *)

Module Properties.

(** What a property may evaluate to.  Column reads that miss their row give
  [VUndefined], as a JavaScript array read out of range does. *)
Inductive Value : Type :=
| VBool (b : bool)
| VInt (z : Z)
| VNum (q : Q)
| VStr (s : string)
| VUndefined.

(** A column of a table: [value(row)].  The row may itself be the result of
  an array read that missed, hence the [option]. *)
Definition Column := Z -> Value.

Definition column_value (c : Column) (row : option Z) : Value :=
  match row with
  | Some i => c i
  | None => VUndefined
  end.

(** A JavaScript array of row indices read at an arbitrary number. *)
Definition array_get (xs : list Z) (i : Z) : option Z :=
  if i <? 0 then None else xs !! Z.to_nat i.

Record AtomicConformation := {
  atomId : Column;
  occupancy : Column;
  B_iso_or_equiv : Column
}.

Record Atoms := {
  type_symbol : Column;
  label_atom_id : Column;
  auth_atom_id : Column;
  label_alt_id : Column;
  pdbx_formal_charge : Column
}.

Record Residues := {
  group_PDB : Column;
  label_comp_id : Column;
  auth_comp_id : Column;
  label_seq_id : Column;
  auth_seq_id : Column;
  pdbx_PDB_ins_code : Column
}.

Record Chains := {
  label_asym_id : Column;
  auth_asym_id : Column;
  label_entity_id : Column
}.

Record AtomicHierarchy := {
  atoms : Atoms;
  residues : Residues;
  chains : Chains;
  residueKey : Column;
  chainKey : Column;
  entityKey : Column
}.

(** The part of a unit that only atomic units carry. *)
Record AtomicData := {
  conformation : AtomicConformation;
  hierarchy : AtomicHierarchy;
  residueIndex : list Z;
  chainIndex : list Z
}.

(** [Unit.Kind]: a unit is atomic or one of the two coarse kinds. *)
Inductive UnitKind : Type :=
| Atomic (d : AtomicData)
| Spheres
| Gaussians.

(** Every unit, of whatever kind, carries the position accessors. *)
Record Unit := {
  kind : UnitKind;
  x : Z -> Q;
  y : Z -> Q;
  z : Z -> Q
}.

Definition isAtomic (u : Unit) : bool :=
  match kind u with Atomic _ => true | _ => false end.

(** [Element.Location] *)
Record Location := {
  unit : Unit;
  element : Z
}.

Definition Result := Outcome string Value.

(** [function notAtomic(): never] *)
Definition notAtomic : Result :=
  Thrown "Property only available for atomic models.".

(** The shape shared by the guarded properties:
  [!Unit.isAtomic(l.unit) ? notAtomic() : f(l.unit)]. *)
Definition atomic_only (l : Location) (f : AtomicData -> Value) : Result :=
  match kind (unit l) with
  | Atomic d => Returned (f d)
  | _ => notAtomic
  end.

Module constant.
Definition true (l : Location) : Result := Returned (VBool Datatypes.true).
Definition false (l : Location) : Result := Returned (VBool Datatypes.false).
Definition zero (l : Location) : Result := Returned (VInt 0).
End constant.

Module atom.
Definition key (l : Location) : Result := Returned (VInt (element l)).

Definition x (l : Location) : Result := Returned (VNum (x (unit l) (element l))).
Definition y (l : Location) : Result := Returned (VNum (y (unit l) (element l))).
Definition z (l : Location) : Result := Returned (VNum (z (unit l) (element l))).
Definition id (l : Location) : Result :=
  atomic_only l (fun u => atomId (conformation u) (element l)).
Definition occupancy (l : Location) : Result :=
  atomic_only l (fun u => occupancy (conformation u) (element l)).
Definition B_iso_or_equiv (l : Location) : Result :=
  atomic_only l (fun u => B_iso_or_equiv (conformation u) (element l)).

Definition type_symbol (l : Location) : Result :=
  atomic_only l (fun u => type_symbol (atoms (hierarchy u)) (element l)).
Definition label_atom_id (l : Location) : Result :=
  atomic_only l (fun u => label_atom_id (atoms (hierarchy u)) (element l)).
Definition auth_atom_id (l : Location) : Result :=
  atomic_only l (fun u => auth_atom_id (atoms (hierarchy u)) (element l)).
Definition label_alt_id (l : Location) : Result :=
  atomic_only l (fun u => label_alt_id (atoms (hierarchy u)) (element l)).
Definition pdbx_formal_charge (l : Location) : Result :=
  atomic_only l (fun u => pdbx_formal_charge (atoms (hierarchy u)) (element l)).
End atom.

Module residue.
Definition row (u : AtomicData) (l : Location) : option Z :=
  array_get (residueIndex u) (element l).

Definition key (l : Location) : Result :=
  atomic_only l (fun u => column_value (residueKey (hierarchy u)) (row u l)).

Definition group_PDB (l : Location) : Result :=
  atomic_only l (fun u => column_value (group_PDB (residues (hierarchy u))) (row u l)).
Definition label_comp_id (l : Location) : Result :=
  atomic_only l (fun u => column_value (label_comp_id (residues (hierarchy u))) (row u l)).
Definition auth_comp_id (l : Location) : Result :=
  atomic_only l (fun u => column_value (auth_comp_id (residues (hierarchy u))) (row u l)).
Definition label_seq_id (l : Location) : Result :=
  atomic_only l (fun u => column_value (label_seq_id (residues (hierarchy u))) (row u l)).
Definition auth_seq_id (l : Location) : Result :=
  atomic_only l (fun u => column_value (auth_seq_id (residues (hierarchy u))) (row u l)).
Definition pdbx_PDB_ins_code (l : Location) : Result :=
  atomic_only l (fun u => column_value (pdbx_PDB_ins_code (residues (hierarchy u))) (row u l)).
End residue.

Module chain.
Definition row (u : AtomicData) (l : Location) : option Z :=
  array_get (chainIndex u) (element l).

Definition key (l : Location) : Result :=
  atomic_only l (fun u => column_value (chainKey (hierarchy u)) (row u l)).

Definition label_asym_id (l : Location) : Result :=
  atomic_only l (fun u => column_value (label_asym_id (chains (hierarchy u))) (row u l)).
Definition auth_asym_id (l : Location) : Result :=
  atomic_only l (fun u => column_value (auth_asym_id (chains (hierarchy u))) (row u l)).
Definition label_entity_id (l : Location) : Result :=
  atomic_only l (fun u => column_value (label_entity_id (chains (hierarchy u))) (row u l)).
End chain.

(** The properties of the source that guard on [Unit.isAtomic], in source
  order: [atom.id] to [atom.pdbx_formal_charge], then [residue.*], then
  [chain.*]. *)
Definition atomic_only_properties : list (string * (Location -> Result)) :=
  [ ("atom.id", atom.id);
  ("atom.occupancy", atom.occupancy);
  ("atom.B_iso_or_equiv", atom.B_iso_or_equiv);
  ("atom.type_symbol", atom.type_symbol);
  ("atom.label_atom_id", atom.label_atom_id);
  ("atom.auth_atom_id", atom.auth_atom_id);
  ("atom.label_alt_id", atom.label_alt_id);
  ("atom.pdbx_formal_charge", atom.pdbx_formal_charge);
  ("residue.key", residue.key);
  ("residue.group_PDB", residue.group_PDB);
  ("residue.label_comp_id", residue.label_comp_id);
  ("residue.auth_comp_id", residue.auth_comp_id);
  ("residue.label_seq_id", residue.label_seq_id);
  ("residue.auth_seq_id", residue.auth_seq_id);
  ("residue.pdbx_PDB_ins_code", residue.pdbx_PDB_ins_code);
  ("chain.key", chain.key);
  ("chain.label_asym_id", chain.label_asym_id);
  ("chain.auth_asym_id", chain.auth_asym_id);
  ("chain.label_entity_id", chain.label_entity_id) ].

(** The properties of the source that read nothing atomic-specific. *)
Definition total_properties : list (string * (Location -> Result)) :=
  [ ("constant.true", constant.true);
  ("constant.false", constant.false);
  ("constant.zero", constant.zero);
  ("atom.key", atom.key);
  ("atom.x", atom.x);
  ("atom.y", atom.y);
  ("atom.z", atom.z) ].

End Properties.


(** ** [Model.getCenter] and its cache in [_dynamicPropertyData] *)

Module Model.

(** A reference to an object on the JavaScript heap; two references are the
  same object exactly when they are equal. *)
Definition ref := nat.

(** What a slot of a [{ [name: string]: any }] bag may hold. *)
Inductive Any : Type :=
| AUndefined
| ANull
| ABool (b : bool)
| ANum (n : Z)
| AStr (s : string)
| AObj (r : ref).

(** JavaScript truthiness, as the [if (...)] of [getCenter] tests it. *)
Definition truthy (v : Any) : bool :=
  match v with
  | AUndefined | ANull => false
  | ABool b => b
  | ANum n => negb (n =? 0)
  | AStr s => negb (String.eqb s "")
  | AObj _ => true
  end.

(** [bag[name]]: a missing key reads as [undefined]. *)
Definition bag_get (bag : gmap string Any) (name : string) : Any :=
  default AUndefined (bag !! name).

Definition CenterProp : string := "__Center__".

Section Center.

(** [calcModelCenter] lives in [./util], outside the sources at hand: it is
  taken as a parameter, a function of the two conformations that builds a
  new [Vec3]. *)
Variables AtomicConformation CoarseConformation Vec3 : Type.
Variable calcModelCenter : AtomicConformation -> CoarseConformation -> Vec3.

(** The fields of [Model] that [getCenter] reads or writes. *)
Record Model := {
  atomicConformation : AtomicConformation;
  coarseConformation : CoarseConformation;
  _dynamicPropertyData : gmap string Any
}.

(** The heap of [Vec3] objects (a reference is a position in [objects]) and
  the number of times [calcModelCenter] has run. *)
Record Heap := {
  objects : list Vec3;
  calcModelCenter_runs : nat
}.

(** [calcModelCenter(...)] as a heap operation: one run, one new object. *)
Definition run_calcModelCenter (model : Model) (h : Heap) : ref * Heap :=
  (length (objects h),
   {| objects := objects h ++ [calcModelCenter (atomicConformation model) (coarseConformation model)];
      calcModelCenter_runs := S (calcModelCenter_runs h) |}).

(** [export function getCenter(model: Model): Vec3]; the model comes back with
  its bag as the call left it. *)
Definition getCenter (model : Model) (h : Heap) : Any * Model * Heap :=
  if truthy (bag_get (_dynamicPropertyData model) CenterProp)
  then (bag_get (_dynamicPropertyData model) CenterProp, model, h)
  else
    let '(r, h') := run_calcModelCenter model h in
    let center := AObj r in
    (center,
     {| atomicConformation := atomicConformation model;
        coarseConformation := coarseConformation model;
        _dynamicPropertyData := <[CenterProp := center]> (_dynamicPropertyData model) |},
     h').

(** [n] calls of [getCenter] one after the other, with their results. *)
Fixpoint getCenter_times (n : nat) (model : Model) (h : Heap) : list Any * Model * Heap :=
  match n with
  | O => ([], model, h)
  | S k =>
      let '(c, model1, h1) := getCenter model h in
      let '(cs, model2, h2) := getCenter_times k model1 h1 in
      (c :: cs, model2, h2)
  end.

End Center.

Arguments atomicConformation {_ _} _.
Arguments coarseConformation {_ _} _.
Arguments _dynamicPropertyData {_ _} _.
Arguments objects {_} _.
Arguments calcModelCenter_runs {_} _.
Arguments getCenter {_ _ _} calcModelCenter model h.
Arguments getCenter_times {_ _ _} calcModelCenter n model h.

End Model.


(** ** mol-model/volume/formats/ccp4.ts *)

Module Ccp4.

(** A JavaScript number is read as a real number; [None] stands for every
  value that is not one ([undefined] met by arithmetic, [NaN], the
  infinities).  The header fields are finite: the integer ones are [Z], the
  others [R]. *)
Definition num := option R.

Definition of_Z (z : option Z) : num := IZR <$> z.

(** [r === 0.0] *)
Definition is_zero (r : R) : bool := if Req_dec_T r 0 then true else false.

Definition num_mul (a b : num) : num :=
  match a, b with
  | Some x, Some y => Some (x * y)%R
  | _, _ => None
  end.

Definition num_add (a b : num) : num :=
  match a, b with
  | Some x, Some y => Some (x + y)%R
  | _, _ => None
  end.

(** [a / d] for a divisor read from an array of integers: dividing by zero
  or by a missing entry does not give a number. *)
Definition num_div (a : num) (d : option Z) : num :=
  match a, d with
  | Some x, Some y => if y =? 0 then None else Some (x / IZR y)%R
  | _, _ => None
  end.

(** [xs[i]] on an array of numbers. *)
Definition entry (xs : list num) (i : nat) : num := mjoin (xs !! i).

Record Vec3 := {
  v0 : num;
  v1 : num;
  v2 : num
}.

Module Vec3.
Definition create (a b c : num) : Vec3 := {| v0 := a; v1 := b; v2 := c |}.
Definition zero : Vec3 := create (Some 0%R) (Some 0%R) (Some 0%R).
(** [Vec3.mul(out, a, b)] and [Vec3.add(out, a, b)] overwrite [out] with the
  product, the sum, of [a] and [b] component by component; the result here
  is what [out] holds afterwards. *)
Definition mul (a b : Vec3) : Vec3 :=
  create (num_mul (v0 a) (v0 b)) (num_mul (v1 a) (v1 b)) (num_mul (v2 a) (v2 b)).
Definition add (a b : Vec3) : Vec3 :=
  create (num_add (v0 a) (v0 b)) (num_add (v1 a) (v1 b)) (num_add (v2 a) (v2 b)).
End Vec3.

(** The fields of the CCP4/MRC header that [volumeFromCcp4] reads. *)
Record Ccp4Header := {
  NC : Z; NR : Z; NS : Z;
  MODE : Z;
  NCSTART : Z; NRSTART : Z; NSSTART : Z;
  NX : Z; NY : Z; NZ : Z;
  xLength : R; yLength : R; zLength : R;
  alpha : R; beta : R; gamma : R;
  MAPC : Z; MAPR : Z; MAPS : Z;
  AMIN : R; AMAX : R; AMEAN : R;
  ISPG : Z;
  originX : R; originY : R; originZ : R;
  ARMS : R
}.

Record Ccp4File := {
  header : Ccp4Header;
  values : list R
}.

(** [params?: { voxelSize?: Vec3 }] *)
Record Params := {
  voxelSize : option Vec3
}.

(** Modelled from the spec: [degToRad] of mol-math/misc is not among the
  sources; the spec has the angles converted from degrees to radians. *)
Definition degToRad (deg : R) : num := Some (deg * PI / 180)%R.

(** The first argument of [SpacegroupCell.create]: a space-group number or
  a space-group name. *)
Inductive SpacegroupId : Type :=
| SgNumber (n : Z)
| SgName (s : string).

Record SpacegroupCell := {
  spacegroup : SpacegroupId;
  size : Vec3;
  anglesInRadians : Vec3
}.

Module SpacegroupCell.
(** Modelled from the spec: [SpacegroupCell.create] of mol-math/geometry is not
  among the sources; the cell keeps the space group, the size and the angles
  it is created from. *)
Definition create (nameOrNumber : SpacegroupId) (size angles : Vec3) : SpacegroupCell :=
  {| spacegroup := nameOrNumber; size := size; anglesInRadians := angles |}.
End SpacegroupCell.

Module Tensor.

(** A write [indices[k] = i] into an [Int32Array]: ignored out of range. *)
Definition typed_set (indices : list Z) (k : Z) (i : Z) : list Z :=
  if k <? 0 then indices else <[Z.to_nat k := i]> indices.

(** [for (i = 0; i < order.length; i++) indices[order[i]] = i] *)
Fixpoint fill_indices (order : list Z) (i : Z) (indices : list Z) : list Z :=
  match order with
  | [] => indices
  | o :: rest => fill_indices rest (i + 1) (typed_set indices o i)
  end.

(** [xs[i]] *)
Definition array_get {A} (xs : list A) (i : Z) : option A :=
  if i <? 0 then None else xs !! Z.to_nat i.

(** [reorder(xs, indices)]: [ret[i] = xs[indices[i]]] for [i < xs.length]. *)
Definition reorder {A} (xs : list A) (indices : list Z) : list (option A) :=
  map (fun i => i' ← indices !! i; array_get xs i') (seq 0 (length xs)).

(** Modelled from the spec: [Tensor.convertToCanonicalAxisIndicesFastToSlow] of
  mol-math/linear-algebra is not among the sources; it turns an axis order
  (fast to slow) into the function that puts a triple given in file order
  into canonical order.  An entry that the reordering cannot find is
  [None] (JavaScript's [undefined]). *)
Definition convertToCanonicalAxisIndicesFastToSlow {A} (order : list Z) (xs : list A)
  : list (option A) :=
  reorder xs (fill_indices order 0 (repeat 0 (length order))).

(** Modelled from the spec: [Tensor.invertAxisOrder] turns a fast-to-slow
  order into the slow-to-fast one. *)
Definition invertAxisOrder (v : list Z) : list Z := rev v.

Inductive ArrayCtor : Type := Int8Array | Float32Array.

Record Space := {
  dimensions : list (option Z);
  axisOrderSlowToFast : list Z;
  ctor : ArrayCtor
}.

Record Tensor := {
  space : Space;
  data1 : list R
}.

End Tensor.

Record Box3D := {
  box_min : Vec3;
  box_max : Vec3
}.

Record DataStats := {
  stats_min : R;
  stats_max : R;
  stats_mean : R;
  stats_sigma : R
}.

Record VolumeData := {
  cell : SpacegroupCell;
  fractionalBox : Box3D;
  data : Tensor.Tensor;
  dataStats : DataStats
}.

(** [header.ISPG || 'P 1']: the number when it is truthy, the name otherwise. *)
Definition ISPG_or_P1 (h : Ccp4Header) : SpacegroupId :=
  if ISPG h =? 0 then SgName "P 1" else SgNumber (ISPG h).

(** The locals of [volumeFromCcp4], one definition each, in source order. *)

Definition size_of (h : Ccp4Header) (params : option Params) : Vec3 :=
  let size := Vec3.create (Some (xLength h)) (Some (yLength h)) (Some (zLength h)) in
  match params with
  | Some {| voxelSize := Some vs |} => Vec3.mul size vs
  | _ => size
  end.

Definition angles (h : Ccp4Header) : Vec3 :=
  Vec3.create (degToRad (alpha h)) (degToRad (beta h)) (degToRad (gamma h)).

Definition axis_order_fast_to_slow (h : Ccp4Header) : list Z :=
  [MAPC h - 1; MAPR h - 1; MAPS h - 1].

Definition normalizeOrder (h : Ccp4Header) (xs : list Z) : list (option Z) :=
  Tensor.convertToCanonicalAxisIndicesFastToSlow (axis_order_fast_to_slow h) xs.

Definition grid (h : Ccp4Header) : list Z := [NX h; NY h; NZ h].

Definition extent (h : Ccp4Header) : list (option Z) :=
  normalizeOrder h [NC h; NR h; NS h].

Definition gridOrigin (h : Ccp4Header) : list num :=
  if is_zero (originX h) && is_zero (originY h) && is_zero (originZ h)
  then of_Z <$> normalizeOrder h [NCSTART h; NRSTART h; NSSTART h]
  else [Some (originX h); Some (originY h); Some (originZ h)].

Definition origin_frac (h : Ccp4Header) : Vec3 :=
  Vec3.create (num_div (entry (gridOrigin h) 0) (grid h !! 0%nat))
              (num_div (entry (gridOrigin h) 1) (grid h !! 1%nat))
              (num_div (entry (gridOrigin h) 2) (grid h !! 2%nat)).

Definition dimensions_frac (h : Ccp4Header) : Vec3 :=
  Vec3.create (num_div (entry (of_Z <$> extent h) 0) (grid h !! 0%nat))
              (num_div (entry (of_Z <$> extent h) 1) (grid h !! 1%nat))
              (num_div (entry (of_Z <$> extent h) 2) (grid h !! 2%nat)).

(** [function volumeFromCcp4(source, params?)]: the value its task yields. *)
Definition volumeFromCcp4 (source : Ccp4File) (params : option Params) : VolumeData :=
  let h := header source in
  let cell := SpacegroupCell.create (ISPG_or_P1 h) (size_of h params) (angles h) in
  let space :=
    {| Tensor.dimensions := extent h;
       Tensor.axisOrderSlowToFast := Tensor.invertAxisOrder (axis_order_fast_to_slow h);
       Tensor.ctor := if MODE h =? 0 then Tensor.Int8Array else Tensor.Float32Array |} in
  {| cell := cell;
     fractionalBox :=
       {| box_min := origin_frac h;
          box_max := Vec3.add (origin_frac h) (dimensions_frac h) |};
     data := {| Tensor.space := space; Tensor.data1 := values source |};
     dataStats :=
       {| stats_min := AMIN h; stats_max := AMAX h;
          stats_mean := AMEAN h; stats_sigma := ARMS h |} |}.

End Ccp4.


(** ** Task bodies

  An [async] body run to completion: it reads and writes a state and either
  returns or throws.  [await] is sequencing. *)

Module Tasks.

Definition Task (S A : Type) : Type := S -> Outcome string A * S.

Definition ret {S A} (a : A) : Task S A := fun s => (Returned a, s).

Definition throw {S A} (e : string) : Task S A := fun s => (Thrown e, s).

Definition bind {S A B} (m : Task S A) (k : A -> Task S B) : Task S B :=
  fun s =>
    match m s with
    | (Returned a, s') => k a s'
    | (Thrown e, s') => (Thrown e, s')
    end.

(** [try { m } catch (e) { handler(e) }] *)
Definition try_catch {S A} (m : Task S A) (handler : string -> Task S A) : Task S A :=
  fun s =>
    match m s with
    | (Returned a, s') => (Returned a, s')
    | (Thrown e, s') => handler e s'
    end.

Definition gets {S A} (f : S -> A) : Task S A := fun s => (Returned (f s), s).

Definition modify {S} (f : S -> S) : Task S unit := fun s => (Returned tt, f s).

(** Run a task on one component of a pair of states. *)
Definition on_snd {S1 S2 A} (m : Task S2 A) : Task (S1 * S2) A :=
  fun s => let '(o, s2) := m (snd s) in (o, (fst s, s2)).

Definition on_fst {S1 S2 A} (m : Task S1 A) : Task (S1 * S2) A :=
  fun s => let '(o, s1) := m (fst s) in (o, (s1, snd s)).

Declare Scope task_scope.
Delimit Scope task_scope with task.
Notation "x <- c1 ;; c2" := (bind c1 (fun x => c2))
  (at level 100, c1 at next level, right associativity) : task_scope.
Notation "'do' c1 ;; c2" := (bind c1 (fun _ => c2))
  (at level 100, c1 at next level, right associativity) : task_scope.

End Tasks.

(** ** The [RCSBAssemblySymmetry] behavior
  (mol-plugin/behavior/dynamic/custom-props/rcsb/assembly-symmetry.ts) *)

Module Behavior.

(** What the three registries hold.  An action goes by its id, a property
  provider by [descriptor.name], a theme provider by its name. *)
Record StateAction := {
  action_id : string;
  action_display_name : string
}.

Record PropertyProvider := {
  descriptor_name : string;
  provider_label : string
}.

Record ColorThemeProvider := {
  theme_name : string;
  theme_label : string
}.

(** Modelled from the spec: the registries of the plugin context
  ([ctx.state.dataState.actions], [ctx.customStructureProperties] and
  [ctx.structureRepresentation.themeCtx.colorThemeRegistry]) are not among the
  sources.  The spec has them as shared maps into which a behavior installs
  its entries idempotently; the property registry keeps, next to the
  providers, a default auto-attach flag per provider name. *)
Record Registries := {
  actions : gmap string StateAction;
  customStructureProperties : gmap string PropertyProvider;
  defaultAutoAttachValues : gmap string bool;
  colorThemeRegistry : gmap string ColorThemeProvider
}.

(** The calls a handler makes on the registries. *)
Inductive RegistryCall : Type :=
| ActionsAdd (a : StateAction)
| ActionsRemove (a : StateAction)
| PropertiesRegister (p : PropertyProvider) (defaultAutoAttach : bool)
| PropertiesSetDefaultAutoAttach (name : string) (value : bool)
| PropertiesUnregister (name : string)
| ColorThemesAdd (t : ColorThemeProvider)
| ColorThemesRemove (t : ColorThemeProvider).

(** Modelled from the spec: what each call does to the maps. *)
Definition exec (r : Registries) (c : RegistryCall) : Registries :=
  match c with
  | ActionsAdd a =>
      {| actions := <[action_id a := a]> (actions r);
         customStructureProperties := customStructureProperties r;
         defaultAutoAttachValues := defaultAutoAttachValues r;
         colorThemeRegistry := colorThemeRegistry r |}
  | ActionsRemove a =>
      {| actions := delete (action_id a) (actions r);
         customStructureProperties := customStructureProperties r;
         defaultAutoAttachValues := defaultAutoAttachValues r;
         colorThemeRegistry := colorThemeRegistry r |}
  | PropertiesRegister p v =>
      {| actions := actions r;
         customStructureProperties := <[descriptor_name p := p]> (customStructureProperties r);
         defaultAutoAttachValues := <[descriptor_name p := v]> (defaultAutoAttachValues r);
         colorThemeRegistry := colorThemeRegistry r |}
  | PropertiesSetDefaultAutoAttach name v =>
      {| actions := actions r;
         customStructureProperties := customStructureProperties r;
         defaultAutoAttachValues := <[name := v]> (defaultAutoAttachValues r);
         colorThemeRegistry := colorThemeRegistry r |}
  | PropertiesUnregister name =>
      {| actions := actions r;
         customStructureProperties := delete name (customStructureProperties r);
         defaultAutoAttachValues := delete name (defaultAutoAttachValues r);
         colorThemeRegistry := colorThemeRegistry r |}
  | ColorThemesAdd t =>
      {| actions := actions r;
         customStructureProperties := customStructureProperties r;
         defaultAutoAttachValues := defaultAutoAttachValues r;
         colorThemeRegistry := <[theme_name t := t]> (colorThemeRegistry r) |}
  | ColorThemesRemove t =>
      {| actions := actions r;
         customStructureProperties := customStructureProperties r;
         defaultAutoAttachValues := defaultAutoAttachValues r;
         colorThemeRegistry := delete (theme_name t) (colorThemeRegistry r) |}
  end.

(** The calls of a method body, made one after the other. *)
Definition run (calls : list RegistryCall) (r : Registries) : Registries :=
  fold_left exec calls r.

(** The call that takes out what an installing call put in. *)
Definition removal_of (c : RegistryCall) : RegistryCall :=
  match c with
  | ActionsAdd a => ActionsRemove a
  | PropertiesRegister p _ => PropertiesUnregister (descriptor_name p)
  | ColorThemesAdd t => ColorThemesRemove t
  | other => other
  end.

(** The values of the parameters declared by [params: () => ({ autoAttach,
  serverUrl })]. *)
Record Params := {
  autoAttach : bool;
  serverUrl : string
}.

Section Handler.

(** The three entries the behavior installs come from other modules. *)
Context (InitAssemblySymmetry3D : StateAction)
        (AssemblySymmetryProvider : PropertyProvider)
        (AssemblySymmetryClusterColorThemeProvider : ColorThemeProvider).

(** An instance of the handler class: [this.params]; [this.provider] is
  [AssemblySymmetryProvider] and [this.ctx] holds the registries. *)
Record Handler := {
  params : Params
}.

(** [register(): void] *)
Definition register (this : Handler) : list RegistryCall :=
  [ ActionsAdd InitAssemblySymmetry3D;
    PropertiesRegister AssemblySymmetryProvider (autoAttach (params this));
    ColorThemesAdd AssemblySymmetryClusterColorThemeProvider ].

(** [update(p: { autoAttach: boolean })]: the returned flag, the handler
  after the assignment to [this.params.autoAttach], and the calls made. *)
Definition update (this : Handler) (p : Params) : bool * Handler * list RegistryCall :=
  let updated := negb (Bool.eqb (autoAttach (params this)) (autoAttach p)) in
  let this' := {| params := {| autoAttach := autoAttach p;
                               serverUrl := serverUrl (params this) |} |} in
  (updated, this',
   [ PropertiesSetDefaultAutoAttach (descriptor_name AssemblySymmetryProvider)
                                    (autoAttach (params this')) ]).

(** [unregister()] *)
Definition unregister (this : Handler) : list RegistryCall :=
  [ ActionsRemove InitAssemblySymmetry3D;
    PropertiesUnregister (descriptor_name AssemblySymmetryProvider);
    ColorThemesRemove AssemblySymmetryClusterColorThemeProvider ].

End Handler.

End Behavior.

(** ** The [InitAssemblySymmetry3D] action and the [AssemblySymmetry3D]
  transformer (same source file) *)

Module Symmetry3D.

Import Tasks.
Local Open Scope task_scope.

(** A structure ([a.data]) goes by a number. *)
Definition Structure := nat.

(** One entry of the assembly-symmetry value. *)
Record Symmetry := {
  type : string;
  kind : string;
  symbol : string
}.

(** [AssemblySymmetryProvider.get(structure).value]: [None] is a missing
  value ([undefined]). *)
Definition AssemblySymmetryValue := option (list Symmetry).

(** [!assemblySymmetry || assemblySymmetry.length === 0] *)
Definition no_clusters (v : AssemblySymmetryValue) : bool :=
  match v with
  | None => true
  | Some [] => true
  | Some (_ :: _) => false
  end.

(** Parameter values and representation props are JavaScript objects with
  string keys. *)
Inductive PValue : Type :=
| PNum (n : Z)
| PBool (b : bool)
| PStr (s : string).

Definition Props := gmap string PValue.

(** [{ ...a, ...b }]: the keys of [b] win. *)
Definition spread (a b : Props) : Props := b ∪ a.

(** [assemblySymmetry[params.symmetryIndex]]: an entry, or [undefined] when
  the index is missing, not a number, or not the index of an entry. *)
Definition at_symmetryIndex (l : list Symmetry) (params : Props) : option Symmetry :=
  match params !! "symmetryIndex" with
  | Some (PNum i) => if i <? 0 then None else l !! Z.to_nat i
  | _ => None
  end.

(** What destructuring [undefined] throws. *)
Definition TypeError : string := "TypeError: Cannot destructure 'undefined'".

(** One node of the state tree: the transformer applied and the parent. *)
Record TransformNode := {
  transformer : string;
  parent : string
}.

(** The part of the plugin the task bodies act on: the assembly-symmetry
  slot of the property bag of each structure, the error log, and the nodes
  of the state tree. *)
Record World := {
  propertyData : gmap Structure AssemblySymmetryValue;
  log_error : list string;
  tree : list TransformNode
}.

(** The state of a representation object. *)
Record Repr := {
  props : Props;
  structure : option Structure;
  version : nat
}.

(** [PluginStateObject.Shape.Representation3D]: [data.repr], [data.source],
  and the two labels. *)
Record Representation3D := {
  repr : Repr;
  source : Structure;
  label : string;
  description : string
}.

(** What [apply] hands back: [StateObject.Null] or a new object. *)
Inductive StateObject : Type :=
| Null
| Shape_Representation3D (o : Representation3D).

(** [StateTransformer.UpdateResult] *)
Inductive UpdateResult : Type :=
| Unchanged
| Updated
| Recreate.

(** The collaborators that are not among the sources, as interfaces.
  [attach] and [get_value] stand for [AssemblySymmetryProvider.attach({ runtime,
  fetch }, structure)] and [AssemblySymmetryProvider.get(structure).value];
  [create] for [AssemblySymmetryRepresentation(...)] and [createOrUpdate] for
  [repr.createOrUpdate(props, structure).runInContext(ctx)], which acts on the
  representation it is called on; [updateTree ref] for
  [state.updateTree(state.build().to(ref).apply(AssemblySymmetry3D))]. *)
Record Provider := {
  attach : Structure -> Task World unit;
  get_value : Structure -> World -> AssemblySymmetryValue
}.

Record Representation := {
  create : Repr;
  createOrUpdate : Props -> Structure -> Task Repr unit
}.

Section Transformer.

Context (AssemblySymmetryProvider : Provider)
        (AssemblySymmetryRepresentation : Representation)
        (updateTree : string -> Task World unit).

(** [plugin.log.error(msg)] *)
Definition plugin_log_error (msg : string) : Task World unit :=
  modify (fun w => {| propertyData := propertyData w;
                      log_error := log_error w ++ [msg];
                      tree := tree w |}).

(** The body of the [InitAssemblySymmetry3D] action.  The [return] inside
  [catch] ends the task: the flag tells whether the [try] block got
  through. *)
Definition InitAssemblySymmetry3D (a : Structure) (ref : string) : Task World unit :=
  attached <- try_catch
                (do attach AssemblySymmetryProvider a ;; ret true)
                (fun e => do plugin_log_error ("Assembly Symmetry: " ++ e) ;; ret false) ;;
  if attached : bool then updateTree ref else ret tt.

(** [`${type} (${symbol})`] *)
Definition describe (s : Symmetry) : string := type s ++ " (" ++ symbol s ++ ")".

(** [const repr = AssemblySymmetryRepresentation(...);
  await repr.createOrUpdate(params, a.data).runInContext(ctx)]: the new
  representation after its first update; it is local to the body. *)
Definition new_repr (params : Props) (a : Structure) : Task World Repr :=
  fun w =>
    match createOrUpdate AssemblySymmetryRepresentation params a
            (create AssemblySymmetryRepresentation) with
    | (Returned _, repr) => (Returned repr, w)
    | (Thrown e, _) => (Thrown e, w)
    end.

(** [AssemblySymmetry3D.apply({ a, params }, plugin)] *)
Definition apply (a : Structure) (params : Props) : Task World StateObject :=
  do attach AssemblySymmetryProvider a ;;
  assemblySymmetry <- gets (get_value AssemblySymmetryProvider a) ;;
  if no_clusters assemblySymmetry then ret Null
  else
    repr <- new_repr params a ;;
    match at_symmetryIndex (default [] assemblySymmetry) params with
    | None => throw TypeError
    | Some s =>
        ret (Shape_Representation3D
               {| repr := repr; source := a; label := kind s; description := describe s |})
    end.

(** [b.data.repr.createOrUpdate(props, a.data)] on the representation of [b]. *)
Definition repr_createOrUpdate (p : Props) (a : Structure) : Task Representation3D unit :=
  fun b =>
    let '(o, r) := createOrUpdate AssemblySymmetryRepresentation p a (repr b) in
    (o, {| repr := r; source := source b; label := label b; description := description b |}).

(** [b.label = kind; b.description = `${type} (${symbol})`] *)
Definition set_labels (s : Symmetry) : Task Representation3D unit :=
  modify (fun b => {| repr := repr b; source := source b;
                      label := kind s; description := describe s |}).

(** [AssemblySymmetry3D.update({ a, b, newParams }, plugin)]: the state is the
  object [b], which the body changes in place, together with the world. *)
Definition update (a : Structure) (newParams : Props)
  : Task (Representation3D * World) UpdateResult :=
  do on_snd (attach AssemblySymmetryProvider a) ;;
  assemblySymmetry <- on_snd (gets (get_value AssemblySymmetryProvider a)) ;;
  if no_clusters assemblySymmetry then ret Recreate
  else
    props <- on_fst (gets (fun b => spread (props (repr b)) newParams)) ;;
    do on_fst (repr_createOrUpdate props a) ;;
    match at_symmetryIndex (default [] assemblySymmetry) newParams with
    | None => throw TypeError
    | Some s => do on_fst (set_labels s) ;; ret Updated
    end.

(** [canAutoUpdate({ oldParams, newParams })] *)
Definition canAutoUpdate (oldParams newParams : Props) : bool := true.

End Transformer.

(** Modelled from the spec: the provider of the spec's section on custom
  properties, over the slot kept in [propertyData].  An attached property is
  returned as it is; otherwise the compute function runs (here: the answer
  of [fetch]) and its value is stored, or its failure is thrown.  [get]
  reads the slot and computes nothing. *)
Definition spec_provider (fetch : Structure -> Outcome string AssemblySymmetryValue)
  : Provider :=
  {| attach := fun s w =>
       match propertyData w !! s with
       | Some _ => (Returned tt, w)
       | None =>
           match fetch s with
           | Returned v =>
               (Returned tt,
                {| propertyData := <[s := v]> (propertyData w);
                   log_error := log_error w;
                   tree := tree w |})
           | Thrown e => (Thrown e, w)
           end
       end;
     get_value := fun s w =>
       match propertyData w !! s with
       | Some v => v
       | None => None
       end |}.

(** Modelled from the spec: a representation keeps the props and the
  structure of its last update. *)
Definition spec_representation : Representation :=
  {| create := {| props := ∅; structure := None; version := 0 |};
     createOrUpdate := fun p s r =>
       (Returned tt, {| props := p; structure := Some s; version := S (version r) |}) |}.

(** Modelled from the spec: updating the tree with one transform applied
  under [ref] adds that node. *)
Definition spec_updateTree (ref : string) : Task World unit :=
  modify (fun w => {| propertyData := propertyData w;
                      log_error := log_error w;
                      tree := tree w ++ [{| transformer := "rcsb-assembly-symmetry-3d";
                                            parent := ref |}] |}).

End Symmetry3D.

(** ** mol-repr/volume/direct-volume.ts *)

Module DirectVolume.

(** The numbers of this file are grid sizes, texture sizes and array
  indices: integers.  [Math.floor(a / b)] and [Math.ceil(a / b)] are then
  the rounded quotients below, as long as [b] is not zero; [%] is the
  remainder that takes the sign of the dividend. *)
Definition floor_div (a b : Z) : Z := a / b.
Definition ceil_div (a b : Z) : Z := - ((- a) / b).

Record Layout := {
  width : Z;
  height : Z;
  columns : Z;
  rows : Z
}.

(** [function getVolumeTexture2dLayout(dim, maxTextureSize)].  The result is
  [None] where a division by zero leaves the integers (the JavaScript
  layout then holds an infinity or NaN). *)
Definition getVolumeTexture2dLayout (dim : Z * Z * Z) (maxTextureSize : Z) : option Layout :=
  let '(dim0, dim1, dim2) := dim in
  if maxTextureSize <? dim0 * dim2 then
    if dim0 =? 0 then None
    else
      let columns := floor_div maxTextureSize dim0 in
      if columns =? 0 then None
      else
        let rows := ceil_div dim2 columns in
        Some {| width := columns * dim0 + columns;
                height := dim1 * rows + rows;
                columns := columns;
                rows := rows |}
  else
    Some {| width := dim0 * dim2 + dim0;
            height := dim1 + 1;
            columns := dim0;
            rows := 1 |}.

(** The [index] that [setTex] computes for the voxel [(x, y, z)].  Where
  [setTex] is called ([x], [y], [z] below the grid sizes) and the layout is
  one of the above, neither [width] nor [xlp] is zero. *)
Definition setTex_index (width xlp ylp : Z) (x y z : Z) : Z :=
  let column := floor_div (Z.rem (z * xlp) width) xlp in
  let row := floor_div (z * xlp) width in
  let px := column * xlp + x in
  4 * ((row * ylp * width) + (y * width) + px).

(** The voxels in the order of the three nested loops: [z] outermost, [x]
  innermost. *)
Definition voxels (xl yl zl : Z) : list (Z * Z * Z) :=
  z ← seqZ 0 zl; y ← seqZ 0 yl; x ← seqZ 0 xl; [(x, y, z)].

(** [new Uint8Array(length)]: zeros, or a [RangeError] for a negative
  length and for a length that the engine does not allocate, which is one
  above [max_array_length]: that limit is the engine's (2^32 - 1 or
  2^53 - 1 elements at most, less where memory is short). *)
Definition new_Uint8Array (max_array_length length : Z) : Outcome string (list Z) :=
  if (length <? 0) || (max_array_length <? length)
  then Thrown "RangeError: Invalid typed array length"
  else Returned (replicate (Z.to_nat length) 0).

Record TextureImage := {
  image_array : list Z;
  image_width : Z;
  image_height : Z
}.

Record TextureVolume := {
  volume_array : list Z;
  volume_width : Z;
  volume_height : Z;
  volume_depth : Z
}.

Section Textures.

(** The byte that the assignment of
  [((get(data, x, y, z) - stats.min) / (stats.max - stats.min)) * 255] leaves
  in a [Uint8Array]: a matter of floating-point arithmetic on the data, taken
  here as a function of the voxel. *)
Variable alpha : Z -> Z -> Z -> Z.

(** The largest length of a typed array that the engine allocates. *)
Variable max_array_length : Z.

(** [setTex(get(data, x, y, z), x, y, z)] on the array. *)
Definition setTex (width xlp ylp : Z) (array : list Z) (v : Z * Z * Z) : list Z :=
  let '(x, y, z) := v in
  Ccp4.Tensor.typed_set array (setTex_index width xlp ylp x y z + 3) (alpha x y z).

(** [function createVolumeTexture2d(volume, maxTextureSize)], with
  [space.dimensions] for the volume. *)
Definition createVolumeTexture2d (dim : Z * Z * Z) (maxTextureSize : Z)
  : option (Outcome string TextureImage) :=
  layout ← getVolumeTexture2dLayout dim maxTextureSize;
  Some
    match new_Uint8Array max_array_length (width layout * height layout * 4) with
    | Thrown e => Thrown e
    | Returned array =>
        let '(xl, yl, zl) := dim in
        let xlp := xl + 1 in
        let ylp := yl + 1 in
        Returned {| image_array :=
                      fold_left (setTex (width layout) xlp ylp) (voxels xl yl zl) array;
                    image_width := width layout;
                    image_height := height layout |}
    end.

(** The body of the innermost loop of [createVolumeTexture3d]:
  [array[i + 3] = ...; i += 4]. *)
Definition fill3d (st : list Z * Z) (v : Z * Z * Z) : list Z * Z :=
  let '(array, i) := st in
  let '(x, y, z) := v in
  (Ccp4.Tensor.typed_set array (i + 3) (alpha x y z), i + 4).

(** [function createVolumeTexture3d(volume)] *)
Definition createVolumeTexture3d (dim : Z * Z * Z) : Outcome string TextureVolume :=
  let '(width, height, depth) := dim in
  match new_Uint8Array max_array_length (width * height * depth * 4) with
  | Thrown e => Thrown e
  | Returned array =>
      Returned {| volume_array := fst (fold_left fill3d (voxels width height depth) (array, 0));
                  volume_width := width;
                  volume_height := height;
                  volume_depth := depth |}
  end.

End Textures.

(** [Object.assign({}, ...sources)]: later sources win, [undefined] sources
  are skipped. *)
Definition Object_assign (sources : list (option Symmetry3D.Props)) : Symmetry3D.Props :=
  fold_left (fun target source =>
               match source with
               | Some s => s ∪ target
               | None => target
               end) sources ∅.

(** The [createOrUpdate] of [DirectVolumeRepresentation()], as far as the
  variable [currentProps] of the closure goes: the props handed on to
  [volumeRepr.createOrUpdate], which are also the new [currentProps].  A
  [props] argument left out is [{}]. *)
Definition createOrUpdate_props (DefaultDirectVolumeProps : Symmetry3D.Props)
    (currentProps : option Symmetry3D.Props) (props : option Symmetry3D.Props)
  : Symmetry3D.Props :=
  Object_assign [Some DefaultDirectVolumeProps; currentProps; Some (default ∅ props)].

End DirectVolume.

(** ** The rest of the [Model] namespace: trajectories *)

Module Trajectory.

(** [model.trajectoryInfo]: one mutable object, held by reference. *)
Record TrajectoryInfo := {
  index : Z;
  size : Z
}.

Section Trajectories.

(** The conformation types, a frame of coordinates, and
  [Coordinates.getAtomicConformation(frame, atomId)], which is not among the
  sources: it is taken as a function of the frame and of the conformation
  whose [atomId] it reads. *)
Variables AtomicConformation CoarseConformation Frame : Type.
Variable getAtomicConformation : Frame -> AtomicConformation -> AtomicConformation.

(** The fields of [Model] that the trajectory functions read, write or
  replace, and two of those they copy ([entryId], [label]).
  [trajectoryInfo] and [customProperties] are references. *)
Record Model := {
  id : nat;
  entryId : string;
  label : string;
  modelNum : Z;
  trajectoryInfo : Model.ref;
  atomicConformation : AtomicConformation;
  coarseConformation : CoarseConformation;
  customProperties : Model.ref;
  _staticPropertyData : gmap string Model.Any;
  _dynamicPropertyData : gmap string Model.Any
}.

(** The heap: the [trajectoryInfo] objects, and the counters that
  [UUID.create22()] and [new] draw fresh ids and references from. *)
Record Heap := {
  infos : gmap Model.ref TrajectoryInfo;
  next_uuid : nat;
  next_ref : Model.ref
}.

(** The object literal [{ ...model, id: UUID.create22(), modelNum: i, ... }]
  of the loop body. *)
Definition frame_model (model : Model) (i : Z) (f : Frame) (h : Heap) : Model * Heap :=
  ({| id := next_uuid h;
      entryId := entryId model;
      label := label model;
      modelNum := i;
      trajectoryInfo := trajectoryInfo model;
      atomicConformation := getAtomicConformation f (atomicConformation model);
      coarseConformation := coarseConformation model;
      customProperties := next_ref h;
      _staticPropertyData := ∅;
      _dynamicPropertyData := ∅ |},
   {| infos := infos h; next_uuid := S (next_uuid h); next_ref := S (next_ref h) |}).

(** The loop [for (let i = 0, il = frames.length; i < il; ++i)], from [i] on. *)
Fixpoint frames_from (model : Model) (i : Z) (frames : list Frame) (h : Heap)
  : list Model * Heap :=
  match frames with
  | [] => ([], h)
  | f :: rest =>
      let '(m, h1) := frame_model model i f h in
      let '(ms, h2) := frames_from model (i + 1) rest h1 in
      (m :: ms, h2)
  end.

(** [export function trajectoryFromModelAndCoordinates(model, coordinates)] *)
Definition trajectoryFromModelAndCoordinates (model : Model) (frames : list Frame) (h : Heap)
  : list Model * Heap :=
  frames_from model 0 frames h.

(** Modelled from the spec: [IndexPairBonds.Provider.set(m, value)] is not among
  the sources; a property set on an entity is kept in a property bag of the
  entity under the name of its provider. *)
Definition IndexPairBonds_set (m : Model) (bonds : Model.ref) : Model :=
  {| id := id m; entryId := entryId m; label := label m; modelNum := modelNum m;
     trajectoryInfo := trajectoryInfo m;
     atomicConformation := atomicConformation m;
     coarseConformation := coarseConformation m;
     customProperties := customProperties m;
     _staticPropertyData := <["index_pair_bonds" := Model.AObj bonds]> (_staticPropertyData m);
     _dynamicPropertyData := _dynamicPropertyData m |}.

(** [m.trajectoryInfo.index = index; m.trajectoryInfo.size = size]: a write
  through the reference. *)
Definition set_trajectoryInfo (m : Model) (index size : Z) (h : Heap) : Heap :=
  {| infos := <[trajectoryInfo m := {| index := index; size := size |}]> (infos h);
     next_uuid := next_uuid h;
     next_ref := next_ref h |}.

(** The loop [for (const m of trajectory)] with its counter [index]. *)
Fixpoint number_models (trajectory : list Model) (bonds : Model.ref) (index length : Z)
    (h : Heap) : list Model * Heap :=
  match trajectory with
  | [] => ([], h)
  | m :: rest =>
      let m' := IndexPairBonds_set m bonds in
      let h1 := set_trajectoryInfo m' index length h in
      let '(ms, h2) := number_models rest bonds (index + 1) length h1 in
      (m' :: ms, h2)
  end.

(** The body of the task of [trajectoryFromTopologyAndCoordinates], given
  the models that [createModels] resolves to.  [IndexPairBonds.fromData]
  makes one object; its reference is drawn from the heap. *)
Definition trajectoryFromTopologyAndCoordinates (createModels : list Model)
    (frames : list Frame) : Tasks.Task Heap (list Model) :=
  fun h =>
    match createModels with
    | [] => (Thrown "Error: found no model", h)
    | model :: _ =>
        let '(trajectory, h1) := trajectoryFromModelAndCoordinates model frames h in
        let indexPairBonds := next_ref h1 in
        let h2 := {| infos := infos h1; next_uuid := next_uuid h1;
                     next_ref := S (next_ref h1) |} in
        let '(trajectory', h3) :=
          number_models trajectory indexPairBonds 0 (Z.of_nat (length trajectory)) h2 in
        (Returned trajectory', h3)
    end.

(** The view of a model that [Model.getCenter] works on. *)
Definition center_view (m : Model) : Model.Model AtomicConformation CoarseConformation :=
  {| Model.atomicConformation := atomicConformation m;
     Model.coarseConformation := coarseConformation m;
     Model._dynamicPropertyData := _dynamicPropertyData m |}.

End Trajectories.

Arguments id {_ _} _.
Arguments entryId {_ _} _.
Arguments label {_ _} _.
Arguments modelNum {_ _} _.
Arguments trajectoryInfo {_ _} _.
Arguments atomicConformation {_ _} _.
Arguments coarseConformation {_ _} _.
Arguments customProperties {_ _} _.
Arguments _staticPropertyData {_ _} _.
Arguments _dynamicPropertyData {_ _} _.
Arguments frame_model {_ _ _} getAtomicConformation model i f h.
Arguments frames_from {_ _ _} getAtomicConformation model i frames h.
Arguments trajectoryFromModelAndCoordinates {_ _ _} getAtomicConformation model frames h.
Arguments IndexPairBonds_set {_ _} m bonds.
Arguments set_trajectoryInfo {_ _} m index size h.
Arguments number_models {_ _} trajectory bonds index length h.
Arguments trajectoryFromTopologyAndCoordinates {_ _ _} getAtomicConformation createModels frames.
Arguments center_view {_ _} m.

End Trajectory.

(** ** The rest of the [Model] namespace: where a model comes from *)

Module ModelSource.

(** [Column.ValueKind] *)
Inductive ValueKind : Type :=
| Present
| NotPresent
| Unknown.

(** A column of strings of an mmCIF category. *)
Record StrColumn := {
  isDefined : bool;
  rowCount : Z;
  value : Z -> string;
  valueKind : Z -> ValueKind
}.

(** The columns of [model.sourceData.data.db] that the predicates read. *)
Record Db := {
  database_2_database_id : StrColumn;
  exptl_method : StrColumn;
  pdbx_database_status_status_code_sf : StrColumn;
  pdbx_database_related_rowCount : Z;
  pdbx_database_related_db_name : StrColumn;
  pdbx_database_related_content_type : StrColumn;
  struct_conf_id : StrColumn;
  struct_sheet_range_id : StrColumn
}.

(** [model.sourceData]: mmCIF data, for which [MmcifFormat.is] holds, or
  data of another kind. *)
Inductive ModelFormat : Type :=
| MmcifFormat (db : Db)
| OtherFormat (kind : string).

Record Model := {
  entryId : string;
  sourceData : ModelFormat
}.

(** Character classes of the two regular expressions; with the flag [i] a
  letter matches in either case. *)
Definition in_range (lo hi c : Ascii.ascii) : bool :=
  (Ascii.nat_of_ascii lo <=? Ascii.nat_of_ascii c)%nat
  && (Ascii.nat_of_ascii c <=? Ascii.nat_of_ascii hi)%nat.

Definition is_0_9 (c : Ascii.ascii) : bool := in_range "0"%char "9"%char c.
Definition is_1_9 (c : Ascii.ascii) : bool := in_range "1"%char "9"%char c.
Definition is_a_z0_9_i (c : Ascii.ascii) : bool :=
  in_range "a"%char "z"%char c || in_range "A"%char "Z"%char c || is_0_9 c.

(** A literal letter under the flag [i]. *)
Definition letter_i (lower upper c : Ascii.ascii) : bool :=
  Ascii.eqb c lower || Ascii.eqb c upper.

(** [/^[1-9][a-z0-9]{3,3}$/i] *)
Definition matches_pdb_id (s : string) : bool :=
  match list_ascii_of_string s with
  | [c1; c2; c3; c4] =>
      is_1_9 c1 && is_a_z0_9_i c2 && is_a_z0_9_i c3 && is_a_z0_9_i c4
  | _ => false
  end.

(** [/^pdb_[0-9]{4,4}[1-9][a-z0-9]{3,3}$/i] *)
Definition matches_long_pdb_id (s : string) : bool :=
  match list_ascii_of_string s with
  | [p; d; b; u; n1; n2; n3; n4; c1; c2; c3; c4] =>
      letter_i "p"%char "P"%char p && letter_i "d"%char "D"%char d
      && letter_i "b"%char "B"%char b && Ascii.eqb u "_"%char
      && is_0_9 n1 && is_0_9 n2 && is_0_9 n3 && is_0_9 n4
      && is_1_9 c1 && is_a_z0_9_i c2 && is_a_z0_9_i c3 && is_a_z0_9_i c4
  | _ => false
  end.

(** [hay.indexOf(needle) >= 0] *)
Fixpoint includes (needle hay : string) : bool :=
  String.prefix needle hay
  || match hay with
     | EmptyString => false
     | String _ rest => includes needle rest
     end.

Section Predicates.

(** [String.prototype.toUpperCase] *)
Variable toUpperCase : string -> string.

(** [export function isFromPdbArchive(model: Model): boolean] *)
Definition isFromPdbArchive (model : Model) : bool :=
  match sourceData model with
  | OtherFormat _ => false
  | MmcifFormat db =>
      isDefined (database_2_database_id db)
      || matches_pdb_id (entryId model)
      || matches_long_pdb_id (entryId model)
  end.

(** [export function hasSecondaryStructure(model: Model): boolean] *)
Definition hasSecondaryStructure (model : Model) : bool :=
  match sourceData model with
  | OtherFormat _ => false
  | MmcifFormat db => isDefined (struct_conf_id db) || isDefined (struct_sheet_range_id db)
  end.

(** The loop shared by [isFromXray], [isFromEm] and [isFromNmr]: some row of
  [exptl.method], upper-cased, contains the word. *)
Definition method_contains (word : string) (db : Db) : bool :=
  existsb (fun i => includes word (toUpperCase (value (exptl_method db) i)))
          (seqZ 0 (rowCount (exptl_method db))).

Definition isFromXray (model : Model) : bool :=
  match sourceData model with
  | OtherFormat _ => false
  | MmcifFormat db => method_contains "DIFFRACTION" db
  end.

Definition isFromEm (model : Model) : bool :=
  match sourceData model with
  | OtherFormat _ => false
  | MmcifFormat db => method_contains "MICROSCOPY" db
  end.

Definition isFromNmr (model : Model) : bool :=
  match sourceData model with
  | OtherFormat _ => false
  | MmcifFormat db => method_contains "NMR" db
  end.

(** [export function hasXrayMap(model: Model): boolean] *)
Definition hasXrayMap (model : Model) : bool :=
  match sourceData model with
  | OtherFormat _ => false
  | MmcifFormat db =>
      if negb (isFromXray model) then false
      else
        isDefined (pdbx_database_status_status_code_sf db)
        && String.eqb (value (pdbx_database_status_status_code_sf db) 0) "REL"
  end.

(** [export function hasEmMap(model: Model): boolean] *)
Definition hasEmMap (model : Model) : bool :=
  match sourceData model with
  | OtherFormat _ => false
  | MmcifFormat db =>
      existsb (fun i =>
                 String.eqb (toUpperCase (value (pdbx_database_related_db_name db) i)) "EMDB"
                 && String.eqb (value (pdbx_database_related_content_type db) i)
                               "associated EM volume")
              (seqZ 0 (pdbx_database_related_rowCount db))
  end.

(** [export function hasDensityMap(model: Model): boolean] *)
Definition hasDensityMap (model : Model) : bool :=
  match sourceData model with
  | OtherFormat _ => false
  | MmcifFormat _ => hasXrayMap model || hasEmMap model
  end.

Definition is_Unknown (k : ValueKind) : bool :=
  match k with Unknown => true | _ => false end.

(** [export function probablyHasDensityMap(model: Model): boolean] *)
Definition probablyHasDensityMap (model : Model) : bool :=
  match sourceData model with
  | OtherFormat _ => false
  | MmcifFormat db =>
      hasDensityMap model
      || (isFromPdbArchive model
          && (negb (isDefined (exptl_method db))
              || (isFromXray model
                  && (negb (isDefined (pdbx_database_status_status_code_sf db))
                      || is_Unknown (valueKind (pdbx_database_status_status_code_sf db) 0)))
              || (isFromEm model
                  && negb (isDefined (pdbx_database_related_db_name db)))))
  end.

End Predicates.

End ModelSource.

(** ** The rest of mol-model/structure/query/properties.ts *)

Module MoreProperties.

Import Properties.

(** What the remaining properties read of a unit and of its model, next to
  what [Properties.Unit] holds: the sites of a coarse unit (read only behind
  the guards), the name of the operator, and the model number and entity
  table of the model. *)
Record Sites := {
  modelKey : list Z;
  entityKey : list Z;
  asym_id : Column;
  seq_id_begin : Column;
  seq_id_end : Column;
  radius : Column;
  rmsf : Column;
  weight : Column;
  covariance_matrix : Column
}.

Record Entities := {
  id : Column;
  type : Column;
  src_method : Column;
  pdbx_description : Column;
  formula_weight : Column;
  pdbx_number_of_molecules : Column;
  details : Column;
  pdbx_mutation : Column;
  pdbx_fragment : Column;
  pdbx_ec : Column
}.

Record UnitRest := {
  sites : Sites;
  operator_name : string;
  modelNum : Z;
  entities : Entities
}.

(** An element location with the whole of its unit. *)
Record Location := {
  location : Properties.Location;
  rest : UnitRest
}.

Definition isSpheres (u : Unit) : bool :=
  match kind u with Spheres => true | _ => false end.

Definition isGaussians (u : Unit) : bool :=
  match kind u with Gaussians => true | _ => false end.

Definition isCoarse (u : Unit) : bool := isSpheres u || isGaussians u.

(** [function notCoarse(kind?: string): never] *)
Definition notCoarse (kind : option string) : Result :=
  match kind with
  | Some k =>
      if String.eqb k "" then Thrown "Property only available for coarse models."
      else Thrown ("Property only available for coarse models (" ++ k ++ ").")
  | None => Thrown "Property only available for coarse models."
  end.

(** [xs[i]] as a value: a miss is [undefined]. *)
Definition element_of (xs : list Z) (i : Z) : Value :=
  match array_get xs i with
  | Some k => VInt k
  | None => VUndefined
  end.

(** [column.value(v)] for a row that is itself a value read from a column:
  only a number finds a row. *)
Definition value_at (c : Column) (v : Value) : Value :=
  match v with
  | VInt k => c k
  | _ => VUndefined
  end.

Module coarse_grained.
Definition key (l : Location) : Result := atom.key (location l).
Definition modelKey (l : Location) : Result :=
  if negb (isCoarse (unit (location l))) then notCoarse None
  else Returned (element_of (modelKey (sites (rest l))) (element (location l))).
Definition entityKey (l : Location) : Result :=
  if negb (isCoarse (unit (location l))) then notCoarse None
  else Returned (element_of (entityKey (sites (rest l))) (element (location l))).

Definition x (l : Location) : Result := atom.x (location l).
Definition y (l : Location) : Result := atom.y (location l).
Definition z (l : Location) : Result := atom.z (location l).

Definition asym_id (l : Location) : Result :=
  if negb (isCoarse (unit (location l))) then notCoarse None
  else Returned (asym_id (sites (rest l)) (element (location l))).
Definition seq_id_begin (l : Location) : Result :=
  if negb (isCoarse (unit (location l))) then notCoarse None
  else Returned (seq_id_begin (sites (rest l)) (element (location l))).
Definition seq_id_end (l : Location) : Result :=
  if negb (isCoarse (unit (location l))) then notCoarse None
  else Returned (seq_id_end (sites (rest l)) (element (location l))).

Definition sphere_radius (l : Location) : Result :=
  if negb (isSpheres (unit (location l))) then notCoarse (Some "spheres")
  else Returned (radius (sites (rest l)) (element (location l))).
Definition sphere_rmsf (l : Location) : Result :=
  if negb (isSpheres (unit (location l))) then notCoarse (Some "spheres")
  else Returned (rmsf (sites (rest l)) (element (location l))).

Definition gaussian_weight (l : Location) : Result :=
  if negb (isGaussians (unit (location l))) then notCoarse (Some "gaussians")
  else Returned (weight (sites (rest l)) (element (location l))).
Definition gaussian_covariance_matrix (l : Location) : Result :=
  if negb (isGaussians (unit (location l))) then notCoarse (Some "gaussians")
  else Returned (covariance_matrix (sites (rest l)) (element (location l))).
End coarse_grained.

(** [function eK(l: Element.Location)] *)
Definition eK (l : Location) : Result :=
  atomic_only (location l)
    (fun u => column_value (Properties.entityKey (hierarchy u))
                (array_get (chainIndex u) (element (location l)))).

(** The shape shared by the entity properties:
  [l.unit.model.entities.data.<column>.value(eK(l))]; the throw of [eK] goes
  through. *)
Definition entity_column (c : Entities -> Column) (l : Location) : Result :=
  match eK l with
  | Returned k => Returned (value_at (c (entities (rest l))) k)
  | Thrown e => Thrown e
  end.

Module entity.
Definition key (l : Location) : Result := eK l.

Definition id (l : Location) : Result := entity_column id l.
Definition type (l : Location) : Result := entity_column type l.
Definition src_method (l : Location) : Result := entity_column src_method l.
Definition pdbx_description (l : Location) : Result := entity_column pdbx_description l.
Definition formula_weight (l : Location) : Result := entity_column formula_weight l.
Definition pdbx_number_of_molecules (l : Location) : Result :=
  entity_column pdbx_number_of_molecules l.
Definition details (l : Location) : Result := entity_column details l.
Definition pdbx_mutation (l : Location) : Result := entity_column pdbx_mutation l.
Definition pdbx_fragment (l : Location) : Result := entity_column pdbx_fragment l.
Definition pdbx_ec (l : Location) : Result := entity_column pdbx_ec l.
End entity.

Module unit_.
Definition operator_name (l : Location) : Result := Returned (VStr (operator_name (rest l))).
Definition model_num (l : Location) : Result := Returned (VInt (modelNum (rest l))).
End unit_.

(** The properties of [coarse_grained] that guard on [Unit.isCoarse], those
  that guard on [Unit.isSpheres], those that guard on [Unit.isGaussians],
  and the properties of [entity]. *)
Definition coarse_only_properties : list (string * (Location -> Result)) :=
  [ ("coarse_grained.modelKey", coarse_grained.modelKey);
    ("coarse_grained.entityKey", coarse_grained.entityKey);
    ("coarse_grained.asym_id", coarse_grained.asym_id);
    ("coarse_grained.seq_id_begin", coarse_grained.seq_id_begin);
    ("coarse_grained.seq_id_end", coarse_grained.seq_id_end) ].

Definition spheres_only_properties : list (string * (Location -> Result)) :=
  [ ("coarse_grained.sphere_radius", coarse_grained.sphere_radius);
    ("coarse_grained.sphere_rmsf", coarse_grained.sphere_rmsf) ].

Definition gaussians_only_properties : list (string * (Location -> Result)) :=
  [ ("coarse_grained.gaussian_weight", coarse_grained.gaussian_weight);
    ("coarse_grained.gaussian_covariance_matrix", coarse_grained.gaussian_covariance_matrix) ].

Definition entity_properties : list (string * (Location -> Result)) :=
  [ ("entity.key", entity.key);
    ("entity.id", entity.id);
    ("entity.type", entity.type);
    ("entity.src_method", entity.src_method);
    ("entity.pdbx_description", entity.pdbx_description);
    ("entity.formula_weight", entity.formula_weight);
    ("entity.pdbx_number_of_molecules", entity.pdbx_number_of_molecules);
    ("entity.details", entity.details);
    ("entity.pdbx_mutation", entity.pdbx_mutation);
    ("entity.pdbx_fragment", entity.pdbx_fragment);
    ("entity.pdbx_ec", entity.pdbx_ec) ].

End MoreProperties.

(** ** The superposition controls (mol-plugin-ui/structure/superposition.tsx) *)

Module Superposition.

Import Tasks.

Definition SuperpositionTag : string := "SuperpositionTransform".

Section Controls.

(** [Structure] stands for a structure object, compared by identity as the
  keys of a JavaScript [Map] are; [Cell] for a state object cell, [Ref] for
  the ref of a cell's transform, [Data] for [plugin.state.data], [Mat4] and
  [Num] for a matrix and a number. *)
Context {Structure Element Cell Ref Data Mat4 Num : Type} `{EqDecision Structure}.

(** An element is [None] where the source holds [undefined]. *)
Record Loci := {
  structure : Structure;
  elements : list (option Element)
}.

Record StructureSelectionHistoryEntry := {
  history_id : string;
  history_loci : Loci;
  history_label : string
}.

(** [LociEntry] and [AtomsLociEntry]; a chain entry has no [atoms]. *)
Record LociEntry := {
  loci : Loci;
  label : string;
  cell : Cell;
  atoms : list StructureSelectionHistoryEntry
}.

Record Result := {
  bTransform : Mat4;
  rmsd : Num
}.

(** The plugin as the controls use it: the state tree and the log. *)
Record Plugin := {
  data : Data;
  log : list string
}.

Inductive Builder :=
| To_update (o : Ref) (matrix : Mat4)
| To_insert (s : Cell) (matrix : Mat4) (tags : string).

Variable Loci_size : Loci -> Z.
Variable substructureParent_get : Structure -> option Cell.
Variable cell_obj_data : Cell -> option Structure.
Variable structure_label : Structure -> string.
Variable resolveAndCheck : Data -> Cell -> option Ref.
Variable findTagInSubtree : Data -> Ref -> string -> option Ref.
Variable updateTree : Builder -> Task Data unit.
Variable trace_loci : Loci -> Loci.
Variable superpose : list Loci -> list Result.
Variable alignAndSuperpose : list Loci -> list Result.
Variable stripTags : string -> string.
Variable toFixed : Num -> Z -> string.

(** [structureEntries] of [atomEntries]: a [Map] keeps its keys in the order
  of their first [set]. *)
Fixpoint push_entry (k : Structure) (e : StructureSelectionHistoryEntry)
    (m : list (Structure * list StructureSelectionHistoryEntry))
  : list (Structure * list StructureSelectionHistoryEntry) :=
  match m with
  | [] => [(k, [e])]
  | (k', es) :: m' =>
      if decide (k = k') then (k', (es ++ [e])%list) :: m' else (k', es) :: push_entry k e m'
  end.

Definition structureEntries (history : list StructureSelectionHistoryEntry)
  : list (Structure * list StructureSelectionHistoryEntry) :=
  fold_left
    (fun m e =>
       if negb (Loci_size (history_loci e) =? 1) then m
       else push_entry (structure (history_loci e)) e m)
    history [].

Definition atomEntries (history : list StructureSelectionHistoryEntry) : list LociEntry :=
  omap
    (fun '(structure_, atoms_) =>
       match substructureParent_get structure_ with
       | None => None
       | Some cell_ =>
           match cell_obj_data cell_ with
           | None => None
           | Some parent =>
               let elements_ := map (fun a => mjoin (elements (history_loci a) !! 0%nat)) atoms_ in
               let loci_ := {| structure := parent; elements := elements_ |} in
               Some {| loci := loci_; label := structure_label (structure loci_);
                       cell := cell_; atoms := atoms_ |}
           end
       end)
    (structureEntries history).

Definition transform (s : Cell) (matrix : Mat4) : Task Plugin unit :=
  fun p =>
    match resolveAndCheck (data p) s with
    | None => (Returned tt, p)
    | Some r =>
        let o := findTagInSubtree (data p) r SuperpositionTag in
        let b := match o with
                 | Some o => To_update o matrix
                 | None => To_insert s matrix SuperpositionTag
                 end in
        let '(res, d) := updateTree b (data p) in
        (res, {| data := d; log := log p |})
    end.

Definition log_info (msg : string) : Task Plugin unit :=
  modify (fun p => {| data := data p; log := (log p ++ [msg])%list |}).

Definition message (labelA labelB : string) (rmsd_ : Num) : string :=
  "Superposed [" +:+ labelA +:+ "] and [" +:+ labelB +:+ "] with RMSD "
  +:+ toFixed rmsd_ 2 +:+ ".".

(** One turn of the loop of [superposeChains] and [superposeAtoms].
  Destructuring [undefined] and reading a property of [undefined] throw a
  TypeError. *)
Definition superpose_step (entries : list LociEntry) (transforms : list Result)
    (i : nat) : Task Plugin unit :=
  let eA := entries !! 0%nat in
  let eB := entries !! i in
  match transforms !! (i - 1)%nat with
  | None => throw Symmetry3D.TypeError
  | Some t =>
      match eB with
      | None => throw "TypeError: Cannot read properties of undefined"
      | Some eB =>
          (do transform (cell eB) (bTransform t) ;;
           match eA with
           | None => throw "TypeError: Cannot read properties of undefined"
           | Some eA => log_info (message (stripTags (label eA)) (stripTags (label eB)) (rmsd t))
           end)%task
      end
  end.

(** [for (let i = 1; i < il; ++i) body(i)] *)
Fixpoint for_from (i : nat) (count : nat) (body : nat -> Task Plugin unit) : Task Plugin unit :=
  match count with
  | O => ret tt
  | S count' => (do body i ;; for_from (S i) count' body)%task
  end.

Definition superposeChains (alignSequences : bool) (chainEntries : list LociEntry)
  : Task Plugin unit :=
  let entries := chainEntries in
  let traceLocis := map (fun e => trace_loci (loci e)) entries in
  let transforms := if alignSequences then alignAndSuperpose traceLocis
                    else superpose traceLocis in
  for_from 1 (length traceLocis - 1)%nat (superpose_step entries transforms).

Definition superposeAtoms (entries : list LociEntry) : Task Plugin unit :=
  let atomLocis := map loci entries in
  let transforms := superpose atomLocis in
  for_from 1 (length atomLocis - 1)%nat (superpose_step entries transforms).

End Controls.

Arguments Loci : clear implicits.
Arguments StructureSelectionHistoryEntry : clear implicits.
Arguments LociEntry : clear implicits.
Arguments Result : clear implicits.
Arguments Plugin : clear implicits.
Arguments Builder : clear implicits.

End Superposition.

(** ** The viewer app (apps/viewer/index.ts) *)

Module Viewer.

Import Tasks.

Inductive ExtensionName :=
| cellpack
| pdbe_structure_quality_report
| rcsb_assembly_symmetry
| rcsb_validation_report.

(** [PluginSpec.Behavior(transformer)], by the name of the transformer. *)
Inductive BehaviorSpec :=
| Behavior (transformer : string).

Definition Extensions (e : ExtensionName) : BehaviorSpec :=
  match e with
  | cellpack => Behavior "CellPack"
  | pdbe_structure_quality_report => Behavior "PDBeStructureQualityReport"
  | rcsb_assembly_symmetry => Behavior "RCSBAssemblySymmetry"
  | rcsb_validation_report => Behavior "RCSBValidationReport"
  end.

(** The items of [PluginConfig] that the constructor sets; every other key of
  the config map is an [OtherItem]. *)
Inductive PluginConfigItem :=
| Viewport_ShowExpand
| Viewport_ShowSelectionMode
| Viewport_ShowAnimation
| State_DefaultServer
| State_CurrentServer
| VolumeStreaming_DefaultServer
| Download_DefaultPdbProvider
| Download_DefaultEmdbProvider
| OtherItem (key : string).

Definition item_eqb (a b : PluginConfigItem) : bool :=
  match a, b with
  | Viewport_ShowExpand, Viewport_ShowExpand
  | Viewport_ShowSelectionMode, Viewport_ShowSelectionMode
  | Viewport_ShowAnimation, Viewport_ShowAnimation
  | State_DefaultServer, State_DefaultServer
  | State_CurrentServer, State_CurrentServer
  | VolumeStreaming_DefaultServer, VolumeStreaming_DefaultServer
  | Download_DefaultPdbProvider, Download_DefaultPdbProvider
  | Download_DefaultEmdbProvider, Download_DefaultEmdbProvider => true
  | OtherItem x, OtherItem y => String.eqb x y
  | _, _ => false
  end.

Inductive ConfigValue :=
| VBool (b : bool)
| VString (s : string)
| VUndefined.

(** An option of the viewer as a config value: [None] is [undefined]. *)
Definition bool_value (v : option bool) : ConfigValue :=
  match v with
  | Some b => VBool b
  | None => VUndefined
  end.

Definition string_value (v : option string) : ConfigValue :=
  match v with
  | Some s => VString s
  | None => VUndefined
  end.

(** Whether an option is truthy: [undefined] is not. *)
Definition truthy (v : option bool) : bool :=
  match v with
  | Some b => b
  | None => false
  end.

(** The config map: [get] of a key. *)
Definition Config : Type := PluginConfigItem -> option ConfigValue.

(** [config.set(key, value)] *)
Definition set (key : PluginConfigItem) (value : ConfigValue) (config : Config) : Config :=
  fun k => if item_eqb k key then Some value else config k.

(** The object [o] of the constructor: a field is [None] where its value is
  [undefined]. *)
Record ViewerOptions := {
  extensions : option (list ExtensionName);
  layoutIsExpanded : option bool;
  layoutShowControls : option bool;
  layoutShowRemoteState : option bool;
  layoutControlsDisplay : option string;
  layoutShowSequence : option bool;
  layoutShowLog : option bool;
  layoutShowLeftPanel : option bool;
  viewportShowExpand : option bool;
  viewportShowSelectionMode : option bool;
  viewportShowAnimation : option bool;
  pluginStateServer : option string;
  volumeStreamingServer : option string;
  pdbProvider : option string;
  emdbProvider : option string
}.

(** [Partial<ViewerOptions>]: a field is [None] when the object lacks the
  key, [Some None] when it has the key with the value [undefined], which the
  type admits, and [Some (Some v)] when it has the key with the value [v]. *)
Record PartialViewerOptions := {
  extensions' : option (option (list ExtensionName));
  layoutIsExpanded' : option (option bool);
  layoutShowControls' : option (option bool);
  layoutShowRemoteState' : option (option bool);
  layoutControlsDisplay' : option (option string);
  layoutShowSequence' : option (option bool);
  layoutShowLog' : option (option bool);
  layoutShowLeftPanel' : option (option bool);
  viewportShowExpand' : option (option bool);
  viewportShowSelectionMode' : option (option bool);
  viewportShowAnimation' : option (option bool);
  pluginStateServer' : option (option string);
  volumeStreamingServer' : option (option string);
  pdbProvider' : option (option string);
  emdbProvider' : option (option string)
}.

(** [{ ...defaults, ...options }]: every key that [options] has wins, also
  with the value [undefined]. *)
Definition spread (defaults : ViewerOptions) (options : PartialViewerOptions) : ViewerOptions :=
  {| extensions := default (extensions defaults) (extensions' options);
     layoutIsExpanded := default (layoutIsExpanded defaults) (layoutIsExpanded' options);
     layoutShowControls := default (layoutShowControls defaults) (layoutShowControls' options);
     layoutShowRemoteState := default (layoutShowRemoteState defaults) (layoutShowRemoteState' options);
     layoutControlsDisplay := default (layoutControlsDisplay defaults) (layoutControlsDisplay' options);
     layoutShowSequence := default (layoutShowSequence defaults) (layoutShowSequence' options);
     layoutShowLog := default (layoutShowLog defaults) (layoutShowLog' options);
     layoutShowLeftPanel := default (layoutShowLeftPanel defaults) (layoutShowLeftPanel' options);
     viewportShowExpand := default (viewportShowExpand defaults) (viewportShowExpand' options);
     viewportShowSelectionMode :=
       default (viewportShowSelectionMode defaults) (viewportShowSelectionMode' options);
     viewportShowAnimation := default (viewportShowAnimation defaults) (viewportShowAnimation' options);
     pluginStateServer := default (pluginStateServer defaults) (pluginStateServer' options);
     volumeStreamingServer := default (volumeStreamingServer defaults) (volumeStreamingServer' options);
     pdbProvider := default (pdbProvider defaults) (pdbProvider' options);
     emdbProvider := default (emdbProvider defaults) (emdbProvider' options) |}.

Record LayoutInitial := {
  isExpanded : option bool;
  showControls : option bool;
  controlsDisplay : option string
}.

(** The regions of the layout controls: a region is [None] for [undefined]. *)
Record PluginLayoutSpec := {
  initial : option LayoutInitial;
  controls : option (gmap string (option string))
}.

(** A plugin spec without its [config]: that field refers to the one config
  map of [DefaultPluginSpec], which is the state the constructor works on. *)
Record PluginSpec := {
  actions : list string;
  behaviors : list BehaviorSpec;
  animations : option (list string);
  customParamEditors : option (list string);
  layout : option PluginLayoutSpec;
  components : option (gmap string string)
}.

Section App.

(** The document, [createPlugin] and the default values of the [PluginConfig]
  items are not part of this file.  [createPlugin] is handed the spec, and
  with it the config map, which it may read and write; it may throw. *)
Context {HTMLElement PluginContext : Type}.
Variable getElementById : string -> option HTMLElement.
Variable createPlugin : HTMLElement -> PluginSpec -> Task (option Config) PluginContext.
Variable ShowExpand_defaultValue : bool.
Variable ShowSelectionMode_defaultValue : bool.
Variable ShowAnimation_defaultValue : bool.
Variable State_DefaultServer_defaultValue : string.
Variable VolumeStreaming_DefaultServer_defaultValue : string.
Variable DefaultPdbProvider_defaultValue : string.
Variable DefaultEmdbProvider_defaultValue : string.

Definition DefaultViewerOptions : ViewerOptions :=
  {| extensions := Some [cellpack; pdbe_structure_quality_report;
                         rcsb_assembly_symmetry; rcsb_validation_report];
     layoutIsExpanded := Some true;
     layoutShowControls := Some true;
     layoutShowRemoteState := Some true;
     layoutControlsDisplay := Some "reactive";
     layoutShowSequence := Some true;
     layoutShowLog := Some true;
     layoutShowLeftPanel := Some true;
     viewportShowExpand := Some ShowExpand_defaultValue;
     viewportShowSelectionMode := Some ShowSelectionMode_defaultValue;
     viewportShowAnimation := Some ShowAnimation_defaultValue;
     pluginStateServer := Some State_DefaultServer_defaultValue;
     volumeStreamingServer := Some VolumeStreaming_DefaultServer_defaultValue;
     pdbProvider := Some DefaultPdbProvider_defaultValue;
     emdbProvider := Some DefaultEmdbProvider_defaultValue |}.

(** [DefaultPluginSpec]; the state of the tasks below is the map its
  [config] refers to, [None] where there is no map. *)
Variable DefaultPluginSpec : PluginSpec.

(** [spec.config?.set(key, value)] *)
Definition config_set (key : PluginConfigItem) (value : ConfigValue)
  : Task (option Config) unit :=
  modify (fun config => set key value <$> config).

(** The object literal [spec] of the constructor.  [o.extensions.map(...)]
  reads a property of [undefined] when [o.extensions] is [undefined]. *)
Definition make_spec (o : ViewerOptions) : Outcome string PluginSpec :=
  match extensions o with
  | None => Thrown "TypeError: Cannot read properties of undefined (reading 'map')"
  | Some extensions_ =>
      Returned
        {| actions := actions DefaultPluginSpec;
           behaviors := (behaviors DefaultPluginSpec ++ map Extensions extensions_)%list;
           animations := Some (default [] (animations DefaultPluginSpec));
           customParamEditors := customParamEditors DefaultPluginSpec;
           layout :=
             Some {| initial :=
                       Some {| isExpanded := layoutIsExpanded o;
                               showControls := layoutShowControls o;
                               controlsDisplay := layoutControlsDisplay o |};
                     controls :=
                       Some (<["left" := if truthy (layoutShowLeftPanel o) then None
                                         else Some "none"]>
                               (<["bottom" := if truthy (layoutShowLog o) then None
                                              else Some "none"]>
                                  (<["top" := if truthy (layoutShowSequence o) then None
                                              else Some "none"]>
                                     (default ∅ (layout DefaultPluginSpec ≫= controls))))) |};
           components :=
             Some (<["remoteState" := if truthy (layoutShowRemoteState o) then "default"
                                      else "none"]>
                     (default ∅ (components DefaultPluginSpec))) |}
  end.

(** [new Viewer(elementId, options)]: the plugin of the new viewer. *)
Definition new_Viewer (elementId : string) (options : PartialViewerOptions)
  : Task (option Config) PluginContext :=
  let o := spread DefaultViewerOptions options in
  match make_spec o with
  | Thrown e => throw e
  | Returned spec =>
      (do config_set Viewport_ShowExpand (bool_value (viewportShowExpand o)) ;;
       do config_set Viewport_ShowSelectionMode (bool_value (viewportShowSelectionMode o)) ;;
       do config_set Viewport_ShowAnimation (bool_value (viewportShowAnimation o)) ;;
       do config_set State_DefaultServer (string_value (pluginStateServer o)) ;;
       do config_set State_CurrentServer (string_value (pluginStateServer o)) ;;
       do config_set VolumeStreaming_DefaultServer (string_value (volumeStreamingServer o)) ;;
       do config_set Download_DefaultPdbProvider (string_value (pdbProvider o)) ;;
       do config_set Download_DefaultEmdbProvider (string_value (emdbProvider o)) ;;
       match getElementById elementId with
       | None => throw ("Error: Could not get element with id '" +:+ elementId +:+ "'")
       | Some element => createPlugin element spec
       end)%task
  end.

End App.

End Viewer.

(** * Concrete inputs *)

(** A unit of spheres, with positions on the diagonal. *)
Definition spheres_unit : Properties.Unit :=
  {| Properties.kind := Properties.Spheres;
     Properties.x := fun i => inject_Z i;
     Properties.y := fun i => inject_Z i;
     Properties.z := fun i => inject_Z i |}.

Definition spheres_location : Properties.Location :=
  {| Properties.unit := spheres_unit; Properties.element := 3 |}.

(** A model with an empty property bag, an empty heap, and a center function
  that averages nothing. *)
Definition calc_origin (ac cc : list (Z * Z * Z)) : Z * Z * Z := (0, 0, 0).

Definition fresh_model : Model.Model (list (Z * Z * Z)) (list (Z * Z * Z)) :=
  {| Model.atomicConformation := [(1, 2, 3)];
     Model.coarseConformation := [];
     Model._dynamicPropertyData := ∅ |}.

Definition empty_heap : Model.Heap (Z * Z * Z) :=
  {| Model.objects := []; Model.calcModelCenter_runs := 0%nat |}.






(** The entries of the RCSB assembly-symmetry behavior and two states of the
  registries: an empty one, and one in which the cluster color theme is
  already installed. *)
Definition init_action : Behavior.StateAction :=
  {| Behavior.action_id := "InitAssemblySymmetry3D";
     Behavior.action_display_name := "Assembly Symmetry" |}.

Definition symmetry_provider : Behavior.PropertyProvider :=
  {| Behavior.descriptor_name := "rcsb_struct_symmetry";
     Behavior.provider_label := "Assembly Symmetry" |}.

Definition cluster_theme : Behavior.ColorThemeProvider :=
  {| Behavior.theme_name := "rcsb-assembly-symmetry-cluster";
     Behavior.theme_label := "Cluster" |}.

Definition no_registrations : Behavior.Registries :=
  {| Behavior.actions := ∅;
     Behavior.customStructureProperties := ∅;
     Behavior.defaultAutoAttachValues := ∅;
     Behavior.colorThemeRegistry := ∅ |}.

Definition theme_registered : Behavior.Registries :=
  {| Behavior.actions := ∅;
     Behavior.customStructureProperties := ∅;
     Behavior.defaultAutoAttachValues := ∅;
     Behavior.colorThemeRegistry := {[ "rcsb-assembly-symmetry-cluster" := cluster_theme ]} |}.

Definition handler_off : Behavior.Handler :=
  {| Behavior.params := {| Behavior.autoAttach := false;
                           Behavior.serverUrl := "https://data.rcsb.org/graphql" |} |}.

(** New parameter values that differ from those of [handler_off] in the
  server URL only. *)
Definition other_server : Behavior.Params :=
  {| Behavior.autoAttach := false;
     Behavior.serverUrl := "https://example.org/graphql" |}.

(** Servers: one that cannot be reached, one that answers with no
  symmetry, one that answers with a single C2 symmetry. *)
Definition server_down (s : Symmetry3D.Structure)
  : Outcome string Symmetry3D.AssemblySymmetryValue :=
  Thrown "Error: Failed to fetch".

Definition server_no_symmetry (s : Symmetry3D.Structure)
  : Outcome string Symmetry3D.AssemblySymmetryValue :=
  Returned (Some []).

Definition cyclic_C2 : Symmetry3D.Symmetry :=
  {| Symmetry3D.type := "Cyclic";
     Symmetry3D.kind := "Global Symmetry";
     Symmetry3D.symbol := "C2" |}.

Definition server_C2 (s : Symmetry3D.Structure)
  : Outcome string Symmetry3D.AssemblySymmetryValue :=
  Returned (Some [cyclic_C2]).

Definition empty_world : Symmetry3D.World :=
  {| Symmetry3D.propertyData := ∅;
     Symmetry3D.log_error := [];
     Symmetry3D.tree := [] |}.

(** A representation object made earlier for structure 1, and parameters
  that select the first symmetry, or a fourth one. *)
Definition earlier_output : Symmetry3D.Representation3D :=
  {| Symmetry3D.repr :=
       {| Symmetry3D.props := {[ "symmetryIndex" := Symmetry3D.PNum 0 ]};
          Symmetry3D.structure := Some 1%nat;
          Symmetry3D.version := 1 |};
     Symmetry3D.source := 1%nat;
     Symmetry3D.label := "Global Symmetry";
     Symmetry3D.description := "Cyclic (C2)" |}.

Definition select_first : Symmetry3D.Props := {[ "symmetryIndex" := Symmetry3D.PNum 0 ]}.
Definition select_fourth : Symmetry3D.Props := {[ "symmetryIndex" := Symmetry3D.PNum 3 ]}.

(** Voxel bytes that tell the voxels apart, and the same with slice 2
  blanked. *)
Definition ramp (x y z : Z) : Z := 1 + x + 2 * y + 4 * z.

Definition ramp_without_slice_2 (x y z : Z) : Z :=
  if z =? 2 then 0 else ramp x y z.

(** A source model that has a center cached, two frames of coordinates, a
  heap that holds the source model's trajectoryInfo, and the conformation
  of a frame. *)
Definition take_frame (f ac : list (Z * Z * Z)) : list (Z * Z * Z) := f.

Definition cached_source_model : Trajectory.Model (list (Z * Z * Z)) (list (Z * Z * Z)) :=
  {| Trajectory.id := 7;
     Trajectory.entryId := "1abc";
     Trajectory.label := "1ABC";
     Trajectory.modelNum := 1;
     Trajectory.trajectoryInfo := 0%nat;
     Trajectory.atomicConformation := [(0, 0, 0)];
     Trajectory.coarseConformation := [];
     Trajectory.customProperties := 1%nat;
     Trajectory._staticPropertyData := ∅;
     Trajectory._dynamicPropertyData := {[ "__Center__" := Model.AObj 0%nat ]} |}.

Definition two_frames : list (list (Z * Z * Z)) := [[(1, 1, 1)]; [(2, 2, 2)]].

Definition start_heap : Trajectory.Heap :=
  {| Trajectory.infos := {[ 0%nat := {| Trajectory.index := 0; Trajectory.size := 1 |} ]};
     Trajectory.next_uuid := 8%nat;
     Trajectory.next_ref := 2%nat |}.

(** mmCIF data in which no category is present, and a model read from a
  PDB file. *)
Definition absent_column : ModelSource.StrColumn :=
  {| ModelSource.isDefined := false;
     ModelSource.rowCount := 0;
     ModelSource.value := fun _ => "";
     ModelSource.valueKind := fun _ => ModelSource.NotPresent |}.

Definition bare_db : ModelSource.Db :=
  {| ModelSource.database_2_database_id := absent_column;
     ModelSource.exptl_method := absent_column;
     ModelSource.pdbx_database_status_status_code_sf := absent_column;
     ModelSource.pdbx_database_related_rowCount := 0;
     ModelSource.pdbx_database_related_db_name := absent_column;
     ModelSource.pdbx_database_related_content_type := absent_column;
     ModelSource.struct_conf_id := absent_column;
     ModelSource.struct_sheet_range_id := absent_column |}.

Definition pdb_file_model : ModelSource.Model :=
  {| ModelSource.entryId := "1abc"; ModelSource.sourceData := ModelSource.OtherFormat "pdb" |}.

(** The location of [spheres_location] with the rest of its unit. *)
Definition no_column : Properties.Column := fun _ => Properties.VUndefined.

Definition spheres_site : MoreProperties.Location :=
  {| MoreProperties.location := spheres_location;
     MoreProperties.rest :=
       {| MoreProperties.sites :=
            {| MoreProperties.modelKey := [0; 0; 0; 0];
               MoreProperties.entityKey := [0; 0; 1; 1];
               MoreProperties.asym_id := fun _ => Properties.VStr "A";
               MoreProperties.seq_id_begin := fun i => Properties.VInt (10 * i);
               MoreProperties.seq_id_end := fun i => Properties.VInt (10 * i + 9);
               MoreProperties.radius := fun _ => Properties.VInt 5;
               MoreProperties.rmsf := fun _ => Properties.VInt 1;
               MoreProperties.weight := no_column;
               MoreProperties.covariance_matrix := no_column |};
          MoreProperties.operator_name := "1_555";
          MoreProperties.modelNum := 1;
          MoreProperties.entities :=
            {| MoreProperties.id := fun i => Properties.VInt i;
               MoreProperties.type := fun _ => Properties.VStr "polymer";
               MoreProperties.src_method := no_column;
               MoreProperties.pdbx_description := no_column;
               MoreProperties.formula_weight := no_column;
               MoreProperties.pdbx_number_of_molecules := no_column;
               MoreProperties.details := no_column;
               MoreProperties.pdbx_mutation := no_column;
               MoreProperties.pdbx_fragment := no_column;
               MoreProperties.pdbx_ec := no_column |} |} |}.

(** A map stored with the cell's z axis fastest, covering the whole cell. *)
Definition permuted_header : Ccp4.Ccp4Header :=
  {| Ccp4.NC := 6; Ccp4.NR := 4; Ccp4.NS := 5;
     Ccp4.MODE := 2;
     Ccp4.NCSTART := 0; Ccp4.NRSTART := 0; Ccp4.NSSTART := 0;
     Ccp4.NX := 4; Ccp4.NY := 5; Ccp4.NZ := 6;
     Ccp4.xLength := 40; Ccp4.yLength := 50; Ccp4.zLength := 60;
     Ccp4.alpha := 90; Ccp4.beta := 90; Ccp4.gamma := 90;
     Ccp4.MAPC := 3; Ccp4.MAPR := 1; Ccp4.MAPS := 2;
     Ccp4.AMIN := 0; Ccp4.AMAX := 1; Ccp4.AMEAN := 0;
     Ccp4.ISPG := 1;
     Ccp4.originX := 0; Ccp4.originY := 0; Ccp4.originZ := 0;
     Ccp4.ARMS := 1 |}.

(** A state tree that only records the updates run on it, with cells that
  resolve to themselves, and superpositions that cost nothing. *)
Definition RecordedTree : Type := list (Superposition.Builder nat nat Z).

Definition resolve_every_cell : RecordedTree -> nat -> option nat := fun _ c => Some c.

Definition resolve_no_cell : RecordedTree -> nat -> option nat := fun _ _ => None.

Definition untagged : RecordedTree -> nat -> string -> option nat := fun _ _ _ => None.

Definition record_update : Superposition.Builder nat nat Z -> Tasks.Task RecordedTree unit :=
  fun b d => (Returned tt, (d ++ [b])%list).

Definition plain_label : string -> string := fun s => s.

Definition two_decimals : Z -> Z -> string := fun _ _ => "0.00".

Definition same_loci : Superposition.Loci nat nat -> Superposition.Loci nat nat := fun l => l.

Definition superpose_onto_first (locis : list (Superposition.Loci nat nat))
  : list (Superposition.Result Z Z) :=
  map (fun _ => {| Superposition.bTransform := 1; Superposition.rmsd := 0 |}) (tail locis).

Definition superpose_nothing (locis : list (Superposition.Loci nat nat))
  : list (Superposition.Result Z Z) := [].

Definition chain_entry (n : nat) (name : string) : Superposition.LociEntry nat nat nat :=
  {| Superposition.loci := {| Superposition.structure := n; Superposition.elements := [Some n] |};
     Superposition.label := name;
     Superposition.cell := n;
     Superposition.atoms := [] |}.

Definition fresh_plugin : Superposition.Plugin RecordedTree :=
  {| Superposition.data := []; Superposition.log := [] |}.

(** A page without elements and one with the element "app", a
  [createPlugin] that hands the spec back, a plugin spec without entries, an
  empty config map, and three option objects. *)
Definition empty_document : string -> option unit := fun _ => None.

Definition app_document : string -> option unit :=
  fun id => if String.eqb id "app" then Some tt else None.

Definition plugin_of_spec : unit -> Viewer.PluginSpec -> Tasks.Task (option Viewer.Config) Viewer.PluginSpec :=
  fun _ spec => Tasks.ret spec.

Definition bare_plugin_spec : Viewer.PluginSpec :=
  {| Viewer.actions := []; Viewer.behaviors := []; Viewer.animations := None;
     Viewer.customParamEditors := None; Viewer.layout := None;
     Viewer.components := None |}.

Definition empty_config : Viewer.Config := fun _ => None.

Definition no_options : Viewer.PartialViewerOptions :=
  {| Viewer.extensions' := None; Viewer.layoutIsExpanded' := None;
     Viewer.layoutShowControls' := None; Viewer.layoutShowRemoteState' := None;
     Viewer.layoutControlsDisplay' := None; Viewer.layoutShowSequence' := None;
     Viewer.layoutShowLog' := None; Viewer.layoutShowLeftPanel' := None;
     Viewer.viewportShowExpand' := None; Viewer.viewportShowSelectionMode' := None;
     Viewer.viewportShowAnimation' := None; Viewer.pluginStateServer' := None;
     Viewer.volumeStreamingServer' := None; Viewer.pdbProvider' := None;
     Viewer.emdbProvider' := None |}.

Definition only_state_server (url : string) : Viewer.PartialViewerOptions :=
  {| Viewer.extensions' := None; Viewer.layoutIsExpanded' := None;
     Viewer.layoutShowControls' := None; Viewer.layoutShowRemoteState' := None;
     Viewer.layoutControlsDisplay' := None; Viewer.layoutShowSequence' := None;
     Viewer.layoutShowLog' := None; Viewer.layoutShowLeftPanel' := None;
     Viewer.viewportShowExpand' := None; Viewer.viewportShowSelectionMode' := None;
     Viewer.viewportShowAnimation' := None; Viewer.pluginStateServer' := Some (Some url);
     Viewer.volumeStreamingServer' := None; Viewer.pdbProvider' := None;
     Viewer.emdbProvider' := None |}.

Definition extensions_undefined : Viewer.PartialViewerOptions :=
  {| Viewer.extensions' := Some None; Viewer.layoutIsExpanded' := None;
     Viewer.layoutShowControls' := None; Viewer.layoutShowRemoteState' := None;
     Viewer.layoutControlsDisplay' := None; Viewer.layoutShowSequence' := None;
     Viewer.layoutShowLog' := None; Viewer.layoutShowLeftPanel' := None;
     Viewer.viewportShowExpand' := None; Viewer.viewportShowSelectionMode' := None;
     Viewer.viewportShowAnimation' := None; Viewer.pluginStateServer' := None;
     Viewer.volumeStreamingServer' := None; Viewer.pdbProvider' := None;
     Viewer.emdbProvider' := None |}.


(** * Theorems *)

(** ** Structure-query properties *)

Lemma atomic_only_not_atomic (l : Properties.Location) (f : Properties.AtomicData -> Properties.Value) :
  Properties.isAtomic (Properties.unit l) = false ->
  Properties.atomic_only l f = Properties.notAtomic.
Proof.
  unfold Properties.isAtomic, Properties.atomic_only.
  destruct (Properties.kind (Properties.unit l)); [discriminate | reflexivity | reflexivity].
Qed.

Lemma atomic_only_atomic (l : Properties.Location) (f : Properties.AtomicData -> Properties.Value) :
  Properties.isAtomic (Properties.unit l) = true ->
  exists d, Properties.kind (Properties.unit l) = Properties.Atomic d
            /\ Properties.atomic_only l f = Returned (f d).
Proof.
  unfold Properties.isAtomic, Properties.atomic_only.
  destruct (Properties.kind (Properties.unit l)) as [d| |]; try discriminate.
  intros _. exists d. split; reflexivity.
Qed.

(** C9: at a location whose unit is not atomic, each of atom.id,
    atom.occupancy, atom.B_iso_or_equiv, the atom hierarchy properties and
    every residue.* and chain.* property throws 'Property only available for
    atomic models.'; constant.*, atom.key, atom.x, atom.y and atom.z return
    a value at every location, whatever the kind of its unit. *)
Theorem atomic_only_properties_throw_off_atomic_units :
  forall l : Properties.Location,
    (Properties.isAtomic (Properties.unit l) = false ->
     Forall (fun p => snd p l = Thrown "Property only available for atomic models.")
            Properties.atomic_only_properties)
    /\ Forall (fun p => exists v, snd p l = Returned v) Properties.total_properties.
Proof.
  intros l. split.
  - intros Hk. unfold Properties.atomic_only_properties.
    repeat (constructor; [ apply (atomic_only_not_atomic l _ Hk) | ]).
    constructor.
  - unfold Properties.total_properties.
    repeat (constructor; [ eexists; reflexivity | ]).
    constructor.
Qed.

Lemma atomic_only_properties_throw_off_atomic_units_witness :
  Properties.isAtomic (Properties.unit spheres_location) = false
  /\ Forall (fun p => snd p spheres_location = Thrown "Property only available for atomic models.")
            Properties.atomic_only_properties.
Proof.
  split; [ reflexivity | ].
  apply (proj1 (atomic_only_properties_throw_off_atomic_units spheres_location)).
  reflexivity.
Defined.


(** ** The center cache *)

Section CenterCache.

Context {AC CC V : Type} (calc : AC -> CC -> V).

Lemma getCenter_hit (m : Model.Model AC CC) (h : Model.Heap V) :
  Model.truthy (Model.bag_get (Model._dynamicPropertyData m) Model.CenterProp) = true ->
  Model.getCenter calc m h
  = (Model.bag_get (Model._dynamicPropertyData m) Model.CenterProp, m, h).
Proof. intros Ht. unfold Model.getCenter. rewrite Ht. reflexivity. Qed.

Lemma getCenter_miss (m : Model.Model AC CC) (h : Model.Heap V) :
  Model.truthy (Model.bag_get (Model._dynamicPropertyData m) Model.CenterProp) = false ->
  Model.getCenter calc m h
  = (Model.AObj (length (Model.objects h)),
     {| Model.atomicConformation := Model.atomicConformation m;
        Model.coarseConformation := Model.coarseConformation m;
        Model._dynamicPropertyData :=
          <[Model.CenterProp := Model.AObj (length (Model.objects h))]> (Model._dynamicPropertyData m) |},
     {| Model.objects :=
          Model.objects h ++ [calc (Model.atomicConformation m) (Model.coarseConformation m)];
        Model.calcModelCenter_runs := S (Model.calcModelCenter_runs h) |}).
Proof. intros Ht. unfold Model.getCenter. rewrite Ht. reflexivity. Qed.

(** After any call the slot holds what the call returned, and it is truthy. *)
Lemma getCenter_caches (m m1 : Model.Model AC CC) (h h1 : Model.Heap V) (c : Model.Any) :
  Model.getCenter calc m h = (c, m1, h1) ->
  Model.bag_get (Model._dynamicPropertyData m1) Model.CenterProp = c /\ Model.truthy c = true.
Proof.
  destruct (Model.truthy (Model.bag_get (Model._dynamicPropertyData m) Model.CenterProp)) eqn:Ht.
  - rewrite (getCenter_hit m h Ht). intros [= <- <- <-]. split; [reflexivity | exact Ht].
  - rewrite (getCenter_miss m h Ht). intros [= <- <- <-]. split; [ | reflexivity].
    unfold Model.bag_get. cbn. rewrite lookup_insert_eq. reflexivity.
Qed.

(** Once the slot is truthy, calls change nothing and keep returning it. *)
Lemma getCenter_times_hit (n : nat) (m : Model.Model AC CC) (h : Model.Heap V) :
  Model.truthy (Model.bag_get (Model._dynamicPropertyData m) Model.CenterProp) = true ->
  Model.getCenter_times calc n m h
  = (repeat (Model.bag_get (Model._dynamicPropertyData m) Model.CenterProp) n, m, h).
Proof.
  intros Ht. induction n as [|n IH]; [reflexivity | ].
  cbn [Model.getCenter_times repeat]. rewrite (getCenter_hit m h Ht), IH. reflexivity.
Qed.

End CenterCache.

(** C10: for every model, the first call of getCenter on a model whose
    '__Center__' slot holds nothing truthy runs calcModelCenter once, stores
    the new Vec3 under '__Center__' of _dynamicPropertyData and returns it;
    whatever the slot held before, every later call returns the very
    reference the first call returned, changes neither the model nor the
    heap, and so runs calcModelCenter no further time: in all,
    calcModelCenter runs at most once. *)
Theorem getCenter_computes_center_at_most_once :
  forall (AC CC V : Type) (calc : AC -> CC -> V)
         (m : Model.Model AC CC) (h : Model.Heap V) (n : nat),
    let '(c, m1, h1) := Model.getCenter calc m h in
    (Model.truthy (Model.bag_get (Model._dynamicPropertyData m) Model.CenterProp) = false ->
       c = Model.AObj (length (Model.objects h))
       /\ Model.objects h1 !! length (Model.objects h)
          = Some (calc (Model.atomicConformation m) (Model.coarseConformation m))
       /\ Model.calcModelCenter_runs h1 = S (Model.calcModelCenter_runs h))
    /\ Model._dynamicPropertyData m1 !! Model.CenterProp = Some c
    /\ Model.getCenter_times calc n m1 h1 = (repeat c n, m1, h1)
    /\ (Model.calcModelCenter_runs (snd (Model.getCenter_times calc n m1 h1))
        <= S (Model.calcModelCenter_runs h))%nat.
Proof.
  intros AC CC V calc m h n.
  destruct (Model.getCenter calc m h) as [[c m1] h1] eqn:E.
  destruct (getCenter_caches calc m m1 h h1 c E) as [Hslot Htruthy].
  assert (Hrep : Model.getCenter_times calc n m1 h1 = (repeat c n, m1, h1)).
  { rewrite <- Hslot. apply getCenter_times_hit. rewrite Hslot. exact Htruthy. }
  repeat split.
  - revert E. rewrite (getCenter_miss calc m h H). intros [= <- <- <-]. reflexivity.
  - revert E. rewrite (getCenter_miss calc m h H). intros [= <- <- <-].
    cbn. apply list_lookup_middle. reflexivity.
  - revert E. rewrite (getCenter_miss calc m h H). intros [= <- <- <-]. reflexivity.
  - revert Hslot Htruthy. unfold Model.bag_get.
    destruct (Model._dynamicPropertyData m1 !! Model.CenterProp) as [v|]; cbn.
    + intros ->. reflexivity.
    + intros <-. discriminate.
  - exact Hrep.
  - rewrite Hrep. cbn.
    destruct (Model.truthy (Model.bag_get (Model._dynamicPropertyData m) Model.CenterProp)) eqn:Ht.
    + rewrite (getCenter_hit calc m h Ht) in E. injection E as <- <- <-. lia.
    + rewrite (getCenter_miss calc m h Ht) in E. injection E as <- <- <-. cbn. lia.
Qed.

Lemma getCenter_computes_center_at_most_once_witness :
  Model.truthy (Model.bag_get (Model._dynamicPropertyData fresh_model) Model.CenterProp) = false
  /\ fst (fst (Model.getCenter calc_origin fresh_model empty_heap)) = Model.AObj 0%nat
  /\ Model.calcModelCenter_runs (snd (Model.getCenter calc_origin fresh_model empty_heap)) = 1%nat.
Proof.
  pose proof (getCenter_computes_center_at_most_once _ _ _ calc_origin fresh_model empty_heap 2) as H.
  destruct (Model.getCenter calc_origin fresh_model empty_heap) as [[c m1] h1].
  destruct H as [Hfirst _].
  assert (Hnone : Model.truthy (Model.bag_get (Model._dynamicPropertyData fresh_model)
                                  Model.CenterProp) = false) by reflexivity.
  destruct (Hfirst Hnone) as (Hc & _ & Hruns).
  split; [exact Hnone | split; [exact Hc | exact Hruns]].
Defined.


(** ** CCP4 volumes *)

Lemma is_zero_true (r : R) : Ccp4.is_zero r = true <-> r = 0%R.
Proof.
  unfold Ccp4.is_zero. destruct (Req_dec_T r 0) as [e|ne]; split; intros H;
    [exact e | reflexivity | discriminate | contradiction].
Qed.

Lemma all_zero_true (h : Ccp4.Ccp4Header) :
  Ccp4.is_zero (Ccp4.originX h) && Ccp4.is_zero (Ccp4.originY h) && Ccp4.is_zero (Ccp4.originZ h) = true
  <-> (Ccp4.originX h = 0 /\ Ccp4.originY h = 0 /\ Ccp4.originZ h = 0)%R.
Proof.
  rewrite !andb_true_iff, !is_zero_true. tauto.
Qed.


Lemma typed_set_3_cases (p q r o i : Z) :
  Ccp4.Tensor.typed_set [p; q; r] o i = [p; q; r]
  \/ Ccp4.Tensor.typed_set [p; q; r] o i = [i; q; r]
  \/ Ccp4.Tensor.typed_set [p; q; r] o i = [p; i; r]
  \/ Ccp4.Tensor.typed_set [p; q; r] o i = [p; q; i].
Proof.
  unfold Ccp4.Tensor.typed_set. destruct (Z.ltb_spec o 0); [left; reflexivity | ].
  destruct (Z.to_nat o) as [|[|[|n]]]; cbn; auto.
Qed.

Lemma normalizeOrder_entries (h : Ccp4.Ccp4Header) (a b c : Z) :
  exists r0 r1 r2 : Z,
    Ccp4.normalizeOrder h [a; b; c] = [Some r0; Some r1; Some r2]
    /\ (r0 = a \/ r0 = b \/ r0 = c)
    /\ (r1 = a \/ r1 = b \/ r1 = c)
    /\ (r2 = a \/ r2 = b \/ r2 = c).
Proof.
  unfold Ccp4.normalizeOrder, Ccp4.axis_order_fast_to_slow,
    Ccp4.Tensor.convertToCanonicalAxisIndicesFastToSlow.
  cbn [length repeat Ccp4.Tensor.fill_indices].
  destruct (typed_set_3_cases 0 0 0 (Ccp4.MAPC h - 1) 0) as [E1|[E1|[E1|E1]]]; rewrite E1;
    match goal with
    | |- context [Ccp4.Tensor.typed_set [?p; ?q; ?r] (Ccp4.MAPR h - 1) ?i] =>
        destruct (typed_set_3_cases p q r (Ccp4.MAPR h - 1) i) as [E2|[E2|[E2|E2]]]; rewrite E2
    end;
    match goal with
    | |- context [Ccp4.Tensor.typed_set [?p; ?q; ?r] (Ccp4.MAPS h - 1) ?i] =>
        destruct (typed_set_3_cases p q r (Ccp4.MAPS h - 1) i) as [E3|[E3|[E3|E3]]]; rewrite E3
    end;
    cbn; eexists _, _, _; (split; [reflexivity | ]); auto.
Qed.









(** ** The behavior: register, update, unregister *)

Section BehaviorFacts.

Context (action : Behavior.StateAction)
        (provider : Behavior.PropertyProvider)
        (theme : Behavior.ColorThemeProvider).

(** Whatever the registries hold before, [register(); unregister()] leaves
  them without the three entries. *)
Lemma register_unregister_deletes (this : Behavior.Handler) (r : Behavior.Registries) :
  Behavior.run (Behavior.unregister action provider theme this)
    (Behavior.run (Behavior.register action provider theme this) r)
  = {| Behavior.actions := delete (Behavior.action_id action) (Behavior.actions r);
       Behavior.customStructureProperties :=
         delete (Behavior.descriptor_name provider) (Behavior.customStructureProperties r);
       Behavior.defaultAutoAttachValues :=
         delete (Behavior.descriptor_name provider) (Behavior.defaultAutoAttachValues r);
       Behavior.colorThemeRegistry :=
         delete (Behavior.theme_name theme) (Behavior.colorThemeRegistry r) |}.
Proof.
  destruct r as [a p d t]. cbn. rewrite !delete_insert_eq. reflexivity.
Qed.

Lemma unregister_same_order (this : Behavior.Handler) :
  Behavior.unregister action provider theme this
  = map Behavior.removal_of (Behavior.register action provider theme this).
Proof. reflexivity. Qed.

End BehaviorFacts.

(** C3, as stated, fails on two counts: unregister makes its removals in
    the order of the installations (action, property, theme), which is not
    the reverse order; and from registries in which the cluster color theme
    is installed already, register() followed by unregister() ends without
    that theme, not in the state it started from.  The same happens with a
    default auto-attach value kept for the provider: the registries that
    update() alone leaves hold none of the three entries, and register()
    followed by unregister() removes the value that update() stored. *)
Lemma unregister_not_reversed_nor_restoring_everywhere :
  Behavior.unregister init_action symmetry_provider cluster_theme handler_off
  <> rev (map Behavior.removal_of
              (Behavior.register init_action symmetry_provider cluster_theme handler_off))
  /\ Behavior.run (Behavior.unregister init_action symmetry_provider cluster_theme handler_off)
       (Behavior.run (Behavior.register init_action symmetry_provider cluster_theme handler_off)
          theme_registered)
     <> theme_registered
  /\ (let updated_only :=
        Behavior.run (snd (Behavior.update symmetry_provider handler_off other_server))
          no_registrations in
      Behavior.actions updated_only !! Behavior.action_id init_action = None
      /\ Behavior.customStructureProperties updated_only
           !! Behavior.descriptor_name symmetry_provider = None
      /\ Behavior.colorThemeRegistry updated_only !! Behavior.theme_name cluster_theme = None
      /\ Behavior.run (Behavior.unregister init_action symmetry_provider cluster_theme handler_off)
           (Behavior.run
              (Behavior.register init_action symmetry_provider cluster_theme handler_off)
              updated_only)
         <> updated_only).
Proof.
  split; [ | split].
  - cbn. discriminate.
  - rewrite register_unregister_deletes. intros E.
    apply (f_equal (fun r => Behavior.colorThemeRegistry r !! "rcsb-assembly-symmetry-cluster")) in E.
    cbn in E. rewrite lookup_delete_eq, lookup_singleton_eq in E. discriminate E.
  - cbv zeta. split; [reflexivity | ]. split; [reflexivity | ]. split; [reflexivity | ].
    rewrite register_unregister_deletes. intros E.
    apply (f_equal (fun r => Behavior.defaultAutoAttachValues r !! "rcsb_struct_symmetry")) in E.
    cbn in E. rewrite lookup_delete_eq, lookup_insert_eq in E. discriminate E.
Qed.

(** C3, amended: unregister removes exactly the three entries register
    installed, in the same order (action, custom structure property, color
    theme), so that for every prior state of the registries that holds none
    of the three and no default auto-attach value for the provider,
    register() followed by unregister() leaves the action,
    custom-structure-property and color-theme registries identical to their
    state before register. *)
Theorem register_then_unregister_restores_fresh_registries :
  forall (action : Behavior.StateAction) (provider : Behavior.PropertyProvider)
         (theme : Behavior.ColorThemeProvider)
         (this : Behavior.Handler) (r : Behavior.Registries),
    Behavior.actions r !! Behavior.action_id action = None ->
    Behavior.customStructureProperties r !! Behavior.descriptor_name provider = None ->
    Behavior.defaultAutoAttachValues r !! Behavior.descriptor_name provider = None ->
    Behavior.colorThemeRegistry r !! Behavior.theme_name theme = None ->
    Behavior.unregister action provider theme this
    = map Behavior.removal_of (Behavior.register action provider theme this)
    /\ Behavior.run (Behavior.unregister action provider theme this)
         (Behavior.run (Behavior.register action provider theme this) r)
       = r.
Proof.
  intros action provider theme this r Ha Hp Hd Ht.
  split; [apply unregister_same_order | ].
  rewrite register_unregister_deletes.
  rewrite (delete_id _ _ Ha), (delete_id _ _ Hp), (delete_id _ _ Hd), (delete_id _ _ Ht).
  destruct r; reflexivity.
Qed.

Lemma register_then_unregister_restores_fresh_registries_witness :
  Behavior.run (Behavior.unregister init_action symmetry_provider cluster_theme handler_off)
    (Behavior.run (Behavior.register init_action symmetry_provider cluster_theme handler_off)
       no_registrations)
  = no_registrations.
Proof.
  apply (register_then_unregister_restores_fresh_registries
           init_action symmetry_provider cluster_theme handler_off no_registrations);
    reflexivity.
Defined.

(** C7, as stated, fails: new parameters that differ from the current
    ones in serverUrl only make update return false, and the handler keeps
    its old serverUrl. *)
Lemma update_ignores_serverUrl :
  other_server <> Behavior.params handler_off
  /\ fst (fst (Behavior.update symmetry_provider handler_off other_server)) = false
  /\ Behavior.params (snd (fst (Behavior.update symmetry_provider handler_off other_server)))
     <> other_server.
Proof.
  split; [discriminate | split; [reflexivity | discriminate]].
Qed.

(** C7, amended: for every new parameter value p, update(p) returns true
    exactly when p.autoAttach differs from the current autoAttach; it stores
    p.autoAttach in the handler's parameters, leaves serverUrl as it was, and
    makes one call, setting the provider's default auto-attach to
    p.autoAttach. *)
Theorem update_reports_autoAttach_change :
  forall (provider : Behavior.PropertyProvider) (this : Behavior.Handler)
         (p : Behavior.Params) (r : Behavior.Registries),
    let '(updated, this', calls) := Behavior.update provider this p in
    (updated = true <-> Behavior.autoAttach p <> Behavior.autoAttach (Behavior.params this))
    /\ Behavior.autoAttach (Behavior.params this') = Behavior.autoAttach p
    /\ Behavior.serverUrl (Behavior.params this') = Behavior.serverUrl (Behavior.params this)
    /\ calls = [Behavior.PropertiesSetDefaultAutoAttach
                  (Behavior.descriptor_name provider) (Behavior.autoAttach p)]
    /\ Behavior.defaultAutoAttachValues (Behavior.run calls r)
       !! Behavior.descriptor_name provider = Some (Behavior.autoAttach p)
    /\ Behavior.actions (Behavior.run calls r) = Behavior.actions r
    /\ Behavior.customStructureProperties (Behavior.run calls r)
       = Behavior.customStructureProperties r
    /\ Behavior.colorThemeRegistry (Behavior.run calls r) = Behavior.colorThemeRegistry r.
Proof.
  intros provider this p r. cbn.
  repeat split; try reflexivity.
  - destruct (Behavior.autoAttach (Behavior.params this)), (Behavior.autoAttach p);
      cbn; congruence.
  - destruct (Behavior.autoAttach (Behavior.params this)), (Behavior.autoAttach p);
      cbn; congruence.
  - apply lookup_insert_eq.
Qed.


(** ** The action and the transformer *)

Create HintDb task_ops.
#[local] Hint Unfold Tasks.bind Tasks.ret Tasks.throw Tasks.gets Tasks.modify
  Tasks.try_catch Tasks.on_fst Tasks.on_snd : task_ops.

Ltac run_task := autounfold with task_ops; cbn [fst snd].

Lemma no_clusters_true (v : Symmetry3D.AssemblySymmetryValue) :
  Symmetry3D.no_clusters v = true <-> v = None \/ v = Some [].
Proof.
  destruct v as [[|s l]|]; cbn; split; intros H; try reflexivity; try discriminate; auto.
  destruct H as [H|H]; discriminate H.
Qed.

Lemma at_symmetryIndex_nil (params : Symmetry3D.Props) :
  Symmetry3D.at_symmetryIndex [] params = None.
Proof.
  unfold Symmetry3D.at_symmetryIndex.
  destruct (params !! "symmetryIndex") as [[i| |]|]; try reflexivity.
  destruct (i <? 0); reflexivity.
Qed.

Section TransformerFacts.

Context (P : Symmetry3D.Provider) (Rp : Symmetry3D.Representation).

(** [apply] after an [attach] that got through. *)
Lemma apply_attached (a : Symmetry3D.Structure) (params : Symmetry3D.Props)
      (w w' : Symmetry3D.World) :
  Symmetry3D.attach P a w = (Returned tt, w') ->
  Symmetry3D.apply P Rp a params w
  = if Symmetry3D.no_clusters (Symmetry3D.get_value P a w') then (Returned Symmetry3D.Null, w')
    else
      match Symmetry3D.createOrUpdate Rp params a (Symmetry3D.create Rp) with
      | (Thrown e, _) => (Thrown e, w')
      | (Returned _, r) =>
          match Symmetry3D.at_symmetryIndex
                  (default [] (Symmetry3D.get_value P a w')) params with
          | None => (Thrown Symmetry3D.TypeError, w')
          | Some s =>
              (Returned (Symmetry3D.Shape_Representation3D
                           {| Symmetry3D.repr := r; Symmetry3D.source := a;
                              Symmetry3D.label := Symmetry3D.kind s;
                              Symmetry3D.description := Symmetry3D.describe s |}), w')
          end
      end.
Proof.
  intros Ha. unfold Symmetry3D.apply, Symmetry3D.new_repr. run_task. rewrite Ha.
  destruct (Symmetry3D.no_clusters (Symmetry3D.get_value P a w')); [reflexivity | ].
  destruct (Symmetry3D.createOrUpdate Rp params a (Symmetry3D.create Rp)) as [[u|e] r];
    [ | reflexivity].
  destruct (Symmetry3D.at_symmetryIndex _ params); reflexivity.
Qed.

(** A throw of [attach] goes through [apply] and through [update]. *)
Lemma apply_attach_throws (a : Symmetry3D.Structure) (params : Symmetry3D.Props)
      (w w' : Symmetry3D.World) (e : string) :
  Symmetry3D.attach P a w = (Thrown e, w') ->
  Symmetry3D.apply P Rp a params w = (Thrown e, w').
Proof.
  intros Ha. unfold Symmetry3D.apply. run_task. rewrite Ha. reflexivity.
Qed.

Lemma update_attach_throws (a : Symmetry3D.Structure) (newParams : Symmetry3D.Props)
      (b : Symmetry3D.Representation3D) (w w' : Symmetry3D.World) (e : string) :
  Symmetry3D.attach P a w = (Thrown e, w') ->
  Symmetry3D.update P Rp a newParams (b, w) = (Thrown e, (b, w')).
Proof.
  intros Ha. unfold Symmetry3D.update. run_task. rewrite Ha. reflexivity.
Qed.

(** [update] after an [attach] that got through. *)
Lemma update_attached (a : Symmetry3D.Structure) (newParams : Symmetry3D.Props)
      (b : Symmetry3D.Representation3D) (w w' : Symmetry3D.World) :
  Symmetry3D.attach P a w = (Returned tt, w') ->
  Symmetry3D.update P Rp a newParams (b, w)
  = if Symmetry3D.no_clusters (Symmetry3D.get_value P a w')
    then (Returned Symmetry3D.Recreate, (b, w'))
    else
      let '(o, r) := Symmetry3D.createOrUpdate Rp
                       (Symmetry3D.spread (Symmetry3D.props (Symmetry3D.repr b)) newParams)
                       a (Symmetry3D.repr b) in
      let b1 := {| Symmetry3D.repr := r; Symmetry3D.source := Symmetry3D.source b;
                   Symmetry3D.label := Symmetry3D.label b;
                   Symmetry3D.description := Symmetry3D.description b |} in
      match o with
      | Thrown e => (Thrown e, (b1, w'))
      | Returned _ =>
          match Symmetry3D.at_symmetryIndex
                  (default [] (Symmetry3D.get_value P a w')) newParams with
          | None => (Thrown Symmetry3D.TypeError, (b1, w'))
          | Some s =>
              (Returned Symmetry3D.Updated,
               ({| Symmetry3D.repr := r; Symmetry3D.source := Symmetry3D.source b;
                   Symmetry3D.label := Symmetry3D.kind s;
                   Symmetry3D.description := Symmetry3D.describe s |}, w'))
          end
      end.
Proof.
  intros Ha.
  unfold Symmetry3D.update, Symmetry3D.repr_createOrUpdate, Symmetry3D.set_labels.
  run_task. rewrite Ha. cbn [fst snd].
  destruct (Symmetry3D.no_clusters (Symmetry3D.get_value P a w')); [reflexivity | ].
  cbn [fst snd].
  destruct (Symmetry3D.createOrUpdate Rp _ a (Symmetry3D.repr b)) as [[u|e] r];
    cbn [fst snd]; [ | reflexivity].
  destruct (Symmetry3D.at_symmetryIndex _ newParams); reflexivity.
Qed.

End TransformerFacts.

(** C1: for every structure parent a, when the property attached by the
    provider resolves to no clusters (its value is missing or has length 0),
    apply returns the Null state object and does not throw; it leaves the
    world as attach left it, in particular it adds no node to the tree. *)
Theorem apply_without_clusters_returns_Null :
  forall (P : Symmetry3D.Provider) (Rp : Symmetry3D.Representation)
         (a : Symmetry3D.Structure) (params : Symmetry3D.Props)
         (w w' : Symmetry3D.World),
    Symmetry3D.attach P a w = (Returned tt, w') ->
    Symmetry3D.get_value P a w' = None \/ Symmetry3D.get_value P a w' = Some [] ->
    Symmetry3D.apply P Rp a params w = (Returned Symmetry3D.Null, w')
    /\ Symmetry3D.tree (snd (Symmetry3D.apply P Rp a params w)) = Symmetry3D.tree w'.
Proof.
  intros P Rp a params w w' Ha Hv.
  apply no_clusters_true in Hv.
  rewrite (apply_attached P Rp a params w w' Ha), Hv. split; reflexivity.
Qed.

Lemma apply_without_clusters_returns_Null_witness :
  Symmetry3D.apply (Symmetry3D.spec_provider server_no_symmetry) Symmetry3D.spec_representation
    1%nat select_first empty_world
  = (Returned Symmetry3D.Null,
     {| Symmetry3D.propertyData := {[ 1%nat := Some [] ]};
        Symmetry3D.log_error := [];
        Symmetry3D.tree := [] |}).
Proof.
  apply (apply_without_clusters_returns_Null
           (Symmetry3D.spec_provider server_no_symmetry) Symmetry3D.spec_representation
           1%nat select_first empty_world).
  - reflexivity.
  - right. reflexivity.
Defined.

(** C2, as stated, fails on two counts.  With one symmetry attached and new
    parameters whose symmetryIndex is 3, update neither refreshes b fully nor
    returns Updated: it throws a TypeError after the representation has been
    updated.  With the property no longer present and a provider whose attach
    fails, update throws that failure instead of returning Recreate. *)
Lemma update_throws_where_a_result_is_promised :
  (Symmetry3D.get_value (Symmetry3D.spec_provider server_C2) 1%nat
     (snd (Symmetry3D.attach (Symmetry3D.spec_provider server_C2) 1%nat empty_world))
   = Some [cyclic_C2]
   /\ fst (Symmetry3D.update (Symmetry3D.spec_provider server_C2) Symmetry3D.spec_representation
             1%nat select_fourth (earlier_output, empty_world))
      = Thrown Symmetry3D.TypeError
   /\ Symmetry3D.label
        (fst (snd (Symmetry3D.update (Symmetry3D.spec_provider server_C2)
                     Symmetry3D.spec_representation
                     1%nat select_fourth (earlier_output, empty_world))))
      = Symmetry3D.label earlier_output)
  /\ (Symmetry3D.get_value (Symmetry3D.spec_provider server_down) 1%nat empty_world = None
      /\ fst (Symmetry3D.update (Symmetry3D.spec_provider server_down)
                Symmetry3D.spec_representation
                1%nat select_first (earlier_output, empty_world))
         = Thrown "Error: Failed to fetch").
Proof.
  split; [split; [ | split] | split]; vm_compute; reflexivity.
Qed.

(** C2, amended: for every structure parent a, previous output b and new
    parameters for which the provider's attach completes, update returns
    Recreate exactly when the property is then missing or has no clusters,
    and it leaves b untouched in that case; otherwise, when
    newParams.symmetryIndex is the index of one of the clusters and the
    representation's createOrUpdate completes, it refreshes b in place
    (representation updated with the old props overridden by the new
    parameters, label and description taken from that cluster) and returns
    Updated. *)
Theorem update_recreates_without_clusters_else_refreshes :
  forall (P : Symmetry3D.Provider) (Rp : Symmetry3D.Representation)
         (a : Symmetry3D.Structure) (newParams : Symmetry3D.Props)
         (b : Symmetry3D.Representation3D) (w w' : Symmetry3D.World),
    Symmetry3D.attach P a w = (Returned tt, w') ->
    (fst (Symmetry3D.update P Rp a newParams (b, w)) = Returned Symmetry3D.Recreate
     <-> (Symmetry3D.get_value P a w' = None \/ Symmetry3D.get_value P a w' = Some []))
    /\ (Symmetry3D.get_value P a w' = None \/ Symmetry3D.get_value P a w' = Some [] ->
        Symmetry3D.update P Rp a newParams (b, w) = (Returned Symmetry3D.Recreate, (b, w')))
    /\ (forall (l : list Symmetry3D.Symmetry) (s : Symmetry3D.Symmetry) (r : Symmetry3D.Repr),
          Symmetry3D.get_value P a w' = Some l ->
          Symmetry3D.at_symmetryIndex l newParams = Some s ->
          Symmetry3D.createOrUpdate Rp
            (Symmetry3D.spread (Symmetry3D.props (Symmetry3D.repr b)) newParams)
            a (Symmetry3D.repr b) = (Returned tt, r) ->
          Symmetry3D.update P Rp a newParams (b, w)
          = (Returned Symmetry3D.Updated,
             ({| Symmetry3D.repr := r;
                 Symmetry3D.source := Symmetry3D.source b;
                 Symmetry3D.label := Symmetry3D.kind s;
                 Symmetry3D.description := Symmetry3D.describe s |}, w'))).
Proof.
  intros P Rp a newParams b w w' Ha.
  rewrite (update_attached P Rp a newParams b w w' Ha).
  rewrite <- no_clusters_true.
  split; [ | split].
  - destruct (Symmetry3D.no_clusters (Symmetry3D.get_value P a w')).
    + split; reflexivity.
    + split; [ | discriminate].
      destruct (Symmetry3D.createOrUpdate Rp _ a (Symmetry3D.repr b)) as [[u|e] r];
        [ | discriminate].
      destruct (Symmetry3D.at_symmetryIndex _ newParams); discriminate.
  - intros ->. reflexivity.
  - intros l s r Hl Hs Hr. rewrite Hl, Hr.
    destruct l as [|s0 l0]; [rewrite at_symmetryIndex_nil in Hs; discriminate Hs | ].
    cbn -[Symmetry3D.at_symmetryIndex]. rewrite Hs. reflexivity.
Qed.

Lemma update_recreates_without_clusters_else_refreshes_witness :
  Symmetry3D.update (Symmetry3D.spec_provider server_no_symmetry) Symmetry3D.spec_representation
    1%nat select_first (earlier_output, empty_world)
  = (Returned Symmetry3D.Recreate,
     (earlier_output,
      {| Symmetry3D.propertyData := {[ 1%nat := Some [] ]};
         Symmetry3D.log_error := [];
         Symmetry3D.tree := [] |}))
  /\ fst (Symmetry3D.update (Symmetry3D.spec_provider server_C2) Symmetry3D.spec_representation
            1%nat select_first (earlier_output, empty_world))
     = Returned Symmetry3D.Updated.
Proof.
  split.
  - apply (update_recreates_without_clusters_else_refreshes
             (Symmetry3D.spec_provider server_no_symmetry) Symmetry3D.spec_representation
             1%nat select_first earlier_output empty_world).
    + reflexivity.
    + right. reflexivity.
  - erewrite (proj2 (proj2 (update_recreates_without_clusters_else_refreshes
               (Symmetry3D.spec_provider server_C2) Symmetry3D.spec_representation
               1%nat select_first earlier_output empty_world _ eq_refl))
               [cyclic_C2] cyclic_C2); reflexivity.
Defined.

(** C4, as stated, fails for the transform: when the provider's attach
    throws inside AssemblySymmetry3D.apply, apply does not return a null
    object and logs nothing; the throw goes on to its caller. *)
Lemma apply_passes_attach_failure_on :
  Symmetry3D.attach (Symmetry3D.spec_provider server_down) 1%nat empty_world
  = (Thrown "Error: Failed to fetch", empty_world)
  /\ Symmetry3D.apply (Symmetry3D.spec_provider server_down) Symmetry3D.spec_representation
       1%nat select_first empty_world
     = (Thrown "Error: Failed to fetch", empty_world)
  /\ fst (Symmetry3D.apply (Symmetry3D.spec_provider server_down) Symmetry3D.spec_representation
            1%nat select_first empty_world)
     <> Returned Symmetry3D.Null
  /\ Symmetry3D.log_error
       (snd (Symmetry3D.apply (Symmetry3D.spec_provider server_down)
               Symmetry3D.spec_representation 1%nat select_first empty_world))
     = [].
Proof.
  split; [reflexivity | split; [reflexivity | split; [discriminate | reflexivity]]].
Qed.

(** C4, amended: for every entity whose custom-property compute throws
    during the attach of the InitAssemblySymmetry3D action, the failure is
    logged through plugin.log.error and the action returns without a value
    and without updating the tree, so no node is added; the
    AssemblySymmetry3D transform does not catch such a throw: from apply it
    goes on to the caller. *)
Theorem InitAssemblySymmetry3D_logs_attach_failure :
  forall (P : Symmetry3D.Provider) (updateTree : string -> Tasks.Task Symmetry3D.World unit)
         (a : Symmetry3D.Structure) (ref : string) (w w' : Symmetry3D.World) (e : string),
    Symmetry3D.attach P a w = (Thrown e, w') ->
    Symmetry3D.InitAssemblySymmetry3D P updateTree a ref w
    = (Returned tt,
       {| Symmetry3D.propertyData := Symmetry3D.propertyData w';
          Symmetry3D.log_error := Symmetry3D.log_error w' ++ ["Assembly Symmetry: " ++ e];
          Symmetry3D.tree := Symmetry3D.tree w' |})
    /\ (forall (Rp : Symmetry3D.Representation) (params : Symmetry3D.Props),
          Symmetry3D.apply P Rp a params w = (Thrown e, w')).
Proof.
  intros P updateTree a ref w w' e Ha. split.
  - unfold Symmetry3D.InitAssemblySymmetry3D, Symmetry3D.plugin_log_error.
    run_task. rewrite Ha. reflexivity.
  - intros Rp params. apply apply_attach_throws. exact Ha.
Qed.

Lemma InitAssemblySymmetry3D_logs_attach_failure_witness :
  Symmetry3D.InitAssemblySymmetry3D (Symmetry3D.spec_provider server_down)
    Symmetry3D.spec_updateTree 1%nat "structure-ref" empty_world
  = (Returned tt,
     {| Symmetry3D.propertyData := ∅;
        Symmetry3D.log_error := ["Assembly Symmetry: Error: Failed to fetch"];
        Symmetry3D.tree := [] |}).
Proof.
  apply (proj1 (InitAssemblySymmetry3D_logs_attach_failure
                  (Symmetry3D.spec_provider server_down) Symmetry3D.spec_updateTree
                  1%nat "structure-ref" empty_world empty_world "Error: Failed to fetch"
                  eq_refl)).
Defined.


(** ** Volume textures and the direct-volume representation *)

Lemma ceil_div_bounds (a b : Z) : 0 < b -> (DirectVolume.ceil_div a b - 1) * b < a <= DirectVolume.ceil_div a b * b.
Proof.
  intros Hb. unfold DirectVolume.ceil_div.
  pose proof (Z.div_mod (- a) b ltac:(lia)) as E.
  pose proof (Z.mod_pos_bound (- a) b Hb) as B.
  nia.
Qed.

Lemma layout_tiled (dim0 dim1 dim2 maxTextureSize : Z) :
  0 < dim0 -> dim0 <= maxTextureSize -> maxTextureSize < dim0 * dim2 ->
  exists l, DirectVolume.getVolumeTexture2dLayout (dim0, dim1, dim2) maxTextureSize = Some l
    /\ 0 < DirectVolume.columns l
    /\ DirectVolume.columns l * dim0 <= maxTextureSize < (DirectVolume.columns l + 1) * dim0
    /\ (DirectVolume.rows l - 1) * DirectVolume.columns l < dim2 <= DirectVolume.rows l * DirectVolume.columns l
    /\ DirectVolume.width l = DirectVolume.columns l * (dim0 + 1)
    /\ DirectVolume.height l = DirectVolume.rows l * (dim1 + 1).
Proof.
  intros H0 Hm Ht. unfold DirectVolume.getVolumeTexture2dLayout.
  apply Z.ltb_lt in Ht. rewrite Ht.
  destruct (Z.eqb_spec dim0 0) as [->|_]; [lia|].
  unfold DirectVolume.floor_div.
  pose proof (Z.div_mod maxTextureSize dim0 ltac:(lia)) as E.
  pose proof (Z.mod_pos_bound maxTextureSize dim0 H0) as B.
  assert (Hc : 0 < maxTextureSize / dim0) by (apply Z.div_str_pos; lia).
  destruct (Z.eqb_spec (maxTextureSize / dim0) 0) as [E0|_]; [lia|].
  eexists. split; [reflexivity|]. cbn.
  pose proof (ceil_div_bounds dim2 (maxTextureSize / dim0) Hc).
  repeat split; try lia.
Qed.

(** X1: when the slices do not fit in one row (maxTextureSize < dim0 * dim2)
    and one slice does (0 < dim0 <= maxTextureSize), getVolumeTexture2dLayout
    gives as many columns as slices fit side by side without padding
    (columns * dim0 <= maxTextureSize < (columns + 1) * dim0), the least
    number of rows of that many columns that holds all dim2 slices, and a
    width and height of columns and rows cells of one slice plus one texel
    of padding each. *)
Theorem getVolumeTexture2dLayout_tiles_hold_all_slices :
  forall (dim0 dim1 dim2 maxTextureSize : Z),
    0 < dim0 -> dim0 <= maxTextureSize -> maxTextureSize < dim0 * dim2 ->
    exists l : DirectVolume.Layout,
      DirectVolume.getVolumeTexture2dLayout (dim0, dim1, dim2) maxTextureSize = Some l
      /\ 0 < DirectVolume.columns l
      /\ DirectVolume.columns l * dim0 <= maxTextureSize < (DirectVolume.columns l + 1) * dim0
      /\ (DirectVolume.rows l - 1) * DirectVolume.columns l < dim2
         <= DirectVolume.rows l * DirectVolume.columns l
      /\ DirectVolume.width l = DirectVolume.columns l * (dim0 + 1)
      /\ DirectVolume.height l = DirectVolume.rows l * (dim1 + 1).
Proof.
  intros dim0 dim1 dim2 maxTextureSize H0 Hm Ht.
  exact (layout_tiled dim0 dim1 dim2 maxTextureSize H0 Hm Ht).
Qed.

Lemma getVolumeTexture2dLayout_tiles_hold_all_slices_witness :
  exists l : DirectVolume.Layout,
    DirectVolume.getVolumeTexture2dLayout (2, 2, 3) 4 = Some l
    /\ 0 < DirectVolume.columns l
    /\ DirectVolume.columns l * 2 <= 4 < (DirectVolume.columns l + 1) * 2
    /\ (DirectVolume.rows l - 1) * DirectVolume.columns l < 3
       <= DirectVolume.rows l * DirectVolume.columns l
    /\ DirectVolume.width l = DirectVolume.columns l * (2 + 1)
    /\ DirectVolume.height l = DirectVolume.rows l * (2 + 1).
Proof.
  apply (getVolumeTexture2dLayout_tiles_hold_all_slices 2 2 3 4); lia.
Defined.

(** Writes into a typed array. *)
Lemma typed_set_length (a : list Z) (i v : Z) : length (Ccp4.Tensor.typed_set a i v) = length a.
Proof. unfold Ccp4.Tensor.typed_set. destruct (i <? 0); [reflexivity | apply length_insert]. Qed.

Lemma typed_set_lookup_ne (a : list Z) (i v : Z) (k : nat) :
  i <> Z.of_nat k -> Ccp4.Tensor.typed_set a i v !! k = a !! k.
Proof.
  intros Hne. unfold Ccp4.Tensor.typed_set. destruct (Z.ltb_spec i 0); [reflexivity | ].
  apply list_lookup_insert_ne. lia.
Qed.

Lemma typed_set_lookup_eq (a : list Z) (i v : Z) :
  0 <= i < Z.of_nat (length a) -> Ccp4.Tensor.typed_set a i v !! Z.to_nat i = Some v.
Proof.
  intros Hi. unfold Ccp4.Tensor.typed_set. destruct (Z.ltb_spec i 0); [lia | ].
  apply list_lookup_insert_eq. lia.
Qed.

Section Writes.
Context {P : Type} (f : list Z -> P -> list Z) (idx val : P -> Z).
Hypothesis f_write : forall a p, f a p = Ccp4.Tensor.typed_set a (idx p) (val p).

Lemma writes_length (ps : list P) (a : list Z) : length (fold_left f ps a) = length a.
Proof.
  revert a. induction ps as [|p ps IH]; intros a; [reflexivity | ].
  cbn. rewrite IH, f_write. apply typed_set_length.
Qed.

Lemma writes_untouched (ps : list P) (a : list Z) (k : nat) :
  (forall p, p ∈ ps -> idx p <> Z.of_nat k) -> fold_left f ps a !! k = a !! k.
Proof.
  revert a. induction ps as [|p ps IH]; intros a Hk; [reflexivity | ].
  cbn. rewrite IH, f_write.
  - apply typed_set_lookup_ne. apply Hk. left.
  - intros q Hq. apply Hk. right. exact Hq.
Qed.

Lemma writes_hit (ps : list P) (a : list Z) (p : P) :
  p ∈ ps -> 0 <= idx p < Z.of_nat (length a) ->
  (forall q, q ∈ ps -> idx q = idx p -> val q = val p) ->
  fold_left f ps a !! Z.to_nat (idx p) = Some (val p).
Proof.
  revert a. induction ps as [|q ps IH] using rev_ind; intros a Hp Hi Hsame.
  - inversion Hp.
  - rewrite fold_left_app. cbn. rewrite f_write.
    destruct (Z.eq_dec (idx q) (idx p)) as [E|NE].
    + rewrite E, <- (Hsame q); [ | apply elem_of_app; right; left | exact E].
      apply typed_set_lookup_eq. rewrite writes_length. exact Hi.
    + rewrite typed_set_lookup_ne by lia.
      apply IH; [ | exact Hi | ].
      * apply elem_of_app in Hp as [Hp|Hp]; [exact Hp | ].
        apply list_elem_of_singleton in Hp. congruence.
      * intros r Hr. apply Hsame. apply elem_of_app. left. exact Hr.
Qed.
End Writes.

Lemma elem_of_voxels (xl yl zl x y z : Z) :
  (x, y, z) ∈ DirectVolume.voxels xl yl zl <-> 0 <= x < xl /\ 0 <= y < yl /\ 0 <= z < zl.
Proof.
  unfold DirectVolume.voxels. rewrite list_elem_of_bind. split.
  - intros (z' & H & Hz). apply list_elem_of_bind in H as (y' & H & Hy).
    apply list_elem_of_bind in H as (x' & H & Hx).
    apply list_elem_of_singleton in H. injection H as -> -> ->.
    apply elem_of_seqZ in Hx, Hy, Hz. lia.
  - intros (Hx & Hy & Hz). exists z. split; [ | apply elem_of_seqZ; lia].
    apply list_elem_of_bind. exists y. split; [ | apply elem_of_seqZ; lia].
    apply list_elem_of_bind. exists x. split; [ | apply elem_of_seqZ; lia].
    apply list_elem_of_singleton. reflexivity.
Qed.

Lemma quot_unique (n q q' a a' : Z) :
  0 <= a < n -> 0 <= a' < n -> q * n + a = q' * n + a' -> q = q' /\ a = a'.
Proof. intros Ha Ha' E. assert (q = q') by nia. subst. lia. Qed.

(** The index in a layout whose width is a whole number of padded slices. *)
Lemma setTex_index_tiles (c xlp ylp x y z : Z) :
  0 < c -> 0 < xlp -> 0 <= z ->
  DirectVolume.setTex_index (c * xlp) xlp ylp x y z
  = 4 * (((z / c) * ylp + y) * (c * xlp) + ((z mod c) * xlp + x)).
Proof.
  intros Hc Hx Hz. unfold DirectVolume.setTex_index, DirectVolume.floor_div.
  rewrite Z.rem_mod_nonneg by nia.
  rewrite Z.mul_mod_distr_r by lia.
  rewrite Z.div_mul by lia.
  rewrite Z.div_mul_cancel_r by lia.
  ring.
Qed.

Lemma tiles_in_bounds (c r d0 d1 d2 x y z : Z) :
  0 < c -> d2 <= r * c -> 0 <= x < d0 -> 0 <= y < d1 -> 0 <= z < d2 ->
  0 <= DirectVolume.setTex_index (c * (d0 + 1)) (d0 + 1) (d1 + 1) x y z + 3
    < (c * (d0 + 1)) * (r * (d1 + 1)) * 4.
Proof.
  intros Hc Hr Hx Hy Hz. rewrite setTex_index_tiles by lia.
  pose proof (Z.mod_pos_bound z c Hc) as Hm.
  pose proof (Z.div_pos z c ltac:(lia) Hc) as Hd.
  assert (Hq : z / c < r) by (apply Z.div_lt_upper_bound; nia).
  assert (0 <= (z / c) * (d1 + 1) + y <= r * (d1 + 1) - 2) by nia.
  assert (0 <= (z mod c) * (d0 + 1) + x <= c * (d0 + 1) - 2) by nia.
  nia.
Qed.

Lemma tiles_injective (c d0 d1 x y z x' y' z' : Z) :
  0 < c -> 0 <= x < d0 -> 0 <= y < d1 -> 0 <= z ->
  0 <= x' < d0 -> 0 <= y' < d1 -> 0 <= z' ->
  DirectVolume.setTex_index (c * (d0 + 1)) (d0 + 1) (d1 + 1) x y z
  = DirectVolume.setTex_index (c * (d0 + 1)) (d0 + 1) (d1 + 1) x' y' z' ->
  (x, y, z) = (x', y', z').
Proof.
  intros Hc Hx Hy Hz Hx' Hy' Hz' E. rewrite !setTex_index_tiles in E by lia.
  pose proof (Z.mod_pos_bound z c Hc) as Hm.
  pose proof (Z.mod_pos_bound z' c Hc) as Hm'.
  apply Z.mul_reg_l in E; [ | lia].
  apply quot_unique in E as [E1 E2]; [ | nia | nia].
  apply quot_unique in E1 as [E3 ->]; [ | lia | lia].
  apply quot_unique in E2 as [E4 ->]; [ | lia | lia].
  rewrite (Z.div_mod z c), (Z.div_mod z' c), E3, E4 by lia. reflexivity.
Qed.

Lemma setTex_write (alpha : Z -> Z -> Z -> Z) (w xlp ylp : Z) (a : list Z) (v : Z * Z * Z) :
  DirectVolume.setTex alpha w xlp ylp a v
  = Ccp4.Tensor.typed_set a
      (let '(x, y, z) := v in DirectVolume.setTex_index w xlp ylp x y z + 3)
      (let '(x, y, z) := v in alpha x y z).
Proof. destruct v as [[x y] z]. reflexivity. Qed.

Lemma new_Uint8Array_nonneg (max_array_length n : Z) :
  0 <= n <= max_array_length ->
  DirectVolume.new_Uint8Array max_array_length n = Returned (replicate (Z.to_nat n) 0).
Proof.
  intros H. unfold DirectVolume.new_Uint8Array.
  destruct (Z.ltb_spec n 0); [lia | ].
  destruct (Z.ltb_spec max_array_length n); [lia | reflexivity].
Qed.

(** X2: in the tiled case (0 < dim0 <= maxTextureSize < dim0 * dim2, dim1 not
    negative), when the engine allocates an array of the 4 * width * height
    entries of the layout (new Uint8Array throws a RangeError otherwise),
    createVolumeTexture2d returns an image of the width and height of the
    layout whose array has 4 * width * height entries; every voxel of the
    grid has its byte at the index setTex computes for it plus 3, inside the
    array, and no two voxels share an index. *)
Theorem createVolumeTexture2d_tiled_stores_every_voxel :
  forall (alpha : Z -> Z -> Z -> Z) (max_array_length dim0 dim1 dim2 maxTextureSize : Z),
    0 < dim0 -> 0 <= dim1 -> dim0 <= maxTextureSize -> maxTextureSize < dim0 * dim2 ->
    (forall l, DirectVolume.getVolumeTexture2dLayout (dim0, dim1, dim2) maxTextureSize = Some l ->
               DirectVolume.width l * DirectVolume.height l * 4 <= max_array_length) ->
    exists (l : DirectVolume.Layout) (img : DirectVolume.TextureImage),
      DirectVolume.getVolumeTexture2dLayout (dim0, dim1, dim2) maxTextureSize = Some l
      /\ DirectVolume.createVolumeTexture2d alpha max_array_length (dim0, dim1, dim2) maxTextureSize
         = Some (Returned img)
      /\ DirectVolume.image_width img = DirectVolume.width l
      /\ DirectVolume.image_height img = DirectVolume.height l
      /\ Z.of_nat (length (DirectVolume.image_array img))
         = DirectVolume.width l * DirectVolume.height l * 4
      /\ (forall x y z, 0 <= x < dim0 -> 0 <= y < dim1 -> 0 <= z < dim2 ->
            DirectVolume.image_array img
              !! Z.to_nat (DirectVolume.setTex_index (DirectVolume.width l) (dim0 + 1) (dim1 + 1) x y z + 3)
            = Some (alpha x y z))
      /\ (forall x y z x' y' z',
            0 <= x < dim0 -> 0 <= y < dim1 -> 0 <= z < dim2 ->
            0 <= x' < dim0 -> 0 <= y' < dim1 -> 0 <= z' < dim2 ->
            DirectVolume.setTex_index (DirectVolume.width l) (dim0 + 1) (dim1 + 1) x y z
            = DirectVolume.setTex_index (DirectVolume.width l) (dim0 + 1) (dim1 + 1) x' y' z' ->
            (x, y, z) = (x', y', z')).
Proof.
  intros alpha max_array_length dim0 dim1 dim2 maxTextureSize H0 H1 Hm Ht Hmax.
  destruct (layout_tiled dim0 dim1 dim2 maxTextureSize H0 Hm Ht)
    as (l & El & Hc & Hcols & Hrows & Hw & Hh).
  assert (Hr : 0 < DirectVolume.rows l) by nia.
  assert (Hlen : 0 <= DirectVolume.width l * DirectVolume.height l * 4 <= max_array_length)
    by (split; [nia | exact (Hmax l El)]).
  unfold DirectVolume.createVolumeTexture2d. rewrite El. cbn [mbind option_bind].
  rewrite (new_Uint8Array_nonneg _ _ Hlen).
  eexists l, _. split; [reflexivity | ]. split; [reflexivity | ]. cbn.
  split; [reflexivity | ]. split; [reflexivity | ].
  assert (Hlen' : forall ps,
             Z.of_nat (length (fold_left (DirectVolume.setTex alpha (DirectVolume.width l)
                                            (dim0 + 1) (dim1 + 1)) ps
                                 (replicate (Z.to_nat (DirectVolume.width l * DirectVolume.height l * 4)) 0)))
             = DirectVolume.width l * DirectVolume.height l * 4).
  { intros ps. rewrite (writes_length _ _ _ (setTex_write alpha _ _ _)), length_replicate. lia. }
  split; [apply Hlen' | ]. split.
  - intros x y z Hx Hy Hz.
    pose proof (tiles_in_bounds (DirectVolume.columns l) (DirectVolume.rows l)
                  dim0 dim1 dim2 x y z Hc ltac:(lia) Hx Hy Hz) as Hb.
    rewrite <- Hw in Hb.
    apply (writes_hit _ _ _ (setTex_write alpha _ _ _) _ _ (x, y, z)).
    + apply elem_of_voxels. lia.
    + rewrite length_replicate. lia.
    + intros [[x' y'] z'] Hq E. apply elem_of_voxels in Hq.
      rewrite Hw in E. apply Z.add_cancel_r in E.
      apply tiles_injective in E; [ | lia ..]. injection E as -> -> ->. reflexivity.
  - intros x y z x' y' z' Hx Hy Hz Hx' Hy' Hz' E. rewrite Hw in E.
    apply tiles_injective in E; [exact E | lia ..].
Qed.

Lemma createVolumeTexture2d_tiled_stores_every_voxel_witness :
  exists img : DirectVolume.TextureImage,
    DirectVolume.createVolumeTexture2d ramp 4294967295 (2, 2, 3) 4 = Some (Returned img)
    /\ DirectVolume.image_array img !! Z.to_nat (DirectVolume.setTex_index 6 3 3 1 1 2 + 3)
       = Some (ramp 1 1 2).
Proof.
  destruct (createVolumeTexture2d_tiled_stores_every_voxel ramp 4294967295 2 2 3 4)
    as (l & img & El & Ei & _ & _ & _ & Hv & _); [lia .. | | ].
  { intros l El. vm_compute in El. injection El as <-. cbn. lia. }
  vm_compute in El. injection El as <-.
  exists img. split; [exact Ei | ].
  apply (Hv 1 1 2); lia.
Defined.


Lemma layout_untiled (dim0 dim1 dim2 maxTextureSize : Z) :
  dim0 * dim2 <= maxTextureSize ->
  DirectVolume.getVolumeTexture2dLayout (dim0, dim1, dim2) maxTextureSize
  = Some {| DirectVolume.width := dim0 * dim2 + dim0;
            DirectVolume.height := dim1 + 1;
            DirectVolume.columns := dim0;
            DirectVolume.rows := 1 |}.
Proof.
  intros H. unfold DirectVolume.getVolumeTexture2dLayout.
  destruct (Z.ltb_spec maxTextureSize (dim0 * dim2)); [lia | reflexivity].
Qed.

Lemma setTex_index_first_row (w xlp ylp x y z : Z) :
  0 < xlp -> 0 <= z -> z * xlp < w ->
  DirectVolume.setTex_index w xlp ylp x y z = 4 * (y * w + (z * xlp + x)).
Proof.
  intros Hx Hz Hw. unfold DirectVolume.setTex_index, DirectVolume.floor_div.
  rewrite Z.rem_small by nia. rewrite Z.div_mul by lia.
  rewrite (Z.div_small (z * xlp) w) by nia. ring.
Qed.

(** X3: in the tiled case with dim0 * dim0 <= maxTextureSize, the width of
    the layout, padding included, is larger than maxTextureSize. *)
Theorem layout_tiled_wider_than_maxTextureSize :
  forall (dim0 dim1 dim2 maxTextureSize : Z) (l : DirectVolume.Layout),
    0 < dim0 -> dim0 * dim0 <= maxTextureSize -> maxTextureSize < dim0 * dim2 ->
    DirectVolume.getVolumeTexture2dLayout (dim0, dim1, dim2) maxTextureSize = Some l ->
    maxTextureSize < DirectVolume.width l.
Proof.
  intros dim0 dim1 dim2 maxTextureSize l H0 Hsq Ht El.
  destruct (layout_tiled dim0 dim1 dim2 maxTextureSize H0 ltac:(nia) Ht)
    as (l' & El' & Hc & Hcols & _ & Hw & _).
  rewrite El in El'. injection El' as <-.
  assert (dim0 <= DirectVolume.columns l) by nia.
  nia.
Qed.

Lemma layout_tiled_wider_than_maxTextureSize_witness :
  exists l : DirectVolume.Layout,
    DirectVolume.getVolumeTexture2dLayout (2, 1, 9) 4 = Some l /\ 4 < DirectVolume.width l.
Proof.
  eexists. split; [reflexivity | ].
  apply (layout_tiled_wider_than_maxTextureSize 2 1 9 4 _); [lia | lia | lia | reflexivity].
Defined.


Lemma setTex_untiled_far_slice_dropped :
  forall (alpha : Z -> Z -> Z -> Z) (dim0 dim1 dim2 maxTextureSize : Z)
         (l : DirectVolume.Layout) (array : list Z) (x y z : Z),
    dim0 * dim2 <= maxTextureSize ->
    DirectVolume.getVolumeTexture2dLayout (dim0, dim1, dim2) maxTextureSize = Some l ->
    Z.of_nat (length array) = DirectVolume.width l * DirectVolume.height l * 4 ->
    0 <= x < dim0 -> 0 <= y < dim1 -> 0 <= z < dim2 ->
    dim0 * (dim2 + 1) <= z * (dim0 + 1) ->
    Z.of_nat (length array)
      <= DirectVolume.setTex_index (DirectVolume.width l) (dim0 + 1) (dim1 + 1) x y z + 3
    /\ DirectVolume.setTex alpha (DirectVolume.width l) (dim0 + 1) (dim1 + 1) array (x, y, z)
       = array.
Proof.
  intros alpha dim0 dim1 dim2 maxTextureSize l array x y z Hfit El Hlen Hx Hy Hz Hfar.
  rewrite (layout_untiled _ _ _ _ Hfit) in El. injection El as <-. cbn in *.
  replace (dim0 * dim2 + dim0) with (dim0 * (dim2 + 1)) in * by ring.
  set (w := dim0 * (dim2 + 1)) in *.
  assert (Hw : 0 < w) by (subst w; nia).
  assert (Hidx : Z.of_nat (length array)
                 <= DirectVolume.setTex_index w (dim0 + 1) (dim1 + 1) x y z + 3).
  { unfold DirectVolume.setTex_index, DirectVolume.floor_div.
    assert (Hrow : 1 <= z * (dim0 + 1) / w) by (apply Z.div_le_lower_bound; lia).
    assert (Hrem : 0 <= Z.rem (z * (dim0 + 1)) w) by (apply Z.rem_nonneg; nia).
    assert (Hcol : 0 <= Z.rem (z * (dim0 + 1)) w / (dim0 + 1)) by (apply Z.div_pos; lia).
    nia. }
  split; [exact Hidx | ].
  cbn. unfold Ccp4.Tensor.typed_set.
  destruct (Z.ltb_spec (DirectVolume.setTex_index w (dim0 + 1) (dim1 + 1) x y z + 3) 0); [reflexivity | ].
  apply list_insert_ge. lia.
Qed.

Lemma fold_left_agree {A P : Type} (f g : A -> P -> A) (Inv : A -> Prop) (ps : list P) (a : A) :
  Inv a ->
  (forall a p, Inv a -> Inv (f a p)) ->
  (forall a p, Inv a -> p ∈ ps -> f a p = g a p) ->
  fold_left f ps a = fold_left g ps a.
Proof.
  intros Ha Hpres. revert a Ha. induction ps as [|p ps IH]; intros a Ha Hfg; [reflexivity | ].
  cbn. rewrite <- (Hfg a p Ha) by left.
  apply IH; [apply Hpres; exact Ha | ].
  intros a' q Ha' Hq. apply Hfg; [exact Ha' | right; exact Hq].
Qed.

(** X4: when all slices fit in one row (dim0 * dim2 <= maxTextureSize), the
    image createVolumeTexture2d returns does not depend on the values of the
    voxels of the slices z with dim0 * (dim2 + 1) <= z * (dim0 + 1): their
    writes fall behind the end of the array and are dropped. *)
Theorem createVolumeTexture2d_untiled_ignores_far_slices :
  forall (alpha alpha' : Z -> Z -> Z -> Z) (max_array_length dim0 dim1 dim2 maxTextureSize : Z),
    dim0 * dim2 <= maxTextureSize ->
    (forall x y z, 0 <= x < dim0 -> 0 <= y < dim1 -> 0 <= z < dim2 ->
                   z * (dim0 + 1) < dim0 * (dim2 + 1) -> alpha x y z = alpha' x y z) ->
    DirectVolume.createVolumeTexture2d alpha max_array_length (dim0, dim1, dim2) maxTextureSize
    = DirectVolume.createVolumeTexture2d alpha' max_array_length (dim0, dim1, dim2) maxTextureSize.
Proof.
  intros alpha alpha' max_array_length dim0 dim1 dim2 maxTextureSize Hfit Hnear.
  pose proof (layout_untiled dim0 dim1 dim2 maxTextureSize Hfit) as El.
  unfold DirectVolume.createVolumeTexture2d. rewrite El. cbn [mbind option_bind DirectVolume.width DirectVolume.height].
  destruct (DirectVolume.new_Uint8Array max_array_length ((dim0 * dim2 + dim0) * (dim1 + 1) * 4))
    as [a0|e] eqn:Ea; [ | reflexivity].
  do 3 f_equal.
  unfold DirectVolume.new_Uint8Array in Ea.
  destruct (Z.ltb_spec ((dim0 * dim2 + dim0) * (dim1 + 1) * 4) 0) as [|Hlen]; [discriminate | ].
  destruct (Z.ltb_spec max_array_length ((dim0 * dim2 + dim0) * (dim1 + 1) * 4));
    [discriminate | ].
  injection Ea as <-.
  apply (fold_left_agree _ _
           (fun a => Z.of_nat (length a) = (dim0 * dim2 + dim0) * (dim1 + 1) * 4)).
  - rewrite length_replicate. lia.
  - intros a p Ha. rewrite setTex_write, typed_set_length. exact Ha.
  - intros a [[x y] z] Ha Hp. apply elem_of_voxels in Hp as (Hx & Hy & Hz).
    destruct (Z.lt_ge_cases (z * (dim0 + 1)) (dim0 * (dim2 + 1))) as [Hn|Hf].
    + cbn. rewrite (Hnear x y z) by assumption. reflexivity.
    + pose proof (setTex_untiled_far_slice_dropped alpha dim0 dim1 dim2
                    maxTextureSize _ a x y z Hfit El Ha Hx Hy Hz Hf) as [_ D].
      pose proof (setTex_untiled_far_slice_dropped alpha' dim0 dim1 dim2
                    maxTextureSize _ a x y z Hfit El Ha Hx Hy Hz Hf) as [_ D'].
      cbn [DirectVolume.width] in D, D'. rewrite D, D'. reflexivity.
Qed.

Lemma createVolumeTexture2d_untiled_ignores_far_slices_witness :
  ramp 0 0 2 <> ramp_without_slice_2 0 0 2
  /\ DirectVolume.createVolumeTexture2d ramp 4294967295 (1, 1, 3) 100
     = DirectVolume.createVolumeTexture2d ramp_without_slice_2 4294967295 (1, 1, 3) 100.
Proof.
  split; [discriminate | ].
  apply (createVolumeTexture2d_untiled_ignores_far_slices ramp ramp_without_slice_2
           4294967295 1 1 3 100).
  - lia.
  - intros x y z Hx Hy Hz Hnear. unfold ramp_without_slice_2.
    destruct (Z.eqb_spec z 2); [lia | reflexivity].
Defined.


(** X5: when all slices fit in one row, there are at most dim0 + 1 of them
    (dims not negative) and the engine allocates an array of
    4 * (dim0 * dim2 + dim0) * (dim1 + 1) entries (new Uint8Array throws a
    RangeError otherwise), createVolumeTexture2d returns an image of width
    dim0 * dim2 + dim0 and height dim1 + 1 in which the byte of every voxel
    (x, y, z) is at index 4 * (y * width + z * (dim0 + 1) + x) + 3. *)
Theorem createVolumeTexture2d_untiled_stores_every_voxel :
  forall (alpha : Z -> Z -> Z -> Z) (max_array_length dim0 dim1 dim2 maxTextureSize : Z),
    0 <= dim0 -> 0 <= dim1 -> 0 <= dim2 <= dim0 + 1 -> dim0 * dim2 <= maxTextureSize ->
    (dim0 * dim2 + dim0) * (dim1 + 1) * 4 <= max_array_length ->
    exists img : DirectVolume.TextureImage,
      DirectVolume.createVolumeTexture2d alpha max_array_length (dim0, dim1, dim2) maxTextureSize
      = Some (Returned img)
      /\ DirectVolume.image_width img = dim0 * dim2 + dim0
      /\ DirectVolume.image_height img = dim1 + 1
      /\ (forall x y z, 0 <= x < dim0 -> 0 <= y < dim1 -> 0 <= z < dim2 ->
            DirectVolume.image_array img
              !! Z.to_nat (4 * (y * (dim0 * dim2 + dim0) + (z * (dim0 + 1) + x)) + 3)
            = Some (alpha x y z)).
Proof.
  intros alpha max_array_length dim0 dim1 dim2 maxTextureSize H0 H1 H2 Hfit Hmax.
  pose proof (layout_untiled dim0 dim1 dim2 maxTextureSize Hfit) as El.
  unfold DirectVolume.createVolumeTexture2d. rewrite El.
  cbn [mbind option_bind DirectVolume.width DirectVolume.height].
  set (w := dim0 * dim2 + dim0) in *.
  assert (Hlen : 0 <= w * (dim1 + 1) * 4 <= max_array_length) by (subst w; nia).
  rewrite (new_Uint8Array_nonneg _ _ Hlen).
  eexists. split; [reflexivity | ]. cbn. repeat split.
  intros x y z Hx Hy Hz.
  assert (Hrow : z * (dim0 + 1) < w) by (subst w; nia).
  rewrite <- (setTex_index_first_row w (dim0 + 1) (dim1 + 1) x y z) by lia.
  apply (writes_hit _ _ _ (setTex_write alpha _ _ _) _ _ (x, y, z)).
  - apply elem_of_voxels. lia.
  - rewrite length_replicate, setTex_index_first_row by lia. subst w. nia.
  - intros [[x' y'] z'] Hq E. apply elem_of_voxels in Hq.
    apply Z.add_cancel_r in E.
    rewrite !setTex_index_first_row in E by (subst w; nia).
    apply Z.mul_reg_l in E; [ | lia].
    apply quot_unique in E as [-> E]; [ | subst w; nia | subst w; nia].
    assert (z' = z) by nia. subst z'.
    assert (x' = x) by lia. subst x'. reflexivity.
Qed.

Lemma createVolumeTexture2d_untiled_stores_every_voxel_witness :
  exists img : DirectVolume.TextureImage,
    DirectVolume.createVolumeTexture2d ramp 4294967295 (2, 2, 3) 100 = Some (Returned img)
    /\ DirectVolume.image_array img !! Z.to_nat (4 * (1 * (2 * 3 + 2) + (2 * (2 + 1) + 1)) + 3)
       = Some (ramp 1 1 2).
Proof.
  destruct (createVolumeTexture2d_untiled_stores_every_voxel ramp 4294967295 2 2 3 100)
    as (img & Ei & _ & _ & Hv); [lia .. | ].
  exists img. split; [exact Ei | ].
  apply (Hv 1 1 2); lia.
Defined.


Section Fill3d.
Context (alpha : Z -> Z -> Z -> Z).

Lemma fill3d_step (a : list Z) (i : Z) (v : Z * Z * Z) :
  DirectVolume.fill3d alpha (a, i) v = (Ccp4.Tensor.typed_set a (i + 3) (let '(x, y, z) := v in alpha x y z), i + 4).
Proof. destruct v as [[x y] z]. reflexivity. Qed.

Lemma fill3d_untouched (ps : list (Z * Z * Z)) (a : list Z) (i : Z) (m : nat) :
  (forall j : nat, (j < length ps)%nat -> Z.of_nat m <> i + 4 * Z.of_nat j + 3) ->
  fst (fold_left (DirectVolume.fill3d alpha) ps (a, i)) !! m = a !! m.
Proof.
  revert a i. induction ps as [|p ps IH]; intros a i Hm; [reflexivity | ].
  cbn [fold_left]. rewrite fill3d_step, IH.
  - apply typed_set_lookup_ne. specialize (Hm 0%nat ltac:(cbn; lia)). lia.
  - intros j Hj. specialize (Hm (S j) ltac:(cbn; lia)). lia.
Qed.

Lemma fill3d_length (ps : list (Z * Z * Z)) (a : list Z) (i : Z) :
  length (fst (fold_left (DirectVolume.fill3d alpha) ps (a, i))) = length a.
Proof.
  revert a i. induction ps as [|p ps IH]; intros a i; [reflexivity | ].
  cbn [fold_left]. rewrite fill3d_step, IH. apply typed_set_length.
Qed.

Lemma fill3d_hit (ps : list (Z * Z * Z)) (a : list Z) (i : Z) (k : nat) (p : Z * Z * Z) :
  ps !! k = Some p -> 0 <= i -> i + 4 * Z.of_nat k + 3 < Z.of_nat (length a) ->
  fst (fold_left (DirectVolume.fill3d alpha) ps (a, i)) !! Z.to_nat (i + 4 * Z.of_nat k + 3)
  = Some (let '(x, y, z) := p in alpha x y z).
Proof.
  revert a i k. induction ps as [|q ps IH]; intros a i k Hk Hi Hlen; [discriminate | ].
  cbn [fold_left]. rewrite fill3d_step. destruct k as [|k].
  - injection Hk as ->. rewrite fill3d_untouched by (intros; lia).
    replace (i + 4 * Z.of_nat 0 + 3) with (i + 3) in * by lia.
    apply typed_set_lookup_eq. lia.
  - replace (i + 4 * Z.of_nat (S k) + 3) with ((i + 4) + 4 * Z.of_nat k + 3) in * by lia.
    apply IH; [exact Hk | lia | rewrite typed_set_length; lia].
Qed.
End Fill3d.

Lemma bind_lookup_const {A B : Type} (f : A -> list B) (n : nat) (l : list A)
      (i j : nat) (a : A) :
  (forall a, length (f a) = n) -> l !! i = Some a -> (j < n)%nat ->
  (l ≫= f) !! (i * n + j)%nat = f a !! j.
Proof.
  intros Hn. revert i. induction l as [|b l IH]; intros i Hi Hj; [discriminate | ].
  rewrite bind_cons. destruct i as [|i].
  - injection Hi as ->. cbn. apply lookup_app_l. rewrite Hn. exact Hj.
  - rewrite lookup_app_r by (rewrite Hn; cbn; lia).
    rewrite Hn. replace (S i * n + j - n)%nat with (i * n + j)%nat by (cbn; lia).
    apply IH; assumption.
Qed.

Lemma bind_length_const {A B : Type} (f : A -> list B) (n : nat) (l : list A) :
  (forall a, length (f a) = n) -> length (l ≫= f) = (length l * n)%nat.
Proof.
  intros Hn. induction l as [|b l IH]; [reflexivity | ].
  rewrite bind_cons, length_app, Hn, IH. cbn. lia.
Qed.

Lemma voxels_lookup (w h d x y z : Z) :
  0 <= x < w -> 0 <= y < h -> 0 <= z < d ->
  DirectVolume.voxels w h d !! Z.to_nat (x + w * (y + h * z)) = Some (x, y, z).
Proof.
  intros Hx Hy Hz. unfold DirectVolume.voxels.
  assert (Lx : forall y' z' : Z,
             length (seqZ 0 w ≫= (fun x' => [(x', y', z')])) = Z.to_nat w).
  { intros y' z'. rewrite (bind_length_const _ 1) by reflexivity. rewrite length_seqZ. lia. }
  assert (Ly : forall z' : Z,
             length (seqZ 0 h ≫= (fun y' => seqZ 0 w ≫= (fun x' => [(x', y', z')])))
             = (Z.to_nat h * Z.to_nat w)%nat).
  { intros z'. rewrite (bind_length_const _ (Z.to_nat w)) by (intros; apply Lx).
    rewrite length_seqZ. reflexivity. }
  replace (Z.to_nat (x + w * (y + h * z)))
    with (Z.to_nat z * (Z.to_nat h * Z.to_nat w)
          + (Z.to_nat y * Z.to_nat w + (Z.to_nat x * 1 + 0)))%nat.
  2:{ apply Nat2Z.inj.
      rewrite !Nat2Z.inj_add, !Nat2Z.inj_mul, !Z2Nat.id by lia.
      assert (0 <= h * z) by nia. assert (0 <= w * (y + h * z)) by nia.
      rewrite Z2Nat.id by lia. cbn [Z.of_nat]. ring. }
  rewrite (bind_lookup_const _ (Z.to_nat h * Z.to_nat w) _ _ _ z Ly);
    [ | apply lookup_seqZ; lia | nia].
  rewrite (bind_lookup_const _ (Z.to_nat w) _ _ _ y (fun y' => Lx y' z));
    [ | apply lookup_seqZ; lia | lia].
  rewrite (bind_lookup_const _ 1 _ _ _ x); [reflexivity | reflexivity | | lia].
  apply lookup_seqZ. lia.
Qed.

(** X6: for sizes that are not negative and such that the engine allocates
    an array of 4 * width * height * depth entries (new Uint8Array throws a
    RangeError otherwise), createVolumeTexture3d returns an array of
    4 * width * height * depth entries in which the byte of voxel (x, y, z)
    is the fourth channel of texel x + width * (y + height * z), and every
    entry that is not a fourth channel is 0. *)
Theorem createVolumeTexture3d_stores_voxels_x_fastest :
  forall (alpha : Z -> Z -> Z -> Z) (max_array_length width height depth : Z),
    0 <= width -> 0 <= height -> 0 <= depth ->
    width * height * depth * 4 <= max_array_length ->
    exists tv : DirectVolume.TextureVolume,
      DirectVolume.createVolumeTexture3d alpha max_array_length (width, height, depth)
      = Returned tv
      /\ Z.of_nat (length (DirectVolume.volume_array tv)) = width * height * depth * 4
      /\ (forall x y z, 0 <= x < width -> 0 <= y < height -> 0 <= z < depth ->
            DirectVolume.volume_array tv !! Z.to_nat (4 * (x + width * (y + height * z)) + 3)
            = Some (alpha x y z))
      /\ (forall m : nat, Z.of_nat m < width * height * depth * 4 -> Z.of_nat m mod 4 <> 3 ->
            DirectVolume.volume_array tv !! m = Some 0).
Proof.
  intros alpha max_array_length width height depth Hw Hh Hd Hmax.
  unfold DirectVolume.createVolumeTexture3d.
  assert (Hlen : 0 <= width * height * depth * 4 <= max_array_length) by nia.
  rewrite (new_Uint8Array_nonneg _ _ Hlen).
  eexists. split; [reflexivity | ]. cbn [DirectVolume.volume_array].
  split; [ | split].
  - rewrite fill3d_length, length_replicate. lia.
  - intros x y z Hx Hy Hz.
    pose proof (voxels_lookup width height depth x y z Hx Hy Hz) as Hv.
    pose proof (fill3d_hit alpha _ (replicate (Z.to_nat (width * height * depth * 4)) 0) 0 _ _ Hv
                  ltac:(lia)) as Hhit.
    assert (Hyz : 0 <= y + height * z <= height * depth - 1) by nia.
    assert (Hxyz : 0 <= width * (y + height * z) <= width * (height * depth - 1)) by nia.
    rewrite Z2Nat.id in Hhit by lia.
    replace (0 + 4 * (x + width * (y + height * z)) + 3)
      with (4 * (x + width * (y + height * z)) + 3) in Hhit by lia.
    apply Hhit. rewrite length_replicate.
    assert (x + width * (y + height * z) < width * height * depth) by nia. lia.
  - intros m Hm Hmod. rewrite fill3d_untouched.
    + apply lookup_replicate_2. lia.
    + intros j _ E. apply Hmod. rewrite E.
      replace (0 + 4 * Z.of_nat j + 3) with (3 + Z.of_nat j * 4) by lia.
      rewrite Z.mod_add by lia. reflexivity.
Qed.

Lemma createVolumeTexture3d_stores_voxels_x_fastest_witness :
  exists tv : DirectVolume.TextureVolume,
    DirectVolume.createVolumeTexture3d ramp 4294967295 (2, 2, 2) = Returned tv
    /\ DirectVolume.volume_array tv !! Z.to_nat (4 * (1 + 2 * (0 + 2 * 1)) + 3)
       = Some (ramp 1 0 1).
Proof.
  destruct (createVolumeTexture3d_stores_voxels_x_fastest ramp 4294967295 2 2 2)
    as (tv & Et & _ & Hv & _); [lia .. | ].
  exists tv. split; [exact Et | ].
  apply (Hv 1 0 1); lia.
Defined.

Lemma createOrUpdate_props_unfold (D : Symmetry3D.Props) (cur props : option Symmetry3D.Props) :
  DirectVolume.createOrUpdate_props D cur props
  = default ∅ props ∪ (default ∅ cur ∪ D).
Proof.
  unfold DirectVolume.createOrUpdate_props, DirectVolume.Object_assign. cbn.
  rewrite (right_id_L ∅ (∪) D).
  destruct cur as [c|]; cbn; [reflexivity | ].
  rewrite (left_id_L ∅ (∪)). reflexivity.
Qed.

(** X7: the props that createOrUpdate of DirectVolumeRepresentation hands
    on are the defaults overridden by the props of earlier calls overridden
    by the props of this call: after two calls a key reads from the second
    props, else the first, else the props current before, else the defaults;
    two calls come to one call with the second props spread over the first;
    and repeating a call with the same props changes nothing. *)
Theorem createOrUpdate_props_accumulate :
  forall (D : Symmetry3D.Props) (cur p1 p2 : option Symmetry3D.Props) (k : string),
    let after1 := DirectVolume.createOrUpdate_props D cur p1 in
    let after2 := DirectVolume.createOrUpdate_props D (Some after1) p2 in
    after2 !! k
    = match default ∅ p2 !! k with
      | Some v => Some v
      | None =>
          match default ∅ p1 !! k with
          | Some v => Some v
          | None =>
              match default ∅ cur !! k with
              | Some v => Some v
              | None => D !! k
              end
          end
      end
    /\ after2 = DirectVolume.createOrUpdate_props D cur (Some (default ∅ p2 ∪ default ∅ p1))
    /\ DirectVolume.createOrUpdate_props D (Some after1) p1 = after1.
Proof.
  intros D cur p1 p2 k after1 after2. subst after1 after2.
  rewrite !createOrUpdate_props_unfold. cbn [from_option Datatypes.id].
  unfold Symmetry3D.Props in *.
  set (P1 := default ∅ p1). set (P2 := default ∅ p2). set (C := default ∅ cur).
  split; [ | split].
  - rewrite !lookup_union.
    destruct (P2 !! k), (P1 !! k), (C !! k), (D !! k); reflexivity.
  - apply map_eq. intros i. rewrite !lookup_union.
    destruct (P2 !! i), (P1 !! i), (C !! i), (D !! i); reflexivity.
  - apply map_eq. intros i. rewrite !lookup_union.
    destruct (P1 !! i), (C !! i), (D !! i); reflexivity.
Qed.


(** ** Trajectories *)

Section TrajectoryFacts.

Context {AC CC F : Type} (conf : F -> AC -> AC).

Lemma frames_from_spec (model : Trajectory.Model AC CC) (frames : list F) (i0 : Z)
      (h : Trajectory.Heap) :
  let '(t, h') := Trajectory.frames_from conf model i0 frames h in
  length t = length frames
  /\ Trajectory.infos h' = Trajectory.infos h
  /\ Trajectory.next_uuid h' = (Trajectory.next_uuid h + length frames)%nat
  /\ Trajectory.next_ref h' = (Trajectory.next_ref h + length frames)%nat
  /\ forall (k : nat) (f : F),
       frames !! k = Some f ->
       t !! k = Some (fst (Trajectory.frame_model conf model (i0 + Z.of_nat k) f
                             {| Trajectory.infos := Trajectory.infos h;
                                Trajectory.next_uuid := (Trajectory.next_uuid h + k)%nat;
                                Trajectory.next_ref := (Trajectory.next_ref h + k)%nat |})).
Proof.
  revert i0 h. induction frames as [|f0 frames IH]; intros i0 h.
  - cbn. repeat split; try lia. intros k f Hk. discriminate Hk.
  - cbn [Trajectory.frames_from].
    destruct (Trajectory.frame_model conf model i0 f0 h) as [m h1] eqn:Em.
    specialize (IH (i0 + 1) h1).
    destruct (Trajectory.frames_from conf model (i0 + 1) frames h1) as [ms h2].
    destruct IH as (Hlen & Hinfos & Hu & Hr & Hk).
    unfold Trajectory.frame_model in Em. injection Em as <- <-. cbn in *.
    repeat split; try lia.
    + exact Hinfos.
    + intros [|k] f Hf.
      * injection Hf as <-. cbn. rewrite Z.add_0_r, !Nat.add_0_r. reflexivity.
      * cbn in Hf. rewrite lookup_cons. rewrite (Hk k f Hf). cbn.
        rewrite !Nat.add_succ_r.
        replace (i0 + Z.of_nat (S k)) with (i0 + 1 + Z.of_nat k) by lia. reflexivity.
Qed.


Lemma number_models_spec (t : list (Trajectory.Model AC CC)) (bonds : Model.ref)
      (i n : Z) (h : Trajectory.Heap) (r : Model.ref) :
  Forall (fun m => Trajectory.trajectoryInfo m = r) t ->
  let '(t', h') := Trajectory.number_models t bonds i n h in
  t' = map (fun m => Trajectory.IndexPairBonds_set m bonds) t
  /\ Trajectory.next_uuid h' = Trajectory.next_uuid h
  /\ Trajectory.next_ref h' = Trajectory.next_ref h
  /\ (forall r', r' <> r -> Trajectory.infos h' !! r' = Trajectory.infos h !! r')
  /\ Trajectory.infos h' !! r
     = match t with
       | [] => Trajectory.infos h !! r
       | _ :: _ => Some {| Trajectory.index := i + Z.of_nat (length t) - 1;
                           Trajectory.size := n |}
       end.
Proof.
  revert i h. induction t as [|m t IH]; intros i h Hall.
  - cbn. repeat split.
  - cbn [Trajectory.number_models].
    apply Forall_cons in Hall as [Hm Hall].
    specialize (IH (i + 1)
                   (Trajectory.set_trajectoryInfo (Trajectory.IndexPairBonds_set m bonds) i n h)
                   Hall).
    destruct (Trajectory.number_models t bonds (i + 1) n _) as [ms h2].
    destruct IH as (Ht & Hu & Hr & Hother & Hinfo).
    cbn in Hu, Hr, Hother, Hinfo. rewrite Hm in Hother, Hinfo.
    repeat split.
    + cbn. rewrite Ht. reflexivity.
    + exact Hu.
    + exact Hr.
    + intros r' Hne. rewrite (Hother r' Hne). apply lookup_insert_ne. congruence.
    + rewrite Hinfo. destruct t as [|m1 t1].
      * rewrite lookup_insert_eq. cbn. do 2 f_equal. lia.
      * cbn [length]. do 2 f_equal. lia.
Qed.

End TrajectoryFacts.

(** X8: trajectoryFromModelAndCoordinates returns one model per frame, in
    the order of the frames and leaving the trajectoryInfo objects alone;
    the model of frame k has modelNum k, a new id, the atomic conformation
    made from that frame, the coarse conformation and the trajectoryInfo
    reference of the source model, and empty static and dynamic property
    bags. *)
Theorem trajectoryFromModelAndCoordinates_one_model_per_frame :
  forall (AC CC F : Type) (conf : F -> AC -> AC) (model : Trajectory.Model AC CC)
         (frames : list F) (h : Trajectory.Heap),
    let '(t, h') := Trajectory.trajectoryFromModelAndCoordinates conf model frames h in
    length t = length frames
    /\ Trajectory.infos h' = Trajectory.infos h
    /\ forall (k : nat) (f : F),
         frames !! k = Some f ->
         exists m : Trajectory.Model AC CC,
           t !! k = Some m
           /\ Trajectory.modelNum m = Z.of_nat k
           /\ Trajectory.id m = (Trajectory.next_uuid h + k)%nat
           /\ Trajectory.atomicConformation m = conf f (Trajectory.atomicConformation model)
           /\ Trajectory.coarseConformation m = Trajectory.coarseConformation model
           /\ Trajectory.trajectoryInfo m = Trajectory.trajectoryInfo model
           /\ Trajectory._staticPropertyData m = ∅
           /\ Trajectory._dynamicPropertyData m = ∅.
Proof.
  intros AC CC F conf model frames h. unfold Trajectory.trajectoryFromModelAndCoordinates.
  pose proof (frames_from_spec conf model frames 0 h) as H.
  destruct (Trajectory.frames_from conf model 0 frames h) as [t h'].
  destruct H as (Hlen & Hinfos & _ & _ & Hk).
  split; [exact Hlen | ]. split; [exact Hinfos | ].
  intros k f Hf. eexists. split; [apply (Hk k f Hf) | ].
  cbn. repeat split.
Qed.


Lemma trajectoryFromModelAndCoordinates_one_model_per_frame_witness :
  exists m : Trajectory.Model (list (Z * Z * Z)) (list (Z * Z * Z)),
    fst (Trajectory.trajectoryFromModelAndCoordinates take_frame cached_source_model
           two_frames start_heap) !! 1%nat = Some m
    /\ Trajectory.modelNum m = 1
    /\ Trajectory._dynamicPropertyData m = ∅.
Proof.
  pose proof (trajectoryFromModelAndCoordinates_one_model_per_frame _ _ _
                take_frame cached_source_model two_frames start_heap) as H.
  destruct (Trajectory.trajectoryFromModelAndCoordinates take_frame cached_source_model
              two_frames start_heap) as [t h'].
  destruct H as (_ & _ & Hk).
  destruct (Hk 1%nat [(2, 2, 2)] eq_refl) as (m & Hm & Hnum & _ & _ & _ & _ & _ & Hdyn).
  exists m. split; [exact Hm | split; [exact Hnum | exact Hdyn]].
Defined.

(** X9: getCenter on a model of the trajectory made by
    trajectoryFromModelAndCoordinates runs calcModelCenter, on the
    conformation of that frame, whatever center the source model has cached
    in its own property bag. *)
Theorem getCenter_of_trajectory_model_computes_anew :
  forall (AC CC F V : Type) (conf : F -> AC -> AC) (calc : AC -> CC -> V)
         (model : Trajectory.Model AC CC) (frames : list F) (h : Trajectory.Heap)
         (k : nat) (f : F) (m : Trajectory.Model AC CC) (heap : Model.Heap V),
    frames !! k = Some f ->
    fst (Trajectory.trajectoryFromModelAndCoordinates conf model frames h) !! k = Some m ->
    let '(c, m1, heap1) := Model.getCenter calc (Trajectory.center_view m) heap in
    c = Model.AObj (length (Model.objects heap))
    /\ Model.objects heap1
       = (Model.objects heap
          ++ [calc (conf f (Trajectory.atomicConformation model))
                   (Trajectory.coarseConformation model)])%list
    /\ Model.calcModelCenter_runs heap1 = S (Model.calcModelCenter_runs heap).
Proof.
  intros AC CC F V conf calc model frames h k f m heap Hf Hm.
  unfold Trajectory.trajectoryFromModelAndCoordinates in Hm.
  pose proof (frames_from_spec conf model frames 0 h) as H.
  destruct (Trajectory.frames_from conf model 0 frames h) as [t h'].
  destruct H as (_ & _ & _ & _ & Hk).
  cbn in Hm. rewrite (Hk k f Hf) in Hm. injection Hm as <-.
  rewrite getCenter_miss by reflexivity. cbn. repeat split.
Qed.


Lemma getCenter_of_trajectory_model_computes_anew_witness :
  Model.truthy (Model.bag_get (Trajectory._dynamicPropertyData cached_source_model)
                  Model.CenterProp) = true
  /\ exists m : Trajectory.Model (list (Z * Z * Z)) (list (Z * Z * Z)),
       fst (Trajectory.trajectoryFromModelAndCoordinates take_frame cached_source_model
              two_frames start_heap) !! 1%nat = Some m
       /\ Model.calcModelCenter_runs
            (snd (Model.getCenter calc_origin (Trajectory.center_view m) empty_heap)) = 1%nat.
Proof.
  split; [reflexivity | ].
  eexists. split; [reflexivity | ].
  pose proof (getCenter_of_trajectory_model_computes_anew _ _ _ _
                take_frame calc_origin cached_source_model two_frames start_heap
                1%nat [(2, 2, 2)] _ empty_heap eq_refl eq_refl) as H.
  destruct (Model.getCenter calc_origin _ empty_heap) as [[c m1] heap1].
  destruct H as (_ & _ & Hruns). exact Hruns.
Defined.

(** X10: trajectoryFromTopologyAndCoordinates throws 'found no model' when
    createModels gives no model.  Otherwise it returns one model per frame;
    all of them hold the trajectoryInfo object of the first created model and
    the same bonds object, so that, with at least one frame, every model of
    the trajectory ends up with trajectoryInfo.index equal to the number of
    frames minus one and trajectoryInfo.size equal to the number of frames. *)
Theorem trajectoryFromTopologyAndCoordinates_shares_trajectoryInfo :
  forall (AC CC F : Type) (conf : F -> AC -> AC)
         (model : Trajectory.Model AC CC) (others : list (Trajectory.Model AC CC))
         (frames : list F) (h : Trajectory.Heap),
    Trajectory.trajectoryFromTopologyAndCoordinates conf (@nil (Trajectory.Model AC CC)) frames h
    = (Thrown "Error: found no model", h)
    /\ exists (t : list (Trajectory.Model AC CC)) (h' : Trajectory.Heap),
         Trajectory.trajectoryFromTopologyAndCoordinates conf (model :: others) frames h
         = (Returned t, h')
         /\ length t = length frames
         /\ Forall (fun m => Trajectory.trajectoryInfo m = Trajectory.trajectoryInfo model
                             /\ Trajectory._staticPropertyData m !! "index_pair_bonds"
                                = Some (Model.AObj (Trajectory.next_ref h + length frames)%nat)) t
         /\ Trajectory.infos h' !! Trajectory.trajectoryInfo model
            = match frames with
              | [] => Trajectory.infos h !! Trajectory.trajectoryInfo model
              | _ :: _ => Some {| Trajectory.index := Z.of_nat (length frames) - 1;
                                  Trajectory.size := Z.of_nat (length frames) |}
              end.
Proof.
  intros AC CC F conf model others frames h. split; [reflexivity | ].
  unfold Trajectory.trajectoryFromTopologyAndCoordinates,
    Trajectory.trajectoryFromModelAndCoordinates.
  pose proof (frames_from_spec conf model frames 0 h) as H.
  destruct (Trajectory.frames_from conf model 0 frames h) as [t h1].
  destruct H as (Hlen & Hinfos & Hu & Hr & Hk).
  assert (Hall : Forall (fun m => Trajectory.trajectoryInfo m = Trajectory.trajectoryInfo model) t).
  { apply Forall_lookup. intros k m Hm.
    destruct (frames !! k) as [f|] eqn:Ef.
    - rewrite (Hk k f Ef) in Hm. injection Hm as <-. reflexivity.
    - apply lookup_ge_None in Ef. apply lookup_lt_Some in Hm. lia. }
  pose proof (number_models_spec t (Trajectory.next_ref h1) 0 (Z.of_nat (length t))
                {| Trajectory.infos := Trajectory.infos h1;
                   Trajectory.next_uuid := Trajectory.next_uuid h1;
                   Trajectory.next_ref := S (Trajectory.next_ref h1) |}
                (Trajectory.trajectoryInfo model) Hall) as H.
  destruct (Trajectory.number_models t (Trajectory.next_ref h1) 0 (Z.of_nat (length t)) _)
    as [t' h3].
  destruct H as (Ht' & _ & _ & _ & Hinfo).
  exists t', h3. split; [reflexivity | ]. subst t'.
  split; [rewrite length_map; exact Hlen | ]. split.
  - apply Forall_fmap. eapply Forall_impl; [exact Hall | ].
    intros m Hm. cbn. split; [exact Hm | ].
    rewrite lookup_insert_eq, Hr. reflexivity.
  - rewrite Hinfo. cbn [Trajectory.infos]. rewrite Hinfos.
    destruct t as [|m0 t0], frames as [|f0 fs]; try discriminate Hlen; [reflexivity | ].
    rewrite Hlen. reflexivity.
Qed.


(** ** Where a model comes from *)

Lemma matches_pdb_id_length (s : string) :
  ModelSource.matches_pdb_id s = true -> String.length s = 4%nat.
Proof.
  unfold ModelSource.matches_pdb_id.
  destruct s as [|c1 [|c2 [|c3 [|c4 [|c5 s]]]]]; cbn; try discriminate. reflexivity.
Qed.

Lemma matches_long_pdb_id_length (s : string) :
  ModelSource.matches_long_pdb_id s = true -> String.length s = 12%nat.
Proof.
  unfold ModelSource.matches_long_pdb_id.
  destruct s as [|c1 [|c2 [|c3 [|c4 [|c5 [|c6 [|c7 [|c8 [|c9 [|c10 [|c11 [|c12 [|c13 s]]]]]]]]]]]]];
    cbn; try discriminate. reflexivity.
Qed.

(** X11: for an mmCIF model without a database_2 id, isFromPdbArchive holds
    only for entry ids of 4 or of 12 characters; and when a 4-character id
    is recognised, so is every id made of 'pdb_', four digits and that id. *)
Theorem isFromPdbArchive_entry_ids :
  forall (db : ModelSource.Db) (e : string),
    ModelSource.isDefined (ModelSource.database_2_database_id db) = false ->
    (ModelSource.isFromPdbArchive
       {| ModelSource.entryId := e; ModelSource.sourceData := ModelSource.MmcifFormat db |} = true ->
     String.length e = 4%nat \/ String.length e = 12%nat)
    /\ (ModelSource.matches_pdb_id e = true ->
        forall n1 n2 n3 n4 : ascii,
          ModelSource.is_0_9 n1 = true -> ModelSource.is_0_9 n2 = true ->
          ModelSource.is_0_9 n3 = true -> ModelSource.is_0_9 n4 = true ->
          ModelSource.isFromPdbArchive
            {| ModelSource.entryId := "pdb_" ++ String n1 (String n2 (String n3 (String n4 e)));
               ModelSource.sourceData := ModelSource.MmcifFormat db |} = true).
Proof.
  intros db e Hdb. unfold ModelSource.isFromPdbArchive.
  cbn [ModelSource.sourceData ModelSource.entryId]. rewrite Hdb. cbn [orb]. split.
  - intros H. apply orb_true_iff in H as [H|H].
    + left. apply matches_pdb_id_length. exact H.
    + right. apply matches_long_pdb_id_length. exact H.
  - intros He n1 n2 n3 n4 H1 H2 H3 H4.
    apply orb_true_iff. right.
    pose proof (matches_pdb_id_length e He) as Hl.
    unfold ModelSource.matches_pdb_id in He.
    destruct e as [|c1 [|c2 [|c3 [|c4 [|c5 s]]]]]; try discriminate Hl.
    unfold ModelSource.matches_long_pdb_id.
    cbn -[ModelSource.is_0_9 ModelSource.is_1_9 ModelSource.is_a_z0_9_i] in He |- *.
    change ("pdb_" +:+ ?x) with (String "p" (String "d" (String "b" (String "_" x)))).
    cbn -[ModelSource.is_0_9 ModelSource.is_1_9 ModelSource.is_a_z0_9_i].
    rewrite H1, H2, H3, H4. cbn [andb]. exact He.
Qed.


Lemma isFromPdbArchive_entry_ids_witness :
  ModelSource.isFromPdbArchive
    {| ModelSource.entryId := "pdb_00001abc";
       ModelSource.sourceData := ModelSource.MmcifFormat bare_db |} = true.
Proof.
  apply (proj2 (isFromPdbArchive_entry_ids bare_db "1abc" eq_refl) eq_refl
               "0"%char "0"%char "0"%char "0"%char); reflexivity.
Defined.

(** X12: for a model whose source data is not mmCIF, isFromPdbArchive,
    hasSecondaryStructure, isFromXray, isFromEm, isFromNmr, hasXrayMap,
    hasEmMap, hasDensityMap and probablyHasDensityMap are all false, whatever
    its entry id. *)
Theorem source_predicates_false_unless_mmcif :
  forall (toUpperCase : string -> string) (m : ModelSource.Model) (kind : string),
    ModelSource.sourceData m = ModelSource.OtherFormat kind ->
    ModelSource.isFromPdbArchive m = false
    /\ ModelSource.hasSecondaryStructure m = false
    /\ ModelSource.isFromXray toUpperCase m = false
    /\ ModelSource.isFromEm toUpperCase m = false
    /\ ModelSource.isFromNmr toUpperCase m = false
    /\ ModelSource.hasXrayMap toUpperCase m = false
    /\ ModelSource.hasEmMap toUpperCase m = false
    /\ ModelSource.hasDensityMap toUpperCase m = false
    /\ ModelSource.probablyHasDensityMap toUpperCase m = false.
Proof.
  intros up m kind H.
  unfold ModelSource.isFromPdbArchive, ModelSource.hasSecondaryStructure, ModelSource.isFromXray,
    ModelSource.isFromEm, ModelSource.isFromNmr, ModelSource.hasXrayMap, ModelSource.hasEmMap,
    ModelSource.hasDensityMap, ModelSource.probablyHasDensityMap.
  rewrite H. repeat split.
Qed.


Lemma source_predicates_false_unless_mmcif_witness :
  ModelSource.matches_pdb_id (ModelSource.entryId pdb_file_model) = true
  /\ ModelSource.isFromPdbArchive pdb_file_model = false
  /\ ModelSource.probablyHasDensityMap (fun s => s) pdb_file_model = false.
Proof.
  split; [reflexivity | ].
  destruct (source_predicates_false_unless_mmcif (fun s => s) pdb_file_model "pdb" eq_refl)
    as (H1 & _ & _ & _ & _ & _ & _ & _ & H9).
  split; [exact H1 | exact H9].
Defined.

(** X13: for every model, hasXrayMap implies isFromXray; hasDensityMap is
    hasXrayMap or hasEmMap; hasDensityMap implies probablyHasDensityMap; and
    probablyHasDensityMap holds only for a model that has a density map or
    is from the PDB archive. *)
Theorem density_map_predicates_ordered :
  forall (toUpperCase : string -> string) (m : ModelSource.Model),
    (ModelSource.hasXrayMap toUpperCase m = true ->
     ModelSource.isFromXray toUpperCase m = true)
    /\ ModelSource.hasDensityMap toUpperCase m
       = ModelSource.hasXrayMap toUpperCase m || ModelSource.hasEmMap toUpperCase m
    /\ (ModelSource.hasDensityMap toUpperCase m = true ->
        ModelSource.probablyHasDensityMap toUpperCase m = true)
    /\ (ModelSource.probablyHasDensityMap toUpperCase m = true ->
        ModelSource.hasDensityMap toUpperCase m = true
        \/ ModelSource.isFromPdbArchive m = true).
Proof.
  intros up m.
  unfold ModelSource.hasDensityMap, ModelSource.probablyHasDensityMap.
  assert (Hx : ModelSource.hasXrayMap up m = true -> ModelSource.isFromXray up m = true).
  { unfold ModelSource.hasXrayMap. destruct (ModelSource.sourceData m); [ | discriminate].
    destruct (ModelSource.isFromXray up m); [reflexivity | discriminate]. }
  split; [exact Hx | ].
  destruct (ModelSource.sourceData m) as [db|kind] eqn:Es.
  - unfold ModelSource.hasDensityMap. rewrite Es.
    split; [reflexivity | ]. split.
    + intros ->. reflexivity.
    + intros H. apply orb_true_iff in H as [H|H]; [left; exact H | right].
      apply andb_true_iff in H as [H _]. exact H.
  - unfold ModelSource.hasXrayMap, ModelSource.hasEmMap. rewrite Es.
    split; [reflexivity | ]. split; discriminate.
Qed.


(** ** Coarse, entity and unit properties *)

(** X14: the properties of coarse_grained that read the sites go by the
    kind of the unit.  On an atomic unit modelKey, entityKey, asym_id,
    seq_id_begin and seq_id_end throw 'Property only available for coarse
    models.' and the sphere and gaussian properties throw the same with
    ' (spheres)' and ' (gaussians)' added; on a unit of spheres only the
    gaussian properties throw; on a unit of gaussians only the sphere
    properties throw. *)
Theorem coarse_properties_by_unit_kind :
  forall l : MoreProperties.Location,
    match Properties.kind (Properties.unit (MoreProperties.location l)) with
    | Properties.Atomic _ =>
        Forall (fun p => snd p l = Thrown "Property only available for coarse models.")
               MoreProperties.coarse_only_properties
        /\ Forall (fun p => snd p l = Thrown "Property only available for coarse models (spheres).")
                  MoreProperties.spheres_only_properties
        /\ Forall (fun p => snd p l = Thrown "Property only available for coarse models (gaussians).")
                  MoreProperties.gaussians_only_properties
    | Properties.Spheres =>
        Forall (fun p => exists v, snd p l = Returned v) MoreProperties.coarse_only_properties
        /\ Forall (fun p => exists v, snd p l = Returned v) MoreProperties.spheres_only_properties
        /\ Forall (fun p => snd p l = Thrown "Property only available for coarse models (gaussians).")
                  MoreProperties.gaussians_only_properties
    | Properties.Gaussians =>
        Forall (fun p => exists v, snd p l = Returned v) MoreProperties.coarse_only_properties
        /\ Forall (fun p => snd p l = Thrown "Property only available for coarse models (spheres).")
                  MoreProperties.spheres_only_properties
        /\ Forall (fun p => exists v, snd p l = Returned v) MoreProperties.gaussians_only_properties
    end.
Proof.
  intros l.
  unfold MoreProperties.coarse_only_properties, MoreProperties.spheres_only_properties,
    MoreProperties.gaussians_only_properties.
  destruct (Properties.kind (Properties.unit (MoreProperties.location l))) as [d| |] eqn:Ek;
    (split; [ | split]);
    repeat (constructor;
            [ cbn; unfold MoreProperties.coarse_grained.modelKey,
                MoreProperties.coarse_grained.entityKey, MoreProperties.coarse_grained.asym_id,
                MoreProperties.coarse_grained.seq_id_begin, MoreProperties.coarse_grained.seq_id_end,
                MoreProperties.coarse_grained.sphere_radius, MoreProperties.coarse_grained.sphere_rmsf,
                MoreProperties.coarse_grained.gaussian_weight,
                MoreProperties.coarse_grained.gaussian_covariance_matrix,
                MoreProperties.isCoarse, MoreProperties.isSpheres, MoreProperties.isGaussians;
              rewrite Ek; cbn; try reflexivity; eexists; reflexivity | ]);
    constructor.
Qed.

Lemma eK_not_atomic (l : MoreProperties.Location) :
  Properties.isAtomic (Properties.unit (MoreProperties.location l)) = false ->
  MoreProperties.eK l = Properties.notAtomic.
Proof. intros H. unfold MoreProperties.eK. apply atomic_only_not_atomic. exact H. Qed.

(** X15: entity.key and the ten entity.* properties throw 'Property only
    available for atomic models.' at a location whose unit is not atomic,
    coarse units included, and return a value at a location whose unit is
    atomic; unit.operator_name, unit.model_num and coarse_grained.key, x, y
    and z return a value at every location. *)
Theorem entity_properties_need_atomic_unit :
  forall l : MoreProperties.Location,
    (Properties.isAtomic (Properties.unit (MoreProperties.location l)) = false ->
     Forall (fun p => snd p l = Thrown "Property only available for atomic models.")
            MoreProperties.entity_properties)
    /\ (Properties.isAtomic (Properties.unit (MoreProperties.location l)) = true ->
        Forall (fun p => exists v, snd p l = Returned v) MoreProperties.entity_properties)
    /\ Forall (fun p => exists v, snd p l = Returned v)
              [("unit.operator_name", MoreProperties.unit_.operator_name);
               ("unit.model_num", MoreProperties.unit_.model_num);
               ("coarse_grained.key", MoreProperties.coarse_grained.key);
               ("coarse_grained.x", MoreProperties.coarse_grained.x);
               ("coarse_grained.y", MoreProperties.coarse_grained.y);
               ("coarse_grained.z", MoreProperties.coarse_grained.z)].
Proof.
  intros l. split; [ | split].
  - intros H. pose proof (eK_not_atomic l H) as E.
    unfold MoreProperties.entity_properties.
    repeat (constructor;
            [ cbv [snd MoreProperties.entity.key MoreProperties.entity.id MoreProperties.entity.type
                     MoreProperties.entity.src_method MoreProperties.entity.pdbx_description
                     MoreProperties.entity.formula_weight
                     MoreProperties.entity.pdbx_number_of_molecules MoreProperties.entity.details
                     MoreProperties.entity.pdbx_mutation MoreProperties.entity.pdbx_fragment
                     MoreProperties.entity.pdbx_ec MoreProperties.entity_column];
              rewrite E; reflexivity | ]).
    constructor.
  - intros H.
    destruct (atomic_only_atomic (MoreProperties.location l)
                (fun u => Properties.column_value (Properties.entityKey (Properties.hierarchy u))
                            (Properties.array_get (Properties.chainIndex u)
                               (Properties.element (MoreProperties.location l)))) H)
      as (d & _ & E).
    fold (MoreProperties.eK l) in E.
    unfold MoreProperties.entity_properties.
    repeat (constructor;
            [ cbv [snd MoreProperties.entity.key MoreProperties.entity.id MoreProperties.entity.type
                     MoreProperties.entity.src_method MoreProperties.entity.pdbx_description
                     MoreProperties.entity.formula_weight
                     MoreProperties.entity.pdbx_number_of_molecules MoreProperties.entity.details
                     MoreProperties.entity.pdbx_mutation MoreProperties.entity.pdbx_fragment
                     MoreProperties.entity.pdbx_ec MoreProperties.entity_column];
              rewrite E; eexists; reflexivity | ]).
    constructor.
  - repeat (constructor; [eexists; reflexivity | ]). constructor.
Qed.

Lemma entity_properties_need_atomic_unit_witness :
  Properties.isAtomic (Properties.unit (MoreProperties.location spheres_site)) = false
  /\ Forall (fun p => snd p spheres_site = Thrown "Property only available for atomic models.")
            MoreProperties.entity_properties.
Proof.
  split; [reflexivity | ].
  apply (proj1 (entity_properties_need_atomic_unit spheres_site)). reflexivity.
Defined.


(** ** More on CCP4 volumes *)

(** X16: for a header without ORIGIN records, with NCSTART, NRSTART and
    NSSTART zero, with MAPC, MAPR and MAPS being 1, 2 and 3 in some order,
    non-zero grid sizes and as many columns, rows and sections as the grid
    has points along the cell axis each is mapped to, the fractional box of
    the volume is the unit cube from (0, 0, 0) to (1, 1, 1), whatever the
    axis order. *)
Theorem full_cell_map_has_unit_fractionalBox :
  forall (source : Ccp4.Ccp4File) (params : option Ccp4.Params),
    let h := Ccp4.header source in
    (Ccp4.originX h = 0 /\ Ccp4.originY h = 0 /\ Ccp4.originZ h = 0)%R ->
    Ccp4.NCSTART h = 0 -> Ccp4.NRSTART h = 0 -> Ccp4.NSSTART h = 0 ->
    1 <= Ccp4.MAPC h <= 3 -> 1 <= Ccp4.MAPR h <= 3 -> 1 <= Ccp4.MAPS h <= 3 ->
    Ccp4.MAPC h <> Ccp4.MAPR h -> Ccp4.MAPC h <> Ccp4.MAPS h -> Ccp4.MAPR h <> Ccp4.MAPS h ->
    Ccp4.NX h <> 0 -> Ccp4.NY h <> 0 -> Ccp4.NZ h <> 0 ->
    Ccp4.grid h !! Z.to_nat (Ccp4.MAPC h - 1) = Some (Ccp4.NC h) ->
    Ccp4.grid h !! Z.to_nat (Ccp4.MAPR h - 1) = Some (Ccp4.NR h) ->
    Ccp4.grid h !! Z.to_nat (Ccp4.MAPS h - 1) = Some (Ccp4.NS h) ->
    Ccp4.fractionalBox (Ccp4.volumeFromCcp4 source params)
    = {| Ccp4.box_min := Ccp4.Vec3.create (Some 0%R) (Some 0%R) (Some 0%R);
         Ccp4.box_max := Ccp4.Vec3.create (Some 1%R) (Some 1%R) (Some 1%R) |}.
Proof.
  intros source params h Ho Hc Hr Hs Mc Mr Ms Mcr Mcs Mrs Hx Hy Hz Gc Gr Gs.
  assert (Hmin : Ccp4.origin_frac h = Ccp4.Vec3.create (Some 0%R) (Some 0%R) (Some 0%R)).
  { unfold Ccp4.origin_frac, Ccp4.gridOrigin.
    rewrite (proj2 (all_zero_true h) Ho), Hc, Hr, Hs.
    destruct (normalizeOrder_entries h 0 0 0) as (r0 & r1 & r2 & E & H0 & H1 & H2).
    assert (r0 = 0) as -> by lia. assert (r1 = 0) as -> by lia. assert (r2 = 0) as -> by lia.
    rewrite E. cbn. unfold Ccp4.num_div.
    apply Z.eqb_neq in Hx, Hy, Hz. rewrite Hx, Hy, Hz.
    unfold Ccp4.Vec3.create. f_equal; f_equal; unfold Rdiv; apply Rmult_0_l. }
  assert (He : Ccp4.extent h = [Some (Ccp4.NX h); Some (Ccp4.NY h); Some (Ccp4.NZ h)]).
  { unfold Ccp4.extent, Ccp4.normalizeOrder, Ccp4.axis_order_fast_to_slow.
    unfold Ccp4.grid in Gc, Gr, Gs.
    assert (Ec : Ccp4.MAPC h = 1 \/ Ccp4.MAPC h = 2 \/ Ccp4.MAPC h = 3) by lia.
    assert (Er : Ccp4.MAPR h = 1 \/ Ccp4.MAPR h = 2 \/ Ccp4.MAPR h = 3) by lia.
    assert (Es : Ccp4.MAPS h = 1 \/ Ccp4.MAPS h = 2 \/ Ccp4.MAPS h = 3) by lia.
    destruct Ec as [Ec|[Ec|Ec]], Er as [Er|[Er|Er]], Es as [Es|[Es|Es]];
      rewrite Ec, Er, Es in *; try lia;
      cbn in Gc, Gr, Gs; injection Gc as Gc; injection Gr as Gr; injection Gs as Gs;
      rewrite Gc, Gr, Gs; reflexivity. }
  assert (Hdim : Ccp4.dimensions_frac h = Ccp4.Vec3.create (Some 1%R) (Some 1%R) (Some 1%R)).
  { unfold Ccp4.dimensions_frac. rewrite He. cbn. unfold Ccp4.num_div.
    pose proof (not_0_IZR _ Hx). pose proof (not_0_IZR _ Hy). pose proof (not_0_IZR _ Hz).
    apply Z.eqb_neq in Hx, Hy, Hz. rewrite Hx, Hy, Hz.
    unfold Ccp4.Vec3.create. f_equal; f_equal; field; assumption. }
  unfold Ccp4.volumeFromCcp4. cbn [Ccp4.fractionalBox]. fold h. rewrite Hmin, Hdim.
  unfold Ccp4.Vec3.add, Ccp4.Vec3.create. cbn.
  do 2 f_equal; f_equal; lra.
Qed.

Lemma full_cell_map_has_unit_fractionalBox_witness :
  Ccp4.fractionalBox
    (Ccp4.volumeFromCcp4 {| Ccp4.header := permuted_header; Ccp4.values := [] |} None)
  = {| Ccp4.box_min := Ccp4.Vec3.create (Some 0%R) (Some 0%R) (Some 0%R);
       Ccp4.box_max := Ccp4.Vec3.create (Some 1%R) (Some 1%R) (Some 1%R) |}.
Proof.
  apply (full_cell_map_has_unit_fractionalBox
           {| Ccp4.header := permuted_header; Ccp4.values := [] |} None);
    cbn; try lia; try reflexivity.
  repeat split; reflexivity.
Defined.


(** ** More on the behavior and the transformer *)

(** X17: when apply has returned a representation object b, the
    provider's attach, called again in the world apply left, returns
    without changing it, and createOrUpdate of the representation of b
    completes, then update with the same parameters returns Updated and
    leaves the source, the label and the description of b as apply set
    them; only the representation is replaced by the one createOrUpdate
    made. *)
Theorem update_after_apply_keeps_labels :
  forall (P : Symmetry3D.Provider) (Rp : Symmetry3D.Representation)
         (a : Symmetry3D.Structure) (params : Symmetry3D.Props)
         (w w' : Symmetry3D.World) (b : Symmetry3D.Representation3D) (r : Symmetry3D.Repr),
    Symmetry3D.attach P a w' = (Returned tt, w') ->
    Symmetry3D.apply P Rp a params w = (Returned (Symmetry3D.Shape_Representation3D b), w') ->
    Symmetry3D.createOrUpdate Rp
      (Symmetry3D.spread (Symmetry3D.props (Symmetry3D.repr b)) params) a (Symmetry3D.repr b)
    = (Returned tt, r) ->
    Symmetry3D.source b = a
    /\ Symmetry3D.update P Rp a params (b, w')
       = (Returned Symmetry3D.Updated,
          ({| Symmetry3D.repr := r;
              Symmetry3D.source := a;
              Symmetry3D.label := Symmetry3D.label b;
              Symmetry3D.description := Symmetry3D.description b |}, w')).
Proof.
  intros P Rp a params w w' b r Hidem Happly Hcu.
  assert (Hb : Symmetry3D.source b = a
               /\ Symmetry3D.no_clusters (Symmetry3D.get_value P a w') = false
               /\ exists s, Symmetry3D.at_symmetryIndex
                              (default [] (Symmetry3D.get_value P a w')) params = Some s
                            /\ Symmetry3D.label b = Symmetry3D.kind s
                            /\ Symmetry3D.description b = Symmetry3D.describe s).
  { destruct (Symmetry3D.attach P a w) as [[[]|e] w1] eqn:Ha.
    - rewrite (apply_attached P Rp a params w w1 Ha) in Happly.
      destruct (Symmetry3D.no_clusters (Symmetry3D.get_value P a w1)) eqn:En;
        [discriminate Happly | ].
      destruct (Symmetry3D.createOrUpdate Rp params a (Symmetry3D.create Rp)) as [[u|e] r0];
        [ | discriminate Happly].
      destruct (Symmetry3D.at_symmetryIndex _ params) as [s|] eqn:Es; [ | discriminate Happly].
      injection Happly as <- <-. cbn. split; [reflexivity | ]. split; [exact En | ].
      exists s. split; [exact Es | split; reflexivity].
    - rewrite (apply_attach_throws P Rp a params w w1 e Ha) in Happly. discriminate Happly. }
  destruct Hb as (Hsrc & Hn & s & Hs & Hl & Hd).
  split; [exact Hsrc | ].
  rewrite (update_attached P Rp a params b w' w' Hidem), Hn, Hcu, Hs, Hsrc, Hl, Hd.
  reflexivity.
Qed.

(** With the provider of the spec a second attach changes nothing. *)
Lemma spec_provider_attach_again (fetch : Symmetry3D.Structure -> Outcome string Symmetry3D.AssemblySymmetryValue)
      (a : Symmetry3D.Structure) (w w' : Symmetry3D.World) :
  Symmetry3D.attach (Symmetry3D.spec_provider fetch) a w = (Returned tt, w') ->
  Symmetry3D.attach (Symmetry3D.spec_provider fetch) a w' = (Returned tt, w').
Proof.
  cbn. destruct (Symmetry3D.propertyData w !! a) as [v|] eqn:E.
  - intros [= <-]. rewrite E. reflexivity.
  - destruct (fetch a) as [v|e]; [ | discriminate].
    intros [= <-]. cbn. rewrite lookup_insert_eq. reflexivity.
Qed.


Lemma update_after_apply_keeps_labels_witness :
  exists (b : Symmetry3D.Representation3D) (w' : Symmetry3D.World),
    Symmetry3D.apply (Symmetry3D.spec_provider server_C2) Symmetry3D.spec_representation
      1%nat select_first empty_world
    = (Returned (Symmetry3D.Shape_Representation3D b), w')
    /\ fst (Symmetry3D.update (Symmetry3D.spec_provider server_C2) Symmetry3D.spec_representation
              1%nat select_first (b, w'))
       = Returned Symmetry3D.Updated.
Proof.
  eexists _, _. split; [reflexivity | ].
  edestruct (update_after_apply_keeps_labels
               (Symmetry3D.spec_provider server_C2) Symmetry3D.spec_representation
               1%nat select_first empty_world) as [_ H]; cycle 1.
  - reflexivity.
  - reflexivity.
  - rewrite H. reflexivity.
  - reflexivity.
Defined.

(** X18: a second update of the behavior reports a change exactly when its
    autoAttach differs from that of the update before it; repeating an
    update reports no change, leaves the handler as it is and makes the same
    registry call; no update touches the handler's serverUrl. *)
Theorem update_repeated_reports_no_change :
  forall (provider : Behavior.PropertyProvider) (this : Behavior.Handler)
         (p q : Behavior.Params),
    let '(updated1, this1, calls1) := Behavior.update provider this p in
    let '(updated2, this2, calls2) := Behavior.update provider this1 q in
    let '(updated3, this3, calls3) := Behavior.update provider this2 q in
    updated2 = negb (Bool.eqb (Behavior.autoAttach p) (Behavior.autoAttach q))
    /\ updated3 = false
    /\ this3 = this2
    /\ calls3 = calls2
    /\ Behavior.serverUrl (Behavior.params this3) = Behavior.serverUrl (Behavior.params this).
Proof.
  intros provider this p q. cbn. rewrite Bool.eqb_reflx. repeat split.
Qed.

(** X19: on registries that hold none of the behavior's three entries and
    no default auto-attach value for the provider, register() followed by
    update(p) leaves the provider registered with the default auto-attach
    p.autoAttach, and a following unregister() brings the registries back
    to their state before register. *)
Theorem register_update_unregister_restores_fresh_registries :
  forall (action : Behavior.StateAction) (provider : Behavior.PropertyProvider)
         (theme : Behavior.ColorThemeProvider)
         (this : Behavior.Handler) (p : Behavior.Params) (r : Behavior.Registries),
    Behavior.actions r !! Behavior.action_id action = None ->
    Behavior.customStructureProperties r !! Behavior.descriptor_name provider = None ->
    Behavior.defaultAutoAttachValues r !! Behavior.descriptor_name provider = None ->
    Behavior.colorThemeRegistry r !! Behavior.theme_name theme = None ->
    let '(_, this', calls) := Behavior.update provider this p in
    let registered := Behavior.run calls (Behavior.run (Behavior.register action provider theme this) r) in
    Behavior.customStructureProperties registered !! Behavior.descriptor_name provider
    = Some provider
    /\ Behavior.defaultAutoAttachValues registered !! Behavior.descriptor_name provider
       = Some (Behavior.autoAttach p)
    /\ Behavior.run (Behavior.unregister action provider theme this') registered = r.
Proof.
  intros action provider theme this p r Ha Hp Hd Ht. cbn.
  split; [apply lookup_insert_eq | ]. split; [apply lookup_insert_eq | ].
  destruct r as [ra rp rd rt]. cbn in *.
  rewrite !delete_insert_eq.
  rewrite (delete_id _ _ Ha), (delete_id _ _ Hp), (delete_id _ _ Hd), (delete_id _ _ Ht).
  reflexivity.
Qed.

Lemma register_update_unregister_restores_fresh_registries_witness :
  Behavior.run
    (Behavior.unregister init_action symmetry_provider cluster_theme
       (snd (fst (Behavior.update symmetry_provider handler_off other_server))))
    (Behavior.run (snd (Behavior.update symmetry_provider handler_off other_server))
       (Behavior.run (Behavior.register init_action symmetry_provider cluster_theme handler_off)
          no_registrations))
  = no_registrations.
Proof.
  apply (register_update_unregister_restores_fresh_registries
           init_action symmetry_provider cluster_theme handler_off other_server
           no_registrations); reflexivity.
Defined.


(** ** The superposition controls *)

Section SuperpositionFacts.

Context {Structure Element Cell Ref Data Mat4 Num : Type} `{EqDecision Structure}.
Variable resolveAndCheck : Data -> Cell -> option Ref.
Variable findTagInSubtree : Data -> Ref -> string -> option Ref.
Variable updateTree : Superposition.Builder Cell Ref Mat4 -> Tasks.Task Data unit.
Variable stripTags : string -> string.
Variable toFixed : Num -> Z -> string.
Variable trace_loci : Superposition.Loci Structure Element -> Superposition.Loci Structure Element.
Variable superpose alignAndSuperpose :
  list (Superposition.Loci Structure Element) -> list (Superposition.Result Mat4 Num).

Lemma transform_log (s : Cell) (matrix : Mat4) (p : Superposition.Plugin Data) :
  Superposition.log
    (snd (Superposition.transform resolveAndCheck findTagInSubtree updateTree s matrix p))
  = Superposition.log p.
Proof.
  unfold Superposition.transform.
  destruct (resolveAndCheck (Superposition.data p) s) as [r|]; [ | reflexivity].
  cbv zeta. destruct (updateTree _ _) as [res d]. reflexivity.
Qed.

Lemma transform_unresolved (s : Cell) (matrix : Mat4) (p : Superposition.Plugin Data) :
  resolveAndCheck (Superposition.data p) s = None ->
  Superposition.transform resolveAndCheck findTagInSubtree updateTree s matrix p
  = (Returned tt, p).
Proof. intros E. unfold Superposition.transform. rewrite E. reflexivity. Qed.

Lemma transform_returns (s : Cell) (matrix : Mat4) (p : Superposition.Plugin Data) :
  (forall b d, fst (updateTree b d) = Returned tt) ->
  fst (Superposition.transform resolveAndCheck findTagInSubtree updateTree s matrix p)
  = Returned tt.
Proof.
  intros Hno. unfold Superposition.transform.
  destruct (resolveAndCheck (Superposition.data p) s) as [r|]; [ | reflexivity].
  cbv zeta.
  match goal with |- context [updateTree ?b ?d] =>
    specialize (Hno b d); destruct (updateTree b d) as [res d'] end.
  exact Hno.
Qed.

(** The loop from turn [i] on, when [transform] returns on the cells of the
  entries and keeps [Keeps] of the state tree. *)
Lemma for_from_superpose_step
    (Keeps : Data -> Prop)
    (eA : Superposition.LociEntry Structure Element Cell)
    (rest : list (Superposition.LociEntry Structure Element Cell))
    (transforms : list (Superposition.Result Mat4 Num)) :
  (forall e matrix p,
     e ∈ rest -> Keeps (Superposition.data p) ->
     exists d, Superposition.transform resolveAndCheck findTagInSubtree updateTree
                 (Superposition.cell e) matrix p
               = (Returned tt, {| Superposition.data := d;
                                  Superposition.log := Superposition.log p |})
               /\ Keeps d) ->
  forall (count i : nat) (p : Superposition.Plugin Data),
    (1 <= i)%nat -> (i + count = S (length rest))%nat ->
    (i - 1 <= length transforms)%nat ->
    Keeps (Superposition.data p) ->
    exists d,
      Superposition.for_from i count
        (Superposition.superpose_step resolveAndCheck findTagInSubtree updateTree
           stripTags toFixed (eA :: rest) transforms) p
      = ((if decide (i - 1 + count <= length transforms)%nat
          then Returned tt else Thrown Symmetry3D.TypeError),
         {| Superposition.data := d;
            Superposition.log :=
              (Superposition.log p
               ++ zip_with
                    (fun eB t =>
                       Superposition.message toFixed
                         (stripTags (Superposition.label eA))
                         (stripTags (Superposition.label eB)) (Superposition.rmsd t))
                    (drop (i - 1) rest) (drop (i - 1) transforms))%list |})
      /\ Keeps d.
Proof.
  intros Htr. induction count as [|count IH]; intros i p Hi Hlen Hts HK.
  - exists (Superposition.data p). split; [ | exact HK].
    cbn [Superposition.for_from]. rewrite decide_True by lia.
    rewrite (drop_ge rest) by lia. cbn. rewrite app_nil_r. destruct p; reflexivity.
  - cbn [Superposition.for_from]. unfold Tasks.bind at 1.
    unfold Superposition.superpose_step at 1.
    destruct i as [|j]; [lia | ].
    change ((eA :: rest) !! S j) with (rest !! j).
    change ((eA :: rest) !! 0%nat) with (Some eA).
    replace (S j - 1)%nat with j in * by lia.
    destruct (lookup_lt_is_Some_2 rest j ltac:(lia)) as [eB HeB].
    rewrite HeB.
    destruct (transforms !! j) as [t|] eqn:Et.
    + destruct (Htr eB (Superposition.bTransform t) p) as (d & Ed & Kd);
        [eapply list_elem_of_lookup_2; exact HeB | exact HK | ].
      unfold Tasks.bind at 1. rewrite Ed.
      unfold Superposition.log_info, Tasks.modify. cbn [Superposition.data Superposition.log].
      pose proof (lookup_lt_Some _ _ _ Et) as Hj.
      match goal with
      | |- context [Superposition.for_from _ _ _ ?q] =>
          destruct (IH (S (S j)) q ltac:(lia) ltac:(lia) ltac:(lia) Kd) as (d' & Ed' & Kd')
      end.
      exists d'. split; [ | exact Kd'].
      rewrite Ed'. cbn [Superposition.data Superposition.log].
      replace (S (S j) - 1)%nat with (S j) by lia.
      rewrite (drop_S _ _ _ HeB), (drop_S _ _ _ Et). cbn [zip_with].
      rewrite <- app_assoc. cbn [app].
      f_equal. destruct (decide (j + S count <= length transforms)%nat),
                 (decide (S j + count <= length transforms)%nat); try reflexivity; lia.
    + pose proof (lookup_ge_None_1 _ _ Et) as Hj.
      exists (Superposition.data p). split; [ | exact HK].
      unfold Tasks.throw. rewrite decide_False by lia.
      rewrite (drop_ge transforms) by lia.
      rewrite zip_with_nil_r, app_nil_r. destruct p; reflexivity.
Qed.


Lemma superpose_loop_returns
    (eA : Superposition.LociEntry Structure Element Cell)
    (rest : list (Superposition.LociEntry Structure Element Cell))
    (transforms : list (Superposition.Result Mat4 Num)) (p : Superposition.Plugin Data) :
  (forall b d, fst (updateTree b d) = Returned tt) ->
  exists d,
    Superposition.for_from 1 (length rest)
      (Superposition.superpose_step resolveAndCheck findTagInSubtree updateTree
         stripTags toFixed (eA :: rest) transforms) p
    = ((if decide (length rest <= length transforms)%nat
        then Returned tt else Thrown Symmetry3D.TypeError),
       {| Superposition.data := d;
          Superposition.log :=
            (Superposition.log p
             ++ zip_with
                  (fun eB t =>
                     Superposition.message toFixed
                       (stripTags (Superposition.label eA))
                       (stripTags (Superposition.label eB)) (Superposition.rmsd t))
                  rest transforms)%list |}).
Proof.
  intros Hno.
  destruct (for_from_superpose_step (fun _ => True) eA rest transforms) with
    (count := length rest) (i := 1%nat) (p := p) as (d & Ed & _); try lia; try exact I.
  - intros e matrix q _ _.
    pose proof (transform_returns (Superposition.cell e) matrix q Hno) as Hr.
    pose proof (transform_log (Superposition.cell e) matrix q) as Hl.
    destruct (Superposition.transform _ _ _ _ _ _) as [res [d l]].
    cbn in Hr, Hl. subst. eauto.
  - exists d. exact Ed.
Qed.

(** X20: when updateTree never throws and superpose (or alignAndSuperpose)
    gives at least one result for every entry after the first,
    superposeAtoms and superposeChains return and add to the log one line
    for every entry after the first, in the order of the entries: the line
    of entry i names the labels of the first entry and of entry i and the
    rmsd of result i - 1.  With no entry they return and change nothing. *)
Theorem superpose_logs_one_line_per_later_entry :
  (forall b d, fst (updateTree b d) = Returned tt) ->
  forall (alignSequences : bool)
         (eA : Superposition.LociEntry Structure Element Cell)
         (rest : list (Superposition.LociEntry Structure Element Cell))
         (p : Superposition.Plugin Data),
    let line transforms :=
      zip_with
        (fun eB t =>
           Superposition.message toFixed (stripTags (Superposition.label eA))
             (stripTags (Superposition.label eB)) (Superposition.rmsd t))
        rest transforms in
    let atomTransforms := superpose (map Superposition.loci (eA :: rest)) in
    let traceLocis := map (fun e => trace_loci (Superposition.loci e)) (eA :: rest) in
    let chainTransforms :=
      if alignSequences then alignAndSuperpose traceLocis else superpose traceLocis in
    ((length rest <= length atomTransforms)%nat ->
     exists d,
       Superposition.superposeAtoms resolveAndCheck findTagInSubtree updateTree superpose
         stripTags toFixed (eA :: rest) p
       = (Returned tt,
          {| Superposition.data := d;
             Superposition.log := (Superposition.log p ++ line atomTransforms)%list |})
       /\ length (line atomTransforms) = length rest)
    /\ ((length rest <= length chainTransforms)%nat ->
        exists d,
          Superposition.superposeChains resolveAndCheck findTagInSubtree updateTree
            trace_loci superpose alignAndSuperpose stripTags toFixed
            alignSequences (eA :: rest) p
          = (Returned tt,
             {| Superposition.data := d;
                Superposition.log := (Superposition.log p ++ line chainTransforms)%list |})
          /\ length (line chainTransforms) = length rest)
    /\ Superposition.superposeAtoms resolveAndCheck findTagInSubtree updateTree superpose
         stripTags toFixed [] p = (Returned tt, p)
    /\ Superposition.superposeChains resolveAndCheck findTagInSubtree updateTree
         trace_loci superpose alignAndSuperpose stripTags toFixed alignSequences [] p
       = (Returned tt, p).
Proof.
  intros Hno alignSequences eA rest p line atomTransforms traceLocis chainTransforms.
  split; [ | split; [ | split; reflexivity]].
  - intros Hlen.
    destruct (superpose_loop_returns eA rest atomTransforms p Hno) as (d & Ed).
    exists d. split; [ | unfold line; rewrite length_zip_with; lia].
    unfold Superposition.superposeAtoms. cbv zeta.
    rewrite length_map. cbn [length]. rewrite Nat.sub_1_r. cbn [Nat.pred].
    fold atomTransforms. rewrite Ed, decide_True by exact Hlen. reflexivity.
  - intros Hlen.
    destruct (superpose_loop_returns eA rest chainTransforms p Hno) as (d & Ed).
    exists d. split; [ | unfold line; rewrite length_zip_with; lia].
    unfold Superposition.superposeChains. cbv zeta.
    rewrite length_map. cbn [length]. rewrite Nat.sub_1_r. cbn [Nat.pred].
    fold traceLocis. fold chainTransforms. rewrite Ed, decide_True by exact Hlen. reflexivity.
Qed.

(** X21: when none of the cells of the entries after the first resolves in
    the state tree, superposeAtoms leaves the state tree as it is,
    updateTree is not run, and yet it logs that an entry was superposed for
    every entry after the first for which superpose gave a result; it
    returns when there is a result for every entry after the first and
    throws a TypeError otherwise. *)
Theorem superpose_logs_entries_whose_cell_is_gone :
  forall (eA : Superposition.LociEntry Structure Element Cell)
         (rest : list (Superposition.LociEntry Structure Element Cell))
         (p : Superposition.Plugin Data),
    (forall e, e ∈ rest -> resolveAndCheck (Superposition.data p) (Superposition.cell e) = None) ->
    let transforms := superpose (map Superposition.loci (eA :: rest)) in
    let line :=
      zip_with
        (fun eB t =>
           Superposition.message toFixed (stripTags (Superposition.label eA))
             (stripTags (Superposition.label eB)) (Superposition.rmsd t))
        rest transforms in
    Superposition.superposeAtoms resolveAndCheck findTagInSubtree updateTree superpose
      stripTags toFixed (eA :: rest) p
    = ((if decide (length rest <= length transforms)%nat
        then Returned tt else Thrown Symmetry3D.TypeError),
       {| Superposition.data := Superposition.data p;
          Superposition.log := (Superposition.log p ++ line)%list |})
    /\ length line = Nat.min (length rest) (length transforms).
Proof.
  intros eA rest p Hgone transforms line.
  split; [ | unfold line; rewrite length_zip_with; reflexivity].
  unfold Superposition.superposeAtoms. cbv zeta.
  rewrite length_map. cbn [length]. rewrite Nat.sub_1_r. cbn [Nat.pred].
  fold transforms.
  destruct (for_from_superpose_step (fun d => d = Superposition.data p) eA rest transforms)
    with (count := length rest) (i := 1%nat) (p := p) as (d & Ed & Kd);
    try lia; try reflexivity.
  - intros e matrix q He Hq. exists (Superposition.data q). split; [ | exact Hq].
    rewrite transform_unresolved by (rewrite Hq; apply Hgone, He).
    destruct q; reflexivity.
  - rewrite Ed. subst d. reflexivity.
Qed.


End SuperpositionFacts.

Lemma superpose_logs_one_line_per_later_entry_witness :
  exists d,
    Superposition.superposeAtoms resolve_every_cell untagged record_update superpose_onto_first
      plain_label two_decimals [chain_entry 1 "A"; chain_entry 2 "B"; chain_entry 3 "C"]
      fresh_plugin
    = (Returned tt,
       {| Superposition.data := d;
          Superposition.log := ["Superposed [A] and [B] with RMSD 0.00.";
                                "Superposed [A] and [C] with RMSD 0.00."] |}).
Proof.
  destruct (superpose_logs_one_line_per_later_entry
              resolve_every_cell untagged record_update plain_label two_decimals
              same_loci superpose_onto_first superpose_onto_first
              (fun b d => eq_refl) false (chain_entry 1 "A")
              [chain_entry 2 "B"; chain_entry 3 "C"] fresh_plugin) as [Hatoms _].
  destruct Hatoms as (d & E & _); [cbn; lia | ].
  exists d. exact E.
Defined.

Lemma superpose_logs_entries_whose_cell_is_gone_witness :
  Superposition.superposeAtoms resolve_no_cell untagged record_update superpose_onto_first
    plain_label two_decimals [chain_entry 1 "A"; chain_entry 2 "B"] fresh_plugin
  = (Returned tt,
     {| Superposition.data := [];
        Superposition.log := ["Superposed [A] and [B] with RMSD 0.00."] |})
  /\ Superposition.superposeAtoms resolve_no_cell untagged record_update superpose_nothing
       plain_label two_decimals [chain_entry 1 "A"; chain_entry 2 "B"] fresh_plugin
     = (Thrown Symmetry3D.TypeError, fresh_plugin).
Proof.
  split.
  - exact (proj1 (superpose_logs_entries_whose_cell_is_gone
                    resolve_no_cell untagged record_update plain_label two_decimals
                    superpose_onto_first (chain_entry 1 "A") [chain_entry 2 "B"] fresh_plugin
                    (fun e _ => eq_refl))).
  - exact (proj1 (superpose_logs_entries_whose_cell_is_gone
                    resolve_no_cell untagged record_update plain_label two_decimals
                    superpose_nothing (chain_entry 1 "A") [chain_entry 2 "B"] fresh_plugin
                    (fun e _ => eq_refl))).
Defined.


Section AtomEntriesFacts.

Context {Structure Element Cell : Type} `{EqDecision Structure}.
Variable Loci_size : Superposition.Loci Structure Element -> Z.
Variable substructureParent_get : Structure -> option Cell.
Variable cell_obj_data : Cell -> option Structure.
Variable structure_label : Structure -> string.

Lemma push_entry_keys (k0 : Structure)
    (e : Superposition.StructureSelectionHistoryEntry Structure Element)
    (m : list (Structure * list (Superposition.StructureSelectionHistoryEntry Structure Element))) :
  (Superposition.push_entry k0 e m).*1
  = if decide (k0 ∈ m.*1) then m.*1 else (m.*1 ++ [k0])%list.
Proof.
  induction m as [|[k' es] m IH]; cbn.
  - rewrite decide_False by (intros Hin; inversion Hin). reflexivity.
  - destruct (decide (k0 = k')) as [->|Hne]; cbn.
    + rewrite decide_True by constructor. reflexivity.
    + rewrite IH. destruct (decide (k0 ∈ m.*1)) as [Hin|Hin].
      * rewrite decide_True by (constructor; exact Hin). reflexivity.
      * rewrite decide_False; [reflexivity | ].
        intros Hin'. apply elem_of_cons in Hin' as [?|?]; contradiction.
Qed.

Lemma push_entry_elem_of (k0 : Structure)
    (e : Superposition.StructureSelectionHistoryEntry Structure Element)
    (m : list (Structure * list (Superposition.StructureSelectionHistoryEntry Structure Element)))
    (k : Structure) (es : list (Superposition.StructureSelectionHistoryEntry Structure Element)) :
  NoDup m.*1 ->
  (k, es) ∈ Superposition.push_entry k0 e m
  <-> (k <> k0 /\ (k, es) ∈ m)
      \/ (k = k0 /\ ((exists es0, (k0, es0) ∈ m /\ es = (es0 ++ [e])%list)
                     \/ ((k0 ∉ m.*1) /\ es = [e]))).
Proof.
  induction m as [|[k' es'] m IH]; cbn; intros Hnd.
  - rewrite list_elem_of_singleton. split.
    + intros [= -> ->]. right. split; [reflexivity | ]. right. split; [ | reflexivity].
      intros Hin; inversion Hin.
    + intros [[_ Hin]|[-> [(es0 & Hin & _)|[_ ->]]]]; try (inversion Hin; fail). reflexivity.
  - apply NoDup_cons in Hnd as [Hk' Hnd]. specialize (IH Hnd).
    assert (Hfresh : forall es0, (k', es0) ∈ m -> False).
    { intros es0 Hin. apply Hk'. apply list_elem_of_fmap. exists (k', es0). split; [reflexivity | exact Hin]. }
    destruct (decide (k0 = k')) as [<-|Hne].
    + rewrite !elem_of_cons. split.
      * intros [[= -> ->]|Hin].
        -- right. split; [reflexivity | ]. left. exists es'. split; [left | ]; reflexivity.
        -- left. split; [ | right; exact Hin].
           intros ->. exact (Hfresh _ Hin).
      * intros [[Hne [[= -> ->]|Hin]]|[-> [(es0 & Hin & ->)|[Hnin ->]]]].
        -- contradiction.
        -- right; exact Hin.
        -- apply elem_of_cons in Hin as [[= ->]|Hin]; [left; reflexivity | ].
           exfalso. exact (Hfresh _ Hin).
        -- exfalso. apply Hnin. left. reflexivity.
    + rewrite !elem_of_cons, IH. split.
      * intros [[= -> ->]|[[Hk Hin]|[-> [(es0 & Hin & ->)|[Hnin ->]]]]].
        -- left. split; [congruence | left; reflexivity].
        -- left. split; [exact Hk | right; exact Hin].
        -- right. split; [reflexivity | ]. left. exists es0. split; [right; exact Hin | reflexivity].
        -- right. split; [reflexivity | ]. right. split; [ | reflexivity].
           intros [?|?]; contradiction.
      * intros [[Hk [[= -> ->]|Hin]]|[-> [(es0 & Hin & ->)|[Hnin ->]]]].
        -- left; reflexivity.
        -- right. left. split; assumption.
        -- apply elem_of_cons in Hin as [[= -> ->]|Hin]; [contradiction | ].
           right. right. split; [reflexivity | ]. left. exists es0. split; [exact Hin | reflexivity].
        -- right. right. split; [reflexivity | ]. right. split; [ | reflexivity].
           intros Hin. apply Hnin. right. exact Hin.
Qed.

(** The groups of [structureEntries]: one for every structure that has a
  history entry of size 1, holding those entries in history order. *)
Lemma structureEntries_groups
    (history : list (Superposition.StructureSelectionHistoryEntry Structure Element)) :
  NoDup (Superposition.structureEntries Loci_size history).*1
  /\ forall k es,
       (k, es) ∈ Superposition.structureEntries Loci_size history
       <-> es = filter (fun e => Loci_size (Superposition.history_loci e) = 1
                                 /\ Superposition.structure (Superposition.history_loci e) = k)
                       history
           /\ es <> [].
Proof.
  unfold Superposition.structureEntries.
  induction history as [|e history IH] using rev_ind.
  - cbn. split; [constructor | ]. intros k es. split.
    + intros Hin; inversion Hin.
    + intros [-> Hne]. contradiction.
  - rewrite fold_left_app. cbn [fold_left].
    destruct IH as [Hnd IH].
    set (m := fold_left _ history []) in *.
    destruct (Z.eqb_spec (Loci_size (Superposition.history_loci e)) 1) as [He|He]; cbn [negb].
    + split.
      * rewrite push_entry_keys. destruct (decide _) as [Hin|Hin]; [exact Hnd | ].
        apply NoDup_app. split; [exact Hnd | ]. split; [ | apply NoDup_singleton].
        intros x Hx Hx'. apply list_elem_of_singleton in Hx' as ->. contradiction.
      * intros k es. rewrite push_entry_elem_of by exact Hnd.
        rewrite filter_app.
        set (k0 := Superposition.structure (Superposition.history_loci e)).
        assert (Hk0 : forall es0, (k0, es0) ∈ m -> k0 ∈ m.*1).
        { intros es0 Hin. apply list_elem_of_fmap. exists (k0, es0). split; [reflexivity | exact Hin]. }
        assert (Hk0' : k0 ∈ m.*1 -> exists es0, (k0, es0) ∈ m).
        { intros Hin. apply list_elem_of_fmap in Hin as ([k1 es0] & -> & Hin). exists es0. exact Hin. }
        destruct (decide (k = k0)) as [->|Hne].
        -- rewrite (filter_cons_True _ e []) by (split; [exact He | reflexivity]).
           rewrite filter_nil. split.
           ++ intros [[Hc _]|[_ [(es0 & Hin & ->)|[Hnin ->]]]]; [contradiction | | ].
              ** apply IH in Hin as [<- _]. split; [reflexivity | ].
                 intros Hc. apply app_eq_nil in Hc as [_ Hc]. discriminate.
              ** split; [ | discriminate].
                 destruct (filter _ history) as [|x l] eqn:Ef; [reflexivity | ].
                 exfalso. apply Hnin, (Hk0 (x :: l)), IH. rewrite Ef. split; [reflexivity | discriminate].
           ++ intros [-> _]. right. split; [reflexivity | ].
              destruct (decide (k0 ∈ m.*1)) as [Hin|Hnin].
              ** left. destruct (Hk0' Hin) as (es0 & Hes0). exists es0. split; [exact Hes0 | ].
                 apply IH in Hes0 as [<- _]. reflexivity.
              ** right. split; [exact Hnin | ].
                 destruct (filter _ history) as [|x l] eqn:Ef; [reflexivity | ].
                 exfalso. apply Hnin, (Hk0 (x :: l)), IH. rewrite Ef. split; [reflexivity | discriminate].
        -- rewrite (filter_cons_False _ e []) by (intros [_ Hc]; apply Hne; symmetry; exact Hc).
           rewrite filter_nil, app_nil_r. rewrite <- IH. split.
           ++ intros [[_ Hin]|[Hc _]]; [exact Hin | contradiction].
           ++ intros Hin. left. split; [exact Hne | exact Hin].
    + split; [exact Hnd | ].
      intros k es. rewrite IH, filter_app.
      rewrite (filter_cons_False _ e []) by (intros [Hc _]; contradiction).
      rewrite filter_nil, app_nil_r. reflexivity.
Qed.


(** What the second loop of [atomEntries] makes of the groups. *)
Lemma atomEntries_of_groups
    (m : list (Structure * list (Superposition.StructureSelectionHistoryEntry Structure Element))) :
  NoDup (m.*1) ->
  exists ks : list Structure,
    NoDup ks
    /\ (forall k, k ∈ ks -> k ∈ m.*1)
    /\ Forall2
         (fun k entry =>
            (k, Superposition.atoms entry) ∈ m
            /\ substructureParent_get k = Some (Superposition.cell entry)
            /\ cell_obj_data (Superposition.cell entry)
               = Some (Superposition.structure (Superposition.loci entry))
            /\ Superposition.elements (Superposition.loci entry)
               = map (fun a => mjoin (Superposition.elements (Superposition.history_loci a) !! 0%nat))
                     (Superposition.atoms entry)
            /\ Superposition.label entry
               = structure_label (Superposition.structure (Superposition.loci entry)))
         ks
         (omap
            (fun '(structure_, atoms_) =>
               match substructureParent_get structure_ with
               | None => None
               | Some cell_ =>
                   match cell_obj_data cell_ with
                   | None => None
                   | Some parent =>
                       let elements_ :=
                         map (fun a => mjoin (Superposition.elements (Superposition.history_loci a) !! 0%nat))
                             atoms_ in
                       let loci_ := {| Superposition.structure := parent;
                                       Superposition.elements := elements_ |} in
                       Some {| Superposition.loci := loci_;
                               Superposition.label := structure_label (Superposition.structure loci_);
                               Superposition.cell := cell_;
                               Superposition.atoms := atoms_ |}
                   end
               end) m)
    /\ forall k es cell_ parent,
         (k, es) ∈ m -> substructureParent_get k = Some cell_ ->
         cell_obj_data cell_ = Some parent -> k ∈ ks.
Proof.
  induction m as [|[k es] m IH]; intros Hnd.
  - exists []. split; [constructor | ]. split; [intros k Hk; inversion Hk | ].
    split; [constructor | ]. intros k es cell_ parent Hes. inversion Hes.
  - cbn in Hnd. apply NoDup_cons in Hnd as [Hk Hnd].
    destruct (IH Hnd) as (ks & Hks & Hsub & HF & Hcov).
    assert (HF' : Forall2
         (fun k0 entry =>
            (k0, Superposition.atoms entry) ∈ (k, es) :: m
            /\ substructureParent_get k0 = Some (Superposition.cell entry)
            /\ cell_obj_data (Superposition.cell entry)
               = Some (Superposition.structure (Superposition.loci entry))
            /\ Superposition.elements (Superposition.loci entry)
               = map (fun a => mjoin (Superposition.elements (Superposition.history_loci a) !! 0%nat))
                     (Superposition.atoms entry)
            /\ Superposition.label entry
               = structure_label (Superposition.structure (Superposition.loci entry)))
         ks
         (omap
            (fun '(structure_, atoms_) =>
               match substructureParent_get structure_ with
               | None => None
               | Some cell_ =>
                   match cell_obj_data cell_ with
                   | None => None
                   | Some parent =>
                       let elements_ :=
                         map (fun a => mjoin (Superposition.elements (Superposition.history_loci a) !! 0%nat))
                             atoms_ in
                       let loci_ := {| Superposition.structure := parent;
                                       Superposition.elements := elements_ |} in
                       Some {| Superposition.loci := loci_;
                               Superposition.label := structure_label (Superposition.structure loci_);
                               Superposition.cell := cell_;
                               Superposition.atoms := atoms_ |}
                   end
               end) m)).
    { eapply Forall2_impl; [exact HF | ]. cbn. intros k0 entry (H1 & H2). split; [right; exact H1 | exact H2]. }
    cbn [omap list_omap].
    destruct (substructureParent_get k) as [cell_|] eqn:Ec;
      [destruct (cell_obj_data cell_) as [parent|] eqn:Ep | ].
    + exists (k :: ks). split; [apply NoDup_cons; split; [intros Hin; apply Hk, Hsub, Hin | exact Hks] | ].
      split; [intros k0 Hk0; cbn; apply elem_of_cons in Hk0 as [->|Hk0]; [left | right; apply Hsub, Hk0] | ].
      split.
      * constructor; [ | exact HF']. cbn. rewrite Ec, Ep. repeat split. left.
      * intros k0 es0 c0 p0 Hin Hc0 Hp0. apply elem_of_cons in Hin as [[= -> ->]|Hin]; [left | ].
        right. eapply Hcov; eassumption.
    + exists ks. split; [exact Hks | ].
      split; [intros k0 Hk0; cbn; right; apply Hsub, Hk0 | ].
      split; [exact HF' | ].
      intros k0 es0 c0 p0 Hin Hc0 Hp0. apply elem_of_cons in Hin as [[= -> ->]|Hin].
      * congruence.
      * eapply Hcov; eassumption.
    + exists ks. split; [exact Hks | ].
      split; [intros k0 Hk0; cbn; right; apply Hsub, Hk0 | ].
      split; [exact HF' | ].
      intros k0 es0 c0 p0 Hin Hc0 Hp0. apply elem_of_cons in Hin as [[= -> ->]|Hin].
      * congruence.
      * eapply Hcov; eassumption.
Qed.

(** X23: atomEntries groups the history entries of size 1 by structure.
    There is one entry for every structure that has such a history entry
    and a parent cell with data, and none for any other; no two entries
    belong to the same structure; the atoms of an entry are the history
    entries of size 1 of its structure in history order; its cell is the
    parent cell of that structure, its loci is on the data of that cell and
    holds the first element of each atom in the same order, and its label
    is the label of that data. *)
Theorem atomEntries_groups_history_by_structure :
  forall (history : list (Superposition.StructureSelectionHistoryEntry Structure Element)),
    let atoms_of k :=
      filter (fun e => Loci_size (Superposition.history_loci e) = 1
                       /\ Superposition.structure (Superposition.history_loci e) = k)
             history in
    exists ks : list Structure,
      NoDup ks
      /\ Forall2
           (fun k entry =>
              Superposition.atoms entry = atoms_of k
              /\ Superposition.atoms entry <> []
              /\ substructureParent_get k = Some (Superposition.cell entry)
              /\ cell_obj_data (Superposition.cell entry)
                 = Some (Superposition.structure (Superposition.loci entry))
              /\ Superposition.elements (Superposition.loci entry)
                 = map (fun a => mjoin (Superposition.elements (Superposition.history_loci a) !! 0%nat))
                       (Superposition.atoms entry)
              /\ Superposition.label entry
                 = structure_label (Superposition.structure (Superposition.loci entry)))
           ks
           (Superposition.atomEntries Loci_size substructureParent_get cell_obj_data
              structure_label history)
      /\ forall k cell_ parent,
           atoms_of k <> [] -> substructureParent_get k = Some cell_ ->
           cell_obj_data cell_ = Some parent -> k ∈ ks.
Proof.
  intros history atoms_of.
  destruct (structureEntries_groups history) as [Hnd Hin].
  destruct (atomEntries_of_groups _ Hnd) as (ks & Hks & _ & HF & Hcov).
  exists ks. split; [exact Hks | ]. split.
  - unfold Superposition.atomEntries.
    eapply Forall2_impl; [exact HF | ]. cbn.
    intros k entry (H1 & H2). apply Hin in H1 as [H1 H1']. split; [exact H1 | ].
    split; [exact H1' | exact H2].
  - intros k cell_ parent Hne Hc Hp.
    apply (Hcov k (atoms_of k) cell_ parent); [ | exact Hc | exact Hp].
    apply Hin. split; [reflexivity | exact Hne].
Qed.

End AtomEntriesFacts.


(** ** The viewer app *)

Section ViewerFacts.

Context {HTMLElement PluginContext : Type}.
Variable getElementById : string -> option HTMLElement.
Variable createPlugin :
  HTMLElement -> Viewer.PluginSpec -> Tasks.Task (option Viewer.Config) PluginContext.
Variable ShowExpand_defaultValue : bool.
Variable ShowSelectionMode_defaultValue : bool.
Variable ShowAnimation_defaultValue : bool.
Variable State_DefaultServer_defaultValue : string.
Variable VolumeStreaming_DefaultServer_defaultValue : string.
Variable DefaultPdbProvider_defaultValue : string.
Variable DefaultEmdbProvider_defaultValue : string.
Variable DefaultPluginSpec : Viewer.PluginSpec.

(** With [extensions] given as [undefined] the constructor throws before it
  writes. *)
Lemma new_Viewer_extensions_undefined (elementId : string)
    (options : Viewer.PartialViewerOptions) (config : option Viewer.Config) :
  Viewer.extensions' options = Some None ->
  Viewer.new_Viewer getElementById createPlugin
    ShowExpand_defaultValue ShowSelectionMode_defaultValue ShowAnimation_defaultValue
    State_DefaultServer_defaultValue VolumeStreaming_DefaultServer_defaultValue
    DefaultPdbProvider_defaultValue DefaultEmdbProvider_defaultValue
    DefaultPluginSpec elementId options config
  = (Thrown "TypeError: Cannot read properties of undefined (reading 'map')", config).
Proof.
  intros E. unfold Viewer.new_Viewer, Viewer.make_spec. cbv zeta.
  cbn [Viewer.spread Viewer.extensions]. rewrite E. reflexivity.
Qed.

(** Otherwise the eight writes are made, and then the element is looked
  up. *)
Lemma new_Viewer_writes (elementId : string) (options : Viewer.PartialViewerOptions)
    (c : Viewer.Config) :
  Viewer.extensions' options <> Some None ->
  exists (c' : Viewer.Config) (spec : Viewer.PluginSpec),
    Viewer.new_Viewer getElementById createPlugin
      ShowExpand_defaultValue ShowSelectionMode_defaultValue ShowAnimation_defaultValue
      State_DefaultServer_defaultValue VolumeStreaming_DefaultServer_defaultValue
      DefaultPdbProvider_defaultValue DefaultEmdbProvider_defaultValue
      DefaultPluginSpec elementId options (Some c)
    = match getElementById elementId with
      | None => (Thrown ("Error: Could not get element with id '" +:+ elementId +:+ "'"),
                 Some c')
      | Some element => createPlugin element spec (Some c')
      end
    /\ forall k,
         let o := Viewer.spread
             (Viewer.DefaultViewerOptions
                ShowExpand_defaultValue ShowSelectionMode_defaultValue
                ShowAnimation_defaultValue State_DefaultServer_defaultValue
                VolumeStreaming_DefaultServer_defaultValue
                DefaultPdbProvider_defaultValue DefaultEmdbProvider_defaultValue)
             options in
         c' k
         = match k with
           | Viewer.Viewport_ShowExpand => Some (Viewer.bool_value (Viewer.viewportShowExpand o))
           | Viewer.Viewport_ShowSelectionMode =>
               Some (Viewer.bool_value (Viewer.viewportShowSelectionMode o))
           | Viewer.Viewport_ShowAnimation =>
               Some (Viewer.bool_value (Viewer.viewportShowAnimation o))
           | Viewer.State_DefaultServer => Some (Viewer.string_value (Viewer.pluginStateServer o))
           | Viewer.State_CurrentServer => Some (Viewer.string_value (Viewer.pluginStateServer o))
           | Viewer.VolumeStreaming_DefaultServer =>
               Some (Viewer.string_value (Viewer.volumeStreamingServer o))
           | Viewer.Download_DefaultPdbProvider => Some (Viewer.string_value (Viewer.pdbProvider o))
           | Viewer.Download_DefaultEmdbProvider =>
               Some (Viewer.string_value (Viewer.emdbProvider o))
           | Viewer.OtherItem key => c (Viewer.OtherItem key)
           end.
Proof.
  intros Hext. unfold Viewer.new_Viewer, Viewer.make_spec. cbv zeta.
  cbn [Viewer.spread Viewer.extensions].
  destruct (Viewer.extensions' options) as [[es|]|] eqn:E; [ | congruence | ];
    cbn [default from_option Datatypes.id Viewer.DefaultViewerOptions Viewer.extensions];
    (eexists _, _; split;
     [ destruct (getElementById elementId) as [element|]; reflexivity
     | intros [| | | | | | | |key]; reflexivity ]).
Qed.

Lemma new_Viewer_no_config (elementId : string) (options : Viewer.PartialViewerOptions) :
  (forall element spec config, snd (createPlugin element spec config) = config) ->
  snd (Viewer.new_Viewer getElementById createPlugin
         ShowExpand_defaultValue ShowSelectionMode_defaultValue ShowAnimation_defaultValue
         State_DefaultServer_defaultValue VolumeStreaming_DefaultServer_defaultValue
         DefaultPdbProvider_defaultValue DefaultEmdbProvider_defaultValue
         DefaultPluginSpec elementId options None) = None.
Proof.
  intros Hkeep. unfold Viewer.new_Viewer. cbv zeta.
  destruct (Viewer.make_spec _ _) as [spec|e]; [ | reflexivity].
  destruct (getElementById elementId) as [element|] eqn:Ee.
  - cbn. apply Hkeep.
  - reflexivity.
Qed.

(** X24: when the document has no element of the given id and the options
    do not give extensions as undefined, the constructor of Viewer throws
    'Could not get element with id ...', and by then the config map of
    DefaultPluginSpec already holds the eight settings of the options merged
    over the defaults (undefined where an option is given as undefined),
    with State.DefaultServer and State.CurrentServer both set to
    pluginStateServer; the other keys of the map are as before.  When the
    options give extensions as undefined, the constructor throws a
    TypeError before it writes anything. *)
Theorem new_Viewer_throws_after_writing_config :
  forall (elementId : string) (options : Viewer.PartialViewerOptions) (c : Viewer.Config),
    getElementById elementId = None ->
    let o := Viewer.spread
             (Viewer.DefaultViewerOptions
                ShowExpand_defaultValue ShowSelectionMode_defaultValue
                ShowAnimation_defaultValue State_DefaultServer_defaultValue
                VolumeStreaming_DefaultServer_defaultValue
                DefaultPdbProvider_defaultValue DefaultEmdbProvider_defaultValue)
             options in
    (Viewer.extensions' options <> Some None ->
     exists c' : Viewer.Config,
       Viewer.new_Viewer getElementById createPlugin
         ShowExpand_defaultValue ShowSelectionMode_defaultValue ShowAnimation_defaultValue
         State_DefaultServer_defaultValue VolumeStreaming_DefaultServer_defaultValue
         DefaultPdbProvider_defaultValue DefaultEmdbProvider_defaultValue
         DefaultPluginSpec elementId options (Some c)
       = (Thrown ("Error: Could not get element with id '" +:+ elementId +:+ "'"), Some c')
       /\ c' Viewer.Viewport_ShowExpand = Some (Viewer.bool_value (Viewer.viewportShowExpand o))
       /\ c' Viewer.Viewport_ShowSelectionMode
          = Some (Viewer.bool_value (Viewer.viewportShowSelectionMode o))
       /\ c' Viewer.Viewport_ShowAnimation
          = Some (Viewer.bool_value (Viewer.viewportShowAnimation o))
       /\ c' Viewer.State_DefaultServer = Some (Viewer.string_value (Viewer.pluginStateServer o))
       /\ c' Viewer.State_CurrentServer = Some (Viewer.string_value (Viewer.pluginStateServer o))
       /\ c' Viewer.VolumeStreaming_DefaultServer
          = Some (Viewer.string_value (Viewer.volumeStreamingServer o))
       /\ c' Viewer.Download_DefaultPdbProvider = Some (Viewer.string_value (Viewer.pdbProvider o))
       /\ c' Viewer.Download_DefaultEmdbProvider
          = Some (Viewer.string_value (Viewer.emdbProvider o))
       /\ forall key, c' (Viewer.OtherItem key) = c (Viewer.OtherItem key))
    /\ (Viewer.extensions' options = Some None ->
        Viewer.new_Viewer getElementById createPlugin
          ShowExpand_defaultValue ShowSelectionMode_defaultValue ShowAnimation_defaultValue
          State_DefaultServer_defaultValue VolumeStreaming_DefaultServer_defaultValue
          DefaultPdbProvider_defaultValue DefaultEmdbProvider_defaultValue
          DefaultPluginSpec elementId options (Some c)
        = (Thrown "TypeError: Cannot read properties of undefined (reading 'map')", Some c)).
Proof.
  intros elementId options c E o. split.
  - intros Hext.
    destruct (new_Viewer_writes elementId options c Hext) as (c' & spec & Ec & Hc).
    rewrite E in Ec. exists c'. split; [exact Ec | ].
    do 8 (split; [match goal with |- c' ?k = _ => exact (Hc k) end | ]).
    intros key. apply (Hc (Viewer.OtherItem key)).
  - apply new_Viewer_extensions_undefined.
Qed.

(** X25: the config map is shared by all viewers.  When createPlugin leaves
    the map as it is and the second of two constructor calls does not give
    extensions as undefined, then after the second call the map holds, key
    by key, what it would hold had the first call not been made, so a
    setting given to the first viewer only is back at its default; this
    holds whether or not either call finds its element or throws. *)
Theorem second_Viewer_overwrites_config_of_first :
  forall (id1 id2 : string) (options1 options2 : Viewer.PartialViewerOptions)
         (config : option Viewer.Config),
    (forall element spec cfg, snd (createPlugin element spec cfg) = cfg) ->
    Viewer.extensions' options2 <> Some None ->
    option_Forall2 (fun a b : Viewer.Config => forall k, a k = b k)
      (snd (Viewer.new_Viewer getElementById createPlugin
              ShowExpand_defaultValue ShowSelectionMode_defaultValue ShowAnimation_defaultValue
              State_DefaultServer_defaultValue VolumeStreaming_DefaultServer_defaultValue
              DefaultPdbProvider_defaultValue DefaultEmdbProvider_defaultValue
              DefaultPluginSpec id2 options2
              (snd (Viewer.new_Viewer getElementById createPlugin
                      ShowExpand_defaultValue ShowSelectionMode_defaultValue
                      ShowAnimation_defaultValue
                      State_DefaultServer_defaultValue VolumeStreaming_DefaultServer_defaultValue
                      DefaultPdbProvider_defaultValue DefaultEmdbProvider_defaultValue
                      DefaultPluginSpec id1 options1 config))))
      (snd (Viewer.new_Viewer getElementById createPlugin
              ShowExpand_defaultValue ShowSelectionMode_defaultValue ShowAnimation_defaultValue
              State_DefaultServer_defaultValue VolumeStreaming_DefaultServer_defaultValue
              DefaultPdbProvider_defaultValue DefaultEmdbProvider_defaultValue
              DefaultPluginSpec id2 options2 config)).
Proof.
  intros id1 id2 options1 options2 [c|] Hkeep Hext2.
  - assert (Hsnd : forall id options c0,
               Viewer.extensions' options <> Some None ->
               exists c', snd (Viewer.new_Viewer getElementById createPlugin
                                 ShowExpand_defaultValue ShowSelectionMode_defaultValue
                                 ShowAnimation_defaultValue
                                 State_DefaultServer_defaultValue
                                 VolumeStreaming_DefaultServer_defaultValue
                                 DefaultPdbProvider_defaultValue DefaultEmdbProvider_defaultValue
                                 DefaultPluginSpec id options (Some c0)) = Some c'
                          /\ (forall key, c' (Viewer.OtherItem key) = c0 (Viewer.OtherItem key))
                          /\ (forall k c1 c1',
                                snd (Viewer.new_Viewer getElementById createPlugin
                                       ShowExpand_defaultValue ShowSelectionMode_defaultValue
                                       ShowAnimation_defaultValue
                                       State_DefaultServer_defaultValue
                                       VolumeStreaming_DefaultServer_defaultValue
                                       DefaultPdbProvider_defaultValue
                                       DefaultEmdbProvider_defaultValue
                                       DefaultPluginSpec id options (Some c1)) = Some c1' ->
                                (forall key, c1 (Viewer.OtherItem key) = c0 (Viewer.OtherItem key)) ->
                                c1' k = c' k)).
    { intros id options c0 Hext.
      destruct (new_Viewer_writes id options c0 Hext) as (c' & spec & Ec & Hc).
      assert (Es : snd (Viewer.new_Viewer getElementById createPlugin
                          ShowExpand_defaultValue ShowSelectionMode_defaultValue
                          ShowAnimation_defaultValue
                          State_DefaultServer_defaultValue
                          VolumeStreaming_DefaultServer_defaultValue
                          DefaultPdbProvider_defaultValue DefaultEmdbProvider_defaultValue
                          DefaultPluginSpec id options (Some c0)) = Some c').
      { rewrite Ec. destruct (getElementById id); [apply Hkeep | reflexivity]. }
      exists c'. split; [exact Es | ]. split; [intros key; apply (Hc (Viewer.OtherItem key)) | ].
      intros k c1 c1' E1 Hother.
      destruct (new_Viewer_writes id options c1 Hext) as (c1'' & spec1 & Ec1 & Hc1).
      rewrite Ec1 in E1.
      assert (c1'' = c1') as <-.
      { destruct (getElementById id); [rewrite Hkeep in E1 | cbn in E1]; congruence. }
      rewrite Hc1, Hc. destruct k; try reflexivity. apply Hother. }
    destruct (Hsnd id2 options2 c Hext2) as (c2 & E2 & _ & Hsame). rewrite E2.
    assert (Hdec : Viewer.extensions' options1 = Some None
                   \/ Viewer.extensions' options1 <> Some None)
      by (destruct (Viewer.extensions' options1) as [[es|]|]; [right | left | right]; congruence).
    destruct Hdec as [Hu|Hext1].
    + rewrite (new_Viewer_extensions_undefined id1 options1 (Some c) Hu). cbn [snd].
      rewrite E2. constructor. reflexivity.
    + destruct (Hsnd id1 options1 c Hext1) as (c1 & E1 & Hother1 & _). rewrite E1.
      destruct (Hsnd id2 options2 c1 Hext2) as (c12 & E12 & _ & _). rewrite E12.
      constructor. intros k. apply (Hsame k c1 c12 E12 Hother1).
  - rewrite !new_Viewer_no_config by exact Hkeep. constructor.
Qed.

End ViewerFacts.

Lemma new_Viewer_throws_after_writing_config_witness :
  (exists c' : Viewer.Config,
     Viewer.new_Viewer empty_document plugin_of_spec true true true
       "https://webchem.example/state" "https://ds.example" "pdbe" "pdbe"
       bare_plugin_spec "app" (only_state_server "https://my.example/state") (Some empty_config)
     = (Thrown "Error: Could not get element with id 'app'", Some c')
     /\ c' Viewer.State_CurrentServer = Some (Viewer.VString "https://my.example/state")
     /\ c' Viewer.Download_DefaultPdbProvider = Some (Viewer.VString "pdbe"))
  /\ Viewer.new_Viewer empty_document plugin_of_spec true true true
       "https://webchem.example/state" "https://ds.example" "pdbe" "pdbe"
       bare_plugin_spec "app" extensions_undefined (Some empty_config)
     = (Thrown "TypeError: Cannot read properties of undefined (reading 'map')",
        Some empty_config).
Proof.
  split.
  - destruct (proj1 (new_Viewer_throws_after_writing_config
                       empty_document plugin_of_spec true true true
                       "https://webchem.example/state" "https://ds.example" "pdbe" "pdbe"
                       bare_plugin_spec "app" (only_state_server "https://my.example/state")
                       empty_config eq_refl))
      as (c' & E & _ & _ & _ & _ & Hcur & _ & Hpdb & _); [discriminate | ].
    exists c'. split; [exact E | ]. split; [exact Hcur | exact Hpdb].
  - apply (proj2 (new_Viewer_throws_after_writing_config
                    empty_document plugin_of_spec true true true
                    "https://webchem.example/state" "https://ds.example" "pdbe" "pdbe"
                    bare_plugin_spec "app" extensions_undefined empty_config eq_refl)).
    reflexivity.
Defined.

Lemma second_Viewer_overwrites_config_of_first_witness :
  option_Forall2 (fun a b : Viewer.Config => forall k, a k = b k)
    (snd (Viewer.new_Viewer app_document plugin_of_spec true true true
            "https://webchem.example/state" "https://ds.example" "pdbe" "pdbe"
            bare_plugin_spec "app" no_options
            (snd (Viewer.new_Viewer app_document plugin_of_spec true true true
                    "https://webchem.example/state" "https://ds.example" "pdbe" "pdbe"
                    bare_plugin_spec "app" (only_state_server "https://my.example/state")
                    (Some empty_config)))))
    (snd (Viewer.new_Viewer app_document plugin_of_spec true true true
            "https://webchem.example/state" "https://ds.example" "pdbe" "pdbe"
            bare_plugin_spec "app" no_options (Some empty_config))).
Proof.
  apply (second_Viewer_overwrites_config_of_first
           app_document plugin_of_spec true true true
           "https://webchem.example/state" "https://ds.example" "pdbe" "pdbe"
           bare_plugin_spec "app" "app" (only_state_server "https://my.example/state")
           no_options (Some empty_config)).
  - intros element spec cfg. reflexivity.
  - discriminate.
Defined.


(** ** More on the [InitAssemblySymmetry3D] action *)


